(** * cameractrls: control discovery and setting for V4L2 capture devices

    A shallow embedding of [cameractrls.py]: the descriptor scanner, the
    native (V4L2) control source, the Razer Kiyo Pro and Logitech extension
    unit sources and the aggregator, with the device and the sysfs files as
    explicit collaborators.

    Conventions.
    - Python [int] is [Z]; a [bytes] object is a [list Z] of values in
      0..255; a [str] is the [string] of its code points, which the model
      takes below 256.
    - A Python attribute that holds [None], an [int] or a [str] at different
      times (a control's [value], [default], ...) is a [pyval].
    - A [dict] iterated with [.items()] is the list of its pairs in
      insertion order.
    - Every [ioctl] goes through a [driver]: a deterministic machine whose
      answer [None] stands for the raised [OSError]. *)

From Stdlib Require Import ZArith List String Ascii Bool Lia DecimalString Permutation.
Import ListNotations.
Local Open Scope string_scope.
Local Open Scope list_scope.
Local Open Scope Z_scope.

Set Implicit Arguments.

(** ** Python values and byte strings *)

Definition bytes := list Z.

Inductive pyval : Type :=
| VNone
| VInt (n : Z)
| VStr (s : string).

Definition pyval_eqb (a b : pyval) : bool :=
  match a, b with
  | VNone, VNone => true
  | VInt x, VInt y => x =? y
  | VStr x, VStr y => String.eqb x y
  | _, _ => false
  end.

(** [b.find(sub)]: the lowest offset at which [sub] occurs, or -1. *)
Fixpoint starts_with (sub s : bytes) : bool :=
  match sub, s with
  | [], _ => true
  | _ :: _, [] => false
  | x :: sub', y :: s' => (x =? y) && starts_with sub' s'
  end.

Fixpoint find_from (s sub : bytes) (i : Z) : Z :=
  if starts_with sub s then i
  else match s with
       | [] => -1
       | _ :: s' => find_from s' sub (i + 1)
       end.

Definition bytes_find (s sub : bytes) : Z := find_from s sub 0.

(** [b[j]] on a [bytes] object: a negative index counts from the end, an
    index out of range raises [IndexError] ([None]). *)
Definition bytes_getitem (s : bytes) (j : Z) : option Z :=
  let n := Z.of_nat (List.length s) in
  let j' := if j <? 0 then j + n else j in
  if (0 <=? j') && (j' <? n) then nth_error s (Z.to_nat j') else None.

(** [sub] occurs in [s] at offset [k]. *)
Definition occurs_at (s sub : bytes) (k : Z) : Prop :=
  0 <= k <= Z.of_nat (List.length s) /\
  starts_with sub (skipn (Z.to_nat k) s) = true.

(** ** Text helpers: [os.path.basename], [str.strip] *)

Definition slash : ascii := "/"%char.

Fixpoint basename_from (acc p : string) : string :=
  match p with
  | EmptyString => acc
  | String c r =>
      if Ascii.eqb c slash then basename_from r r else basename_from acc r
  end.

(** Everything after the last slash (the whole path when there is none). *)
Definition basename (p : string) : string := basename_from p p.

(** [c.isspace()] for a code point below 256. *)
Definition is_space (c : ascii) : bool :=
  let n := N.to_nat (N_of_ascii c) in
  ((9 <=? n) && (n <=? 13) || (28 <=? n) && (n <=? 32)
   || (n =? 133) || (n =? 160))%nat.

Fixpoint lstrip (s : string) : string :=
  match s with
  | EmptyString => EmptyString
  | String c r => if is_space c then lstrip r else s
  end.

Fixpoint rstrip (s : string) : string :=
  match s with
  | EmptyString => EmptyString
  | String c r =>
      match rstrip r with
      | EmptyString => if is_space c then EmptyString else String c EmptyString
      | r' => String c r'
      end
  end.

Definition strip (s : string) : string := rstrip (lstrip s).

(** ** Warnings

    One constructor per [logging.warning] call of the program, with the
    values its message is formatted from. *)

Inductive warning : Type :=
| W_xu_get_len_failed
| W_xu_query_failed (query : Z)
| W_unit_id_read_failed (descfile : string)
| W_usb_id_read_failed (file : string)
| W_kiyo_no_menu (v : string) (ids : list string)
| W_logitech_no_menu (v : string) (ids : list string)
| W_logitech_unsupported (k v : string)
| W_logitech_mismatch (k : string) (desired current : pyval)
| W_v4l2_no_menu (v : string) (ids : list string)
| W_v4l2_unsupported (k v : string)
| W_v4l2_mismatch (k v : string) (got want : Z)
| W_v4l2_set_failed (k v : string)
| W_v4l2_get_failed (name : string)
| W_v4l2_update_failed (name : string)
| W_unknown_ctrls (ids : list string).

(** ** Descriptor scanner *)

(** The part of the file system the scanner looks at.  [read_bin] and
    [read_text] are [open(...).read()]; [None] is a raised exception. *)
Record sysfs : Type := {
  islink : string -> bool;
  readlink : string -> string;
  isfile : string -> bool;
  read_bin : string -> option bytes;
  read_text : string -> option string
}.

Definition sysfs_dir (fs : sysfs) (device : string) : string :=
  let device := if islink fs device then readlink fs device else device in
  let device := basename device in
  ("/sys/class/video4linux/" ++ device ++ "/../../../")%string.

(** The index handed to [descriptors[...]], when the scan reads a byte. *)
Definition unit_id_index (descriptors guid : bytes) : option Z :=
  let guid_start := bytes_find descriptors guid in
  if guid_start >? 0 then Some (guid_start - 1) else None.

Definition find_unit_id_in_sysfs (fs : sysfs) (device : string) (guid : bytes)
  : Z * list warning :=
  let descfile := (sysfs_dir fs device ++ "descriptors")%string in
  if negb (isfile fs descfile) then (0, [])
  else
    match read_bin fs descfile with
    | None => (0, [W_unit_id_read_failed descfile])
    | Some descriptors =>
        match unit_id_index descriptors guid with
        | Some j =>
            match bytes_getitem descriptors j with
            | Some b => (b, [])
            | None => (0, [W_unit_id_read_failed descfile])
            end
        | None => (0, [])
        end
    end.

Definition read_usb_id_from_file (fs : sysfs) (file : string)
  : string * list warning :=
  match read_text fs file with
  | Some s => (strip s, [])
  | None => ("", [W_usb_id_read_failed file])
  end.

Definition find_usb_ids_in_sysfs (fs : sysfs) (device : string)
  : string * list warning :=
  let vendorfile := (sysfs_dir fs device ++ "idVendor")%string in
  let productfile := (sysfs_dir fs device ++ "idProduct")%string in
  if negb (isfile fs vendorfile) || negb (isfile fs productfile) then ("", [])
  else
    let (vendor, w1) := read_usb_id_from_file fs vendorfile in
    let (product, w2) := read_usb_id_from_file fs productfile in
    ((vendor ++ ":" ++ product)%string, w1 ++ w2).

(** ** Built-in conversions: [int(s)], [str(n)], [bool(s)] *)

Definition digit_of (c : ascii) : option Z :=
  let n := Z.of_N (N_of_ascii c) in
  if (48 <=? n) && (n <=? 57) then Some (n - 48) else None.

Definition underscore : ascii := "_"%char.

(** Decimal digits, single underscores allowed between two digits. *)
Fixpoint int_digits (s : string) (acc : Z) (after_digit : bool) : option Z :=
  match s with
  | EmptyString => if after_digit then Some acc else None
  | String c r =>
      match digit_of c with
      | Some d => int_digits r (10 * acc + d) true
      | None =>
          if Ascii.eqb c underscore && after_digit
          then int_digits r acc false
          else None
      end
  end.

(** The blanks [int()] skips before and after the number: the ASCII ones
    only (tab to carriage return, and the space). *)
Definition int_space (c : ascii) : bool :=
  let n := N.to_nat (N_of_ascii c) in
  ((9 <=? n) && (n <=? 13) || (n =? 32))%nat.

Fixpoint int_lstrip (s : string) : string :=
  match s with
  | EmptyString => EmptyString
  | String c r => if int_space c then int_lstrip r else s
  end.

Fixpoint int_rstrip (s : string) : string :=
  match s with
  | EmptyString => EmptyString
  | String c r =>
      match int_rstrip r with
      | EmptyString => if int_space c then EmptyString else String c EmptyString
      | r' => String c r'
      end
  end.

Fixpoint is_ascii (s : string) : bool :=
  match s with
  | EmptyString => true
  | String c r => (N.to_nat (N_of_ascii c) <? 128)%nat && is_ascii r
  end.

(** What [int()] makes of a text that is not ASCII before it reads the
    number: a code point below 127 stays, a blank becomes a space, and the
    text is cut with a question mark at the first other code point (below
    256 none is a decimal digit). *)
Fixpoint to_ascii_decimal (s : string) : string :=
  match s with
  | EmptyString => EmptyString
  | String c r =>
      if (N.to_nat (N_of_ascii c) <? 127)%nat then String c (to_ascii_decimal r)
      else if is_space c then String " "%char (to_ascii_decimal r)
      else String "?"%char EmptyString
  end.

Fixpoint digit_count (s : string) : nat :=
  match s with
  | EmptyString => O
  | String c r =>
      match digit_of c with
      | Some _ => S (digit_count r)
      | None => digit_count r
      end
  end.

(** The default of [sys.int_max_str_digits]. *)
Definition int_max_str_digits : nat := 4300.

(** The number after the sign: digits and underscores to the end, no more
    digits than the limit. *)
Definition int_body (r : string) : option Z :=
  if (digit_count r <=? int_max_str_digits)%nat then int_digits r 0 false
  else None.

(** [int(s)] on a [str]; [None] is the raised [ValueError]. *)
Definition py_int (s : string) : option Z :=
  let t := if is_ascii s then s else to_ascii_decimal s in
  match int_rstrip (int_lstrip t) with
  | String "+"%char r => int_body r
  | String "-"%char r => option_map Z.opp (int_body r)
  | s' => int_body s'
  end.

(** [bool(s)] on a [str]: true unless the string is empty. *)
Definition py_bool (s : string) : bool :=
  match s with
  | EmptyString => false
  | String _ _ => true
  end.

Definition str_of_int (n : Z) : string :=
  DecimalString.NilZero.string_of_int (Z.to_int n).

(** [str(v)], as the f-strings of [print_ctrls] format a value. *)
Definition py_str (v : pyval) : string :=
  match v with
  | VNone => "None"
  | VInt n => str_of_int n
  | VStr s => s
  end.

(** Truth value of an attribute in [if c.default:]. *)
Definition pyval_truthy (v : pyval) : bool :=
  match v with
  | VNone => false
  | VInt n => negb (n =? 0)
  | VStr s => py_bool s
  end.

(** ** Data model *)

Module BaseCtrlMenu.
Record t : Type := mk {
  text_id : string;
  name : string;
  value : Z
}.
End BaseCtrlMenu.

Module KiyoMenu.
Record t : Type := mk {
  text_id : string;
  name : string;
  value : bytes;
  _before : option bytes
}.
End KiyoMenu.

Module BaseCtrl.
Record t (M : Type) : Type := mk {
  text_id : string;
  name : string;
  type : string;
  value : pyval;
  default : pyval;
  min : pyval;
  max : pyval;
  step : pyval;
  updater : bool;
  inactive : bool;
  menu : option (list M)
}.

Definition set_value M (c : t M) (v : pyval) : t M :=
  mk (text_id c) (name c) (type c) v (default c) (min c) (max c) (step c)
     (updater c) (inactive c) (menu c).

Definition set_default M (c : t M) (v : pyval) : t M :=
  mk (text_id c) (name c) (type c) (value c) v (min c) (max c) (step c)
     (updater c) (inactive c) (menu c).

Definition set_min M (c : t M) (v : pyval) : t M :=
  mk (text_id c) (name c) (type c) (value c) (default c) v (max c) (step c)
     (updater c) (inactive c) (menu c).

Definition set_max M (c : t M) (v : pyval) : t M :=
  mk (text_id c) (name c) (type c) (value c) (default c) (min c) v (step c)
     (updater c) (inactive c) (menu c).

Definition set_updater M (c : t M) (b : bool) : t M :=
  mk (text_id c) (name c) (type c) (value c) (default c) (min c) (max c)
     (step c) b (inactive c) (menu c).

Definition set_inactive M (c : t M) (b : bool) : t M :=
  mk (text_id c) (name c) (type c) (value c) (default c) (min c) (max c)
     (step c) (updater c) b (menu c).

Definition set_menu M (c : t M) (m : option (list M)) : t M :=
  mk (text_id c) (name c) (type c) (value c) (default c) (min c) (max c)
     (step c) (updater c) (inactive c) m.

(** [BaseCtrl.__init__]: the two flags start [False]. *)
Definition init M (text_id name type : string)
           (value default min max step : pyval) (menu : option (list M)) : t M :=
  mk text_id name type value default min max step false false menu.

(** [c.menu] where the program iterates it: the list itself. *)
Definition entries M (c : t M) : list M :=
  match menu c with
  | Some l => l
  | None => []
  end.
End BaseCtrl.

Definition KiyoCtrl : Type := BaseCtrl.t KiyoMenu.t.

Module LogitechCtrl.
Record t : Type := mk {
  base : BaseCtrl.t BaseCtrlMenu.t;
  _selector : Z;
  _len : Z;
  _offset : Z
}.

Definition with_base (c : t) (b : BaseCtrl.t BaseCtrlMenu.t) : t :=
  mk b (_selector c) (_len c) (_offset c).
End LogitechCtrl.

Module V4L2Ctrl.
Record t : Type := mk {
  base : BaseCtrl.t BaseCtrlMenu.t;
  _id : Z
}.

Definition with_base (c : t) (b : BaseCtrl.t BaseCtrlMenu.t) : t :=
  mk b (_id c).
End V4L2Ctrl.

(** Objects that carry a [text_id] attribute. *)
Class HasTextId (A : Type) : Type := text_id_of : A -> string.

#[export] Instance BaseCtrlMenu_text_id : HasTextId BaseCtrlMenu.t :=
  BaseCtrlMenu.text_id.
#[export] Instance KiyoMenu_text_id : HasTextId KiyoMenu.t :=
  KiyoMenu.text_id.
#[export] Instance BaseCtrl_text_id M : HasTextId (BaseCtrl.t M) :=
  @BaseCtrl.text_id M.
#[export] Instance LogitechCtrl_text_id : HasTextId LogitechCtrl.t :=
  fun c => BaseCtrl.text_id (LogitechCtrl.base c).
#[export] Instance V4L2Ctrl_text_id : HasTextId V4L2Ctrl.t :=
  fun c => BaseCtrl.text_id (V4L2Ctrl.base c).

(** ** Lookup helpers *)

Fixpoint find_by_value (menu : list BaseCtrlMenu.t) (value : Z)
  : option BaseCtrlMenu.t :=
  match menu with
  | [] => None
  | m :: rest =>
      if BaseCtrlMenu.value m =? value then Some m
      else find_by_value rest value
  end.

Fixpoint find_by_text_id A `{HasTextId A} (ctrls : list A) (text_id : string)
  : option A :=
  match ctrls with
  | [] => None
  | c :: rest =>
      if String.eqb (text_id_of c) text_id then Some c
      else find_by_text_id rest text_id
  end.

Fixpoint find_idx A (ctrls : list A) (pred : A -> bool) : option nat :=
  match ctrls with
  | [] => None
  | c :: rest =>
      if pred c then Some O
      else option_map S (find_idx rest pred)
  end.

(** The control found by [find_by_text_id] is an object of the list, and an
    assignment to one of its attributes changes that object: the first
    element with this [text_id] is replaced. *)
Fixpoint update_by_text_id A `{HasTextId A} (ctrls : list A) (text_id : string)
         (f : A -> A) : list A :=
  match ctrls with
  | [] => []
  | c :: rest =>
      if String.eqb (text_id_of c) text_id then f c :: rest
      else c :: update_by_text_id rest text_id f
  end.

(** [l.pop(i)] and [l.insert(i, x)] for an index that is not negative;
    [insert] past the end appends. *)
Definition list_pop A (l : list A) (i : nat) : option (A * list A) :=
  match nth_error l i with
  | Some x => Some (x, firstn i l ++ skipn (S i) l)
  | None => None
  end.

Definition list_insert A (l : list A) (i : nat) (x : A) : list A :=
  firstn i l ++ x :: skipn i l.

(** [b[i] = x] on a character buffer, [None] when [i] is out of range. *)
Definition buf_set (b : bytes) (i : Z) (x : Z) : option bytes :=
  if (0 <=? i) && (i <? Z.of_nat (List.length b))
  then Some (firstn (Z.to_nat i) b ++ x :: skipn (S (Z.to_nat i)) b)
  else None.

(** ** Textual identifiers *)

Definition lower_char (c : ascii) : ascii :=
  let n := N_of_ascii c in
  if ((65 <=? n) && (n <=? 90))%N then ascii_of_N (n + 32) else c.

Definition deleted_char (c : ascii) : bool :=
  existsb (Ascii.eqb c)
    [","%char; "&"%char; "("%char; "."%char; ")"%char; "/"%char].

(** [V4L2Ctrls.strtrans]: space and dash become an underscore. *)
Definition strtrans (c : ascii) : ascii :=
  if Ascii.eqb c " "%char || Ascii.eqb c "-"%char then underscore else c.

Fixpoint lower (s : string) : string :=
  match s with
  | EmptyString => EmptyString
  | String c r => String (lower_char c) (lower r)
  end.

Fixpoint translate (s : string) : string :=
  match s with
  | EmptyString => EmptyString
  | String c r =>
      if deleted_char c then translate r else String (strtrans c) (translate r)
  end.

(** [.replace(b'__', b'_')]: one pass from the left over occurrences that
    do not overlap. *)
Fixpoint replace_uu (s : string) : string :=
  match s with
  | EmptyString => EmptyString
  | String c r =>
      match r with
      | EmptyString => String c EmptyString
      | String c' r' =>
          if Ascii.eqb c underscore && Ascii.eqb c' underscore
          then String underscore (replace_uu r')
          else String c (replace_uu r)
      end
  end.

(** The driver's names are taken as text already: the model has no
    [bytes]-to-[str] decoding step. *)
Definition to_text_id (text : string) : string :=
  replace_uu (translate (lower text)).

(** ** The device control channel *)

Module v4l2_queryctrl.
Record t : Type := mk {
  id : Z;
  type : Z;
  name : string;
  minimum : Z;
  maximum : Z;
  step : Z;
  default : Z;
  flags : Z
}.
End v4l2_queryctrl.

(** What the driver fills in of a [v4l2_querymenu]: the union read as a
    name and read as a 64-bit value. *)
Module v4l2_querymenu.
Record t : Type := mk {
  name : string;
  value : Z
}.
End v4l2_querymenu.

Module uvc_xu_control_query.
Record t : Type := mk {
  unit : Z;
  selector : Z;
  query : Z;
  size : Z
}.
End uvc_xu_control_query.

(** The requests of the program, each with the arguments it is issued with
    (for [UVCIOC_CTRL_QUERY]: the buffer [data] points to). *)
Inductive request : Type :=
| VIDIOC_QUERYCTRL (id : Z)
| VIDIOC_G_CTRL (id : Z)
| VIDIOC_S_CTRL (id value : Z)
| VIDIOC_QUERYMENU (id index : Z)
| UVCIOC_CTRL_QUERY (q : uvc_xu_control_query.t) (data : bytes).

(** A driver with states [D].  Every request moves the state and answers
    with what the driver wrote to the request's structure, or with [None]
    when [ioctl] raises. *)
Record driver (D : Type) : Type := {
  ioctl_queryctrl : D -> Z -> D * option v4l2_queryctrl.t;
  ioctl_g_ctrl : D -> Z -> D * option Z;
  ioctl_s_ctrl : D -> Z -> Z -> D * option Z;
  ioctl_querymenu : D -> Z -> Z -> D * option v4l2_querymenu.t;
  ioctl_xu : D -> uvc_xu_control_query.t -> bytes -> D * option bytes
}.

Record world (D : Type) : Type := mkWorld {
  dev : D;
  trace : list request;
  log : list warning
}.

Inductive exn : Type := ValueError | TypeError | IndexError.

Inductive outcome (A : Type) : Type :=
| Ok (a : A)
| Raise (e : exn)
| OutOfFuel.
Arguments Raise {A} e.
Arguments OutOfFuel {A}.

(** Computations on the world that return, raise, or run out of fuel. *)
Definition M (D A : Type) : Type := world D -> world D * outcome A.

Definition ret {D A} (a : A) : M D A := fun w => (w, Ok a).

Definition bind {D A B} (m : M D A) (k : A -> M D B) : M D B :=
  fun w =>
    match m w with
    | (w', Ok a) => k a w'
    | (w', Raise e) => (w', Raise e)
    | (w', OutOfFuel) => (w', OutOfFuel)
    end.

Definition raise {D A} (e : exn) : M D A := fun w => (w, Raise e).

Definition out_of_fuel {D A} : M D A := fun w => (w, OutOfFuel).

Definition warn {D} (x : warning) : M D unit :=
  fun w => (mkWorld (dev w) (trace w) (log w ++ [x]), Ok tt).

Notation "x <- m ;; k" := (bind m (fun x => k))
  (at level 61, m at next level, right associativity).
Notation "m ;;; k" := (bind m (fun _ => k))
  (at level 61, right associativity).

(** A value that exists only when no exception was raised. *)
Definition lift {D A} (e : exn) (o : option A) : M D A :=
  match o with
  | Some a => ret a
  | None => raise e
  end.

(** [for x in l: s = body(s, x)]. *)
Fixpoint for_each {D S A} (body : S -> A -> M D S) (l : list A) (s : S) : M D S :=
  match l with
  | [] => ret s
  | a :: rest => s' <- body s a ;; for_each body rest s'
  end.

Definition run_ioctl {D R} (step : D -> D * option R) (r : request)
  : M D (option R) :=
  fun w =>
    let (d', answer) := step (dev w) in
    (mkWorld d' (trace w ++ [r]) (log w), Ok answer).

(** A buffer of fixed length after the driver wrote [reply] to its
    start. *)
Definition fill (buf reply : bytes) : bytes :=
  firstn (List.length buf) (reply ++ skipn (List.length reply) buf).

(** ** UVC extension unit queries *)

Definition UVC_SET_CUR : Z := 0x01.
Definition UVC_GET_CUR : Z := 0x81.
Definition UVC_GET_MIN : Z := 0x82.
Definition UVC_GET_MAX : Z := 0x83.
Definition UVC_GET_LEN : Z := 0x85.
Definition UVC_GET_DEF : Z := 0x87.

Definition EU1_SET_ISP : Z := 0x01.

Definition UVC_EU1_GUID : bytes :=
  [0xd0; 0x9e; 0xe4; 0x23; 0x78; 0x11; 0x31; 0x4f;
   0xae; 0x52; 0xd2; 0xfb; 0x8a; 0x8d; 0x3b; 0x48].

Definition AF_RESPONSIVE : bytes := [0xff; 0x06; 0x00; 0x00; 0x00; 0x00; 0x00; 0x00].
Definition AF_PASSIVE : bytes := [0xff; 0x06; 0x01; 0x00; 0x00; 0x00; 0x00; 0x00].
Definition HDR_OFF : bytes := [0xff; 0x02; 0x00; 0x00; 0x00; 0x00; 0x00; 0x00].
Definition HDR_ON : bytes := [0xff; 0x02; 0x01; 0x00; 0x00; 0x00; 0x00; 0x00].
Definition HDR_DARK : bytes := [0xff; 0x07; 0x00; 0x00; 0x00; 0x00; 0x00; 0x00].
Definition HDR_BRIGHT : bytes := [0xff; 0x07; 0x01; 0x00; 0x00; 0x00; 0x00; 0x00].
Definition FOV_WIDE : bytes := [0xff; 0x01; 0x00; 0x03; 0x00; 0x00; 0x00; 0x00].
Definition FOV_MEDIUM_PRE : bytes := [0xff; 0x01; 0x00; 0x03; 0x01; 0x00; 0x00; 0x00].
Definition FOV_MEDIUM : bytes := [0xff; 0x01; 0x01; 0x03; 0x01; 0x00; 0x00; 0x00].
Definition FOV_NARROW_PRE : bytes := [0xff; 0x01; 0x00; 0x03; 0x02; 0x00; 0x00; 0x00].
Definition FOV_NARROW : bytes := [0xff; 0x01; 0x01; 0x03; 0x02; 0x00; 0x00; 0x00].
Definition SAVE : bytes := [0xc0; 0x03; 0xa8; 0x00; 0x00; 0x00; 0x00; 0x00].

(** [ctypes.create_string_buffer(b)]: the bytes and a terminating NUL. *)
Definition to_buf (b : bytes) : bytes := b ++ [0].

(** [bytes(n)]: [n] zero bytes. *)
Definition zero_bytes (n : Z) : bytes := repeat 0 (Z.to_nat n).

(** A [c_uint16] read from the two bytes the driver wrote. *)
Definition uint16_of (b : bytes) : Z := nth 0 b 0 + 256 * nth 1 b 0.

Definition get_length_xu_control {D} (drv : driver D) (unit_id selector : Z)
  : M D Z :=
  let length := [0; 0] in
  let q := uvc_xu_control_query.mk unit_id selector UVC_GET_LEN 2 in
  r <- run_ioctl (fun d => ioctl_xu drv d q length) (UVCIOC_CTRL_QUERY q length) ;;
  match r with
  | Some reply => ret (uint16_of (fill length reply))
  | None => warn W_xu_get_len_failed ;;; ret (uint16_of length)
  end.

(** Returns the buffer [data] as the request leaves it. *)
Definition query_xu_control {D} (drv : driver D) (unit_id selector query : Z)
           (data : bytes) : M D bytes :=
  len <- get_length_xu_control drv unit_id selector ;;
  let q := uvc_xu_control_query.mk unit_id selector query len in
  r <- run_ioctl (fun d => ioctl_xu drv d q data) (UVCIOC_CTRL_QUERY q data) ;;
  match r with
  | Some reply => ret (fill data reply)
  | None => warn (W_xu_query_failed query) ;;; ret data
  end.

(** ** Razer Kiyo Pro source *)

Module KiyoProCtrls.
Record t : Type := mk {
  unit_id : Z;
  usb_ids : string;
  ctrls : list KiyoCtrl
}.

Definition KIYO_PRO_USB_ID : string := "1532:0e05".

Definition supported (self : t) : bool :=
  negb (unit_id self =? 0) && String.eqb (usb_ids self) KIYO_PRO_USB_ID.

(** [KiyoCtrl(text_id, name, menu)]. *)
Definition KiyoCtrl_init (text_id name : string) (menu : list KiyoMenu.t)
  : KiyoCtrl :=
  BaseCtrl.init text_id name "menu" VNone VNone VNone VNone VNone (Some menu).

Definition device_controls : list KiyoCtrl :=
  [ KiyoCtrl_init "kiyo_pro_af_mode" "AF Mode"
      [ KiyoMenu.mk "passive" "Passive" AF_PASSIVE None;
        KiyoMenu.mk "responsive" "Responsive" AF_RESPONSIVE None ];
    KiyoCtrl_init "kiyo_pro_hdr" "HDR"
      [ KiyoMenu.mk "off" "Off" HDR_OFF None;
        KiyoMenu.mk "on" "On" HDR_ON None ];
    KiyoCtrl_init "kiyo_pro_hdr_mode" "HDR Mode"
      [ KiyoMenu.mk "bright" "Bright" HDR_BRIGHT None;
        KiyoMenu.mk "dark" "Dark" HDR_DARK None ];
    KiyoCtrl_init "kiyo_pro_fov" "FOV"
      [ KiyoMenu.mk "wide" "Wide" FOV_WIDE None;
        KiyoMenu.mk "medium" "Medium" FOV_MEDIUM (Some FOV_MEDIUM_PRE);
        KiyoMenu.mk "narrow" "Narrow" FOV_NARROW (Some FOV_NARROW_PRE) ] ].

Definition get_device_controls (self : t) : t :=
  if negb (supported self) then mk (unit_id self) (usb_ids self) []
  else mk (unit_id self) (usb_ids self) device_controls.

(** [__init__]: both sysfs lookups, then the control table. *)
Definition init (fs : sysfs) (device : string) : t * list warning :=
  let (uid, w1) := find_unit_id_in_sysfs fs device UVC_EU1_GUID in
  let (ids, w2) := find_usb_ids_in_sysfs fs device in
  (get_device_controls (mk uid ids []), w1 ++ w2).

(** [if menu._before:] holds for a frame that is there and not empty. *)
Definition before_frame (menu : KiyoMenu.t) : option bytes :=
  match KiyoMenu._before menu with
  | Some (b :: rest) => Some (b :: rest)
  | _ => None
  end.

(** One round of the loop of [setup_ctrls]. *)
Definition setup_item {D} (drv : driver D) (self : t) (kv : string * string)
  : M D t :=
  let (k, v) := kv in
  match find_by_text_id (ctrls self) k with
  | None => ret self
  | Some ctrl =>
      match find_by_text_id (BaseCtrl.entries ctrl) v with
      | None =>
          warn (W_kiyo_no_menu v (map text_id_of (BaseCtrl.entries ctrl))) ;;;
          ret self
      | Some menu =>
          let self' :=
            mk (unit_id self) (usb_ids self)
               (update_by_text_id (ctrls self) k
                  (fun c => BaseCtrl.set_value c (VStr (KiyoMenu.text_id menu)))) in
          match before_frame menu with
          | Some pre =>
              query_xu_control drv (unit_id self) EU1_SET_ISP UVC_SET_CUR
                               (to_buf pre) ;;;
              ret tt
          | None => ret tt
          end ;;;
          query_xu_control drv (unit_id self) EU1_SET_ISP UVC_SET_CUR
                           (to_buf (KiyoMenu.value menu)) ;;;
          ret self'
      end
  end.

Definition setup_ctrls {D} (drv : driver D) (self : t)
           (params : list (string * string)) : M D t :=
  if negb (supported self) then ret self
  else
    self' <- for_each (setup_item drv) params self ;;
    query_xu_control drv (unit_id self') EU1_SET_ISP UVC_SET_CUR (to_buf SAVE) ;;;
    ret self'.

Definition update_ctrls {D} (self : t) : M D t := ret self.

Definition get_ctrls (self : t) : list KiyoCtrl := ctrls self.
End KiyoProCtrls.

(** ** Logitech peripheral source *)

Definition LOGITECH_PERIPHERAL_GUID : bytes :=
  [0x21; 0x2d; 0xe5; 0xff; 0x30; 0x80; 0x2c; 0x4e;
   0x82; 0xd9; 0xf5; 0x87; 0xd0; 0x05; 0x40; 0xbd].

Definition LOGITECH_PERIPHERAL_LED1_SEL : Z := 0x09.
Definition LOGITECH_PERIPHERAL_LED1_LEN : Z := 5.
Definition LOGITECH_PERIPHERAL_LED1_MODE_OFFSET : Z := 1.
Definition LOGITECH_PERIPHERAL_LED1_MODE_OFF : Z := 0x00.
Definition LOGITECH_PERIPHERAL_LED1_MODE_ON : Z := 0x01.
Definition LOGITECH_PERIPHERAL_LED1_MODE_BLINK : Z := 0x02.
Definition LOGITECH_PERIPHERAL_LED1_MODE_AUTO : Z := 0x03.
Definition LOGITECH_PERIPHERAL_LED1_FREQUENCY_OFFSET : Z := 3.

Module LogitechCtrls.
Record t : Type := mk {
  unit_id : Z;
  ctrls : list LogitechCtrl.t
}.

Definition supported (self : t) : bool := negb (unit_id self =? 0).

(** [LogitechCtrl(text_id, name, type, selector, len, offset, menu)]. *)
Definition LogitechCtrl_init (text_id name type : string)
           (selector len offset : Z) (menu : option (list BaseCtrlMenu.t))
  : LogitechCtrl.t :=
  LogitechCtrl.mk
    (BaseCtrl.init text_id name type VNone VNone VNone VNone VNone menu)
    selector len offset.

Definition declared_controls : list LogitechCtrl.t :=
  [ LogitechCtrl_init "logitech_led1_mode" "LED1 Mode" "menu"
      LOGITECH_PERIPHERAL_LED1_SEL
      LOGITECH_PERIPHERAL_LED1_LEN
      LOGITECH_PERIPHERAL_LED1_MODE_OFFSET
      (Some [ BaseCtrlMenu.mk "off" "Off" LOGITECH_PERIPHERAL_LED1_MODE_OFF;
              BaseCtrlMenu.mk "on" "On" LOGITECH_PERIPHERAL_LED1_MODE_ON;
              BaseCtrlMenu.mk "blink" "Blink" LOGITECH_PERIPHERAL_LED1_MODE_BLINK;
              BaseCtrlMenu.mk "auto" "Auto" LOGITECH_PERIPHERAL_LED1_MODE_AUTO ]);
    LogitechCtrl_init "logitech_led1_frequency" "LED1 Frequency" "integer"
      LOGITECH_PERIPHERAL_LED1_SEL
      LOGITECH_PERIPHERAL_LED1_LEN
      LOGITECH_PERIPHERAL_LED1_FREQUENCY_OFFSET
      None ].

(** A number read from the register, shown as the entry it selects when
    the menu has one. *)
Definition menu_text (menu : list BaseCtrlMenu.t) (n : Z) : pyval :=
  match find_by_value menu n with
  | Some m => VStr (BaseCtrlMenu.text_id m)
  | None => VInt n
  end.

(** The body of the loop that fills in one declared control. *)
Definition discover_ctrl {D} (drv : driver D) (uid : Z) (c : LogitechCtrl.t)
  : M D LogitechCtrl.t :=
  let sel := LogitechCtrl._selector c in
  let off := LogitechCtrl._offset c in
  let blank := to_buf (zero_bytes (LogitechCtrl._len c)) in
  default_config <- query_xu_control drv uid sel UVC_GET_DEF blank ;;
  minimum_config <- query_xu_control drv uid sel UVC_GET_MIN blank ;;
  maximum_config <- query_xu_control drv uid sel UVC_GET_MAX blank ;;
  current_config <- query_xu_control drv uid sel UVC_GET_CUR blank ;;
  default <- lift IndexError (bytes_getitem default_config off) ;;
  min <- lift IndexError (bytes_getitem minimum_config off) ;;
  max <- lift IndexError (bytes_getitem maximum_config off) ;;
  value <- lift IndexError (bytes_getitem current_config off) ;;
  let b := LogitechCtrl.base c in
  let b := BaseCtrl.set_default b (VInt default) in
  let b := BaseCtrl.set_min b (VInt min) in
  let b := BaseCtrl.set_max b (VInt max) in
  let b := BaseCtrl.set_value b (VInt value) in
  let b :=
    if String.eqb (BaseCtrl.type b) "menu" then
      let b := BaseCtrl.set_value b (menu_text (BaseCtrl.entries b) value) in
      BaseCtrl.set_default b (menu_text (BaseCtrl.entries b) default)
    else b in
  ret (LogitechCtrl.with_base c b).

Fixpoint discover_all {D} (drv : driver D) (uid : Z) (cs : list LogitechCtrl.t)
  : M D (list LogitechCtrl.t) :=
  match cs with
  | [] => ret []
  | c :: rest =>
      c' <- discover_ctrl drv uid c ;;
      rest' <- discover_all drv uid rest ;;
      ret (c' :: rest')
  end.

Definition get_device_controls {D} (drv : driver D) (self : t) : M D t :=
  if negb (supported self) then ret (mk (unit_id self) [])
  else
    cs <- discover_all drv (unit_id self) declared_controls ;;
    ret (mk (unit_id self) cs).

Definition init {D} (drv : driver D) (fs : sysfs) (device : string) : M D t :=
  let (uid, ws) := find_unit_id_in_sysfs fs device LOGITECH_PERIPHERAL_GUID in
  for_each (fun _ x => warn x) ws tt ;;;
  get_device_controls drv (mk uid []).

(** [current_config[ctrl._offset] = desired]: the index is checked, then
    the value must fit a [c_char]. *)
Definition store_byte {D} (buf : bytes) (off desired : Z) : M D bytes :=
  match buf_set buf off desired with
  | None => raise IndexError
  | Some buf' =>
      if (0 <=? desired) && (desired <? 256) then ret buf'
      else raise TypeError
  end.

(** From the register read to the assignment of [ctrl.value]. *)
Definition write_and_verify {D} (drv : driver D) (self : t) (k : string)
           (ctrl : LogitechCtrl.t) (desired : Z) : M D t :=
  let sel := LogitechCtrl._selector ctrl in
  let off := LogitechCtrl._offset ctrl in
  let b := LogitechCtrl.base ctrl in
  current_config <- query_xu_control drv (unit_id self) sel UVC_GET_CUR
                      (to_buf (zero_bytes (LogitechCtrl._len ctrl))) ;;
  current_config <- store_byte current_config off desired ;;
  current_config <- query_xu_control drv (unit_id self) sel UVC_SET_CUR
                      current_config ;;
  current_config <- query_xu_control drv (unit_id self) sel UVC_GET_CUR
                      current_config ;;
  current <- lift IndexError (bytes_getitem current_config off) ;;
  let (desired', current') :=
    if String.eqb (BaseCtrl.type b) "menu"
    then (menu_text (BaseCtrl.entries b) desired,
          menu_text (BaseCtrl.entries b) current)
    else (VInt desired, VInt current) in
  if negb (pyval_eqb current' desired') then
    warn (W_logitech_mismatch k desired' current') ;;; ret self
  else
    ret (mk (unit_id self)
            (update_by_text_id (ctrls self) k
               (fun c => LogitechCtrl.with_base c
                           (BaseCtrl.set_value (LogitechCtrl.base c) desired')))).

(** One round of the loop of [setup_ctrls]. *)
Definition setup_item {D} (drv : driver D) (self : t) (kv : string * string)
  : M D t :=
  let (k, v) := kv in
  match find_by_text_id (ctrls self) k with
  | None => ret self
  | Some ctrl =>
      let b := LogitechCtrl.base ctrl in
      if String.eqb (BaseCtrl.type b) "menu" then
        match find_by_text_id (BaseCtrl.entries b) v with
        | None =>
            warn (W_logitech_no_menu v (map text_id_of (BaseCtrl.entries b))) ;;;
            ret self
        | Some menu => write_and_verify drv self k ctrl (BaseCtrlMenu.value menu)
        end
      else if String.eqb (BaseCtrl.type b) "integer" then
        desired <- lift ValueError (py_int v) ;;
        write_and_verify drv self k ctrl desired
      else
        warn (W_logitech_unsupported k v) ;;; ret self
  end.

Definition setup_ctrls {D} (drv : driver D) (self : t)
           (params : list (string * string)) : M D t :=
  if negb (supported self) then ret self
  else for_each (setup_item drv) params self.

Definition update_ctrls {D} (self : t) : M D t := ret self.

Definition get_ctrls (self : t) : list LogitechCtrl.t := ctrls self.
End LogitechCtrls.

(** ** Native (V4L2) source *)

Definition V4L2_CTRL_TYPE_INTEGER : Z := 1.
Definition V4L2_CTRL_TYPE_BOOLEAN : Z := 2.
Definition V4L2_CTRL_TYPE_MENU : Z := 3.
Definition V4L2_CTRL_TYPE_INTEGER_MENU : Z := 9.

Definition V4L2_CTRL_FLAG_INACTIVE : Z := 0x0010.
Definition V4L2_CTRL_FLAG_NEXT_CTRL : Z := 0x80000000.
Definition V4L2_CTRL_FLAG_NEXT_COMPOUND : Z := 0x40000000.

Definition V4L2_CTRL_CLASS_USER : Z := 0x00980000.
Definition V4L2_CTRL_CLASS_CAMERA : Z := 0x009a0000.

Definition V4L2_CID_BASE : Z := Z.lor V4L2_CTRL_CLASS_USER 0x900.
Definition V4L2_CID_AUTO_WHITE_BALANCE : Z := V4L2_CID_BASE + 12.
Definition V4L2_CID_WHITE_BALANCE_TEMPERATURE : Z := V4L2_CID_BASE + 26.

Definition V4L2_CID_CAMERA_CLASS_BASE : Z := Z.lor V4L2_CTRL_CLASS_CAMERA 0x900.
Definition V4L2_CID_EXPOSURE_AUTO : Z := V4L2_CID_CAMERA_CLASS_BASE + 1.
Definition V4L2_CID_FOCUS_AUTO : Z := V4L2_CID_CAMERA_CLASS_BASE + 12.
Definition V4L2_CID_FOCUS_ABSOLUTE : Z := V4L2_CID_CAMERA_CLASS_BASE + 10.
Definition V4L2_CID_ISO_SENSITIVITY_AUTO : Z := V4L2_CID_CAMERA_CLASS_BASE + 24.

Definition V4L2_CTRL_UPDATERS : list Z :=
  [ V4L2_CID_EXPOSURE_AUTO;
    V4L2_CID_FOCUS_AUTO;
    V4L2_CID_AUTO_WHITE_BALANCE;
    V4L2_CID_ISO_SENSITIVITY_AUTO ].

(** The dictionary, as its items in insertion order. *)
Definition V4L2_CTRL_REORDERS : list (Z * Z) :=
  [ (V4L2_CID_FOCUS_AUTO, V4L2_CID_FOCUS_ABSOLUTE);
    (V4L2_CID_AUTO_WHITE_BALANCE, V4L2_CID_WHITE_BALANCE_TEMPERATURE) ].

(** A Python [int] stored to a [c_int32] or [c_uint32] field: no overflow
    check, the low 32 bits. *)
Definition wrap_int32 (n : Z) : Z := (n + 2 ^ 31) mod 2 ^ 32 - 2 ^ 31.
Definition wrap_uint32 (n : Z) : Z := n mod 2 ^ 32.

(** [range(lo, hi)]. *)
Definition py_range (lo hi : Z) : list Z :=
  map (fun n => lo + Z.of_nat n) (seq 0 (Z.to_nat (hi - lo))).

(** [if what and where:] holds for an index that is found and not 0. *)
Definition truthy_idx (i : option nat) : bool :=
  match i with
  | Some (S _) => true
  | _ => false
  end.

Module V4L2Ctrls.
Record t : Type := mk {
  ctrls : list V4L2Ctrl.t
}.

Definition enumerated_types : list Z :=
  [ V4L2_CTRL_TYPE_INTEGER; V4L2_CTRL_TYPE_BOOLEAN;
    V4L2_CTRL_TYPE_MENU; V4L2_CTRL_TYPE_INTEGER_MENU ].

Definition menu_types : list Z :=
  [ V4L2_CTRL_TYPE_MENU; V4L2_CTRL_TYPE_INTEGER_MENU ].

(** [to_type.get(ty)]; the lookup is made for the four enumerated types
    only, the last branch stands for the [None] of the others. *)
Definition to_type (ty : Z) : string :=
  if ty =? V4L2_CTRL_TYPE_INTEGER then "integer"
  else if ty =? V4L2_CTRL_TYPE_BOOLEAN then "boolean"
  else if ty =? V4L2_CTRL_TYPE_MENU then "menu"
  else if ty =? V4L2_CTRL_TYPE_INTEGER_MENU then "menu"
  else "None".

Definition map_base (f : BaseCtrl.t BaseCtrlMenu.t -> BaseCtrl.t BaseCtrlMenu.t)
           (c : V4L2Ctrl.t) : V4L2Ctrl.t :=
  V4L2Ctrl.with_base c (f (V4L2Ctrl.base c)).

(** One index of the menu loop. *)
Definition menu_step {D} (drv : driver D) (qctrl : v4l2_queryctrl.t)
           (b : BaseCtrl.t BaseCtrlMenu.t) (i : Z)
  : M D (BaseCtrl.t BaseCtrlMenu.t) :=
  let id := v4l2_queryctrl.id qctrl in
  let index := wrap_uint32 i in
  r <- run_ioctl (fun d => ioctl_querymenu drv d id index)
                 (VIDIOC_QUERYMENU id index) ;;
  match r with
  | None => ret b
  | Some qmenu =>
      let menu_text_id :=
        if v4l2_queryctrl.type qctrl =? V4L2_CTRL_TYPE_MENU
        then to_text_id (v4l2_querymenu.name qmenu)
        else str_of_int (v4l2_querymenu.value qmenu) in
      let menu_text :=
        if v4l2_queryctrl.type qctrl =? V4L2_CTRL_TYPE_MENU
        then v4l2_querymenu.name qmenu
        else menu_text_id in
      let v4l2menu := BaseCtrlMenu.mk menu_text_id menu_text index in
      let b := BaseCtrl.set_menu b (Some (BaseCtrl.entries b ++ [v4l2menu])) in
      let b := if pyval_eqb (BaseCtrl.value b) (VInt index)
               then BaseCtrl.set_value b (VStr menu_text_id) else b in
      let b := if pyval_eqb (BaseCtrl.default b) (VInt index)
               then BaseCtrl.set_default b (VStr menu_text_id) else b in
      ret b
  end.

(** The control built from one answer of [VIDIOC_QUERYCTRL] of an
    enumerated type. *)
Definition build_ctrl {D} (drv : driver D) (qctrl : v4l2_queryctrl.t)
  : M D V4L2Ctrl.t :=
  let id := v4l2_queryctrl.id qctrl in
  r <- run_ioctl (fun d => ioctl_g_ctrl drv d id) (VIDIOC_G_CTRL id) ;;
  value <- match r with
           | Some v => ret v
           | None => warn (W_v4l2_get_failed (v4l2_queryctrl.name qctrl)) ;;; ret 0
           end ;;
  let text_id := to_text_id (v4l2_queryctrl.name qctrl) in
  let text := v4l2_queryctrl.name qctrl in
  let ctrl_type := to_type (v4l2_queryctrl.type qctrl) in
  let b := BaseCtrl.init text_id text ctrl_type (VInt value)
             (VInt (v4l2_queryctrl.default qctrl))
             (VInt (v4l2_queryctrl.minimum qctrl))
             (VInt (v4l2_queryctrl.maximum qctrl))
             (VInt (v4l2_queryctrl.step qctrl)) None in
  let b := BaseCtrl.set_updater b (existsb (Z.eqb id) V4L2_CTRL_UPDATERS) in
  let b := BaseCtrl.set_inactive b
             (negb (Z.land (v4l2_queryctrl.flags qctrl) V4L2_CTRL_FLAG_INACTIVE =? 0)) in
  b <- (if existsb (Z.eqb (v4l2_queryctrl.type qctrl)) menu_types then
          for_each (menu_step drv qctrl)
                   (py_range (v4l2_queryctrl.minimum qctrl)
                             (v4l2_queryctrl.maximum qctrl + 1))
                   (BaseCtrl.set_menu b (Some []))
        else ret b) ;;
  ret (V4L2Ctrl.mk b id).

Definition next_flag : Z :=
  Z.lor V4L2_CTRL_FLAG_NEXT_CTRL V4L2_CTRL_FLAG_NEXT_COMPOUND.

(** The [while True] loop: [qid] is the id of the next query, [ctrls] the
    controls appended so far; the loop ends when the query raises. *)
Fixpoint enumerate {D} (drv : driver D) (fuel : nat) (qid : Z)
         (ctrls : list V4L2Ctrl.t) : M D (list V4L2Ctrl.t) :=
  match fuel with
  | O => out_of_fuel
  | S fuel' =>
      r <- run_ioctl (fun d => ioctl_queryctrl drv d qid) (VIDIOC_QUERYCTRL qid) ;;
      match r with
      | None => ret ctrls
      | Some qctrl =>
          ctrls' <- (if existsb (Z.eqb (v4l2_queryctrl.type qctrl)) enumerated_types
                     then c <- build_ctrl drv qctrl ;; ret (ctrls ++ [c])
                     else ret ctrls) ;;
          enumerate drv fuel' (Z.lor (v4l2_queryctrl.id qctrl) next_flag) ctrls'
      end
  end.

(** One pair of [V4L2_CTRL_REORDERS]: move the control [k] next to the
    control [v]. *)
Definition reorder_step (ctrls : list V4L2Ctrl.t) (kv : Z * Z)
  : list V4L2Ctrl.t :=
  let (k, v) := kv in
  let what := find_idx ctrls (fun c => V4L2Ctrl._id c =? k) in
  let where_ := find_idx ctrls (fun c => V4L2Ctrl._id c =? v) in
  if truthy_idx what && truthy_idx where_ then
    match what, where_ with
    | Some what, Some where_ =>
        match list_pop ctrls what with
        | Some (c, rest) =>
            list_insert rest
              (if (what <? where_)%nat then (where_ - 1)%nat else where_) c
        | None => ctrls
        end
    | _, _ => ctrls
    end
  else ctrls.

Definition reorder (ctrls : list V4L2Ctrl.t) : list V4L2Ctrl.t :=
  fold_left reorder_step V4L2_CTRL_REORDERS ctrls.

Definition get_device_controls {D} (drv : driver D) (fuel : nat) : M D t :=
  ctrls <- enumerate drv fuel next_flag [] ;;
  ret (mk (reorder ctrls)).

Definition init {D} (drv : driver D) (fuel : nat) : M D t :=
  get_device_controls drv fuel.

(** From the [try:] of [setup_ctrls] to the assignment of [ctrl.value]. *)
Definition write_ctrl {D} (drv : driver D) (self : t) (k v : string)
           (ctrl : V4L2Ctrl.t) (intvalue : Z) : M D t :=
  let id := V4L2Ctrl._id ctrl in
  let sent := wrap_int32 intvalue in
  r <- run_ioctl (fun d => ioctl_s_ctrl drv d id sent) (VIDIOC_S_CTRL id sent) ;;
  match r with
  | None => warn (W_v4l2_set_failed k v) ;;; ret self
  | Some echoed =>
      if negb (echoed =? intvalue) then
        warn (W_v4l2_mismatch k v echoed intvalue) ;;; ret self
      else
        let new_value :=
          if String.eqb (BaseCtrl.type (V4L2Ctrl.base ctrl)) "menu"
          then VStr v else VInt intvalue in
        ret (mk (update_by_text_id (ctrls self) k
                   (map_base (fun b => BaseCtrl.set_value b new_value))))
  end.

(** One round of the loop of [setup_ctrls]. *)
Definition setup_item {D} (drv : driver D) (self : t) (kv : string * string)
  : M D t :=
  let (k, v) := kv in
  match find_by_text_id (ctrls self) k with
  | None => ret self
  | Some ctrl =>
      let b := V4L2Ctrl.base ctrl in
      if String.eqb (BaseCtrl.type b) "integer" then
        intvalue <- lift ValueError (py_int v) ;;
        write_ctrl drv self k v ctrl intvalue
      else if String.eqb (BaseCtrl.type b) "boolean" then
        write_ctrl drv self k v ctrl (if py_bool v then 1 else 0)
      else if String.eqb (BaseCtrl.type b) "menu" then
        match find_by_text_id (BaseCtrl.entries b) v with
        | None =>
            warn (W_v4l2_no_menu v (map text_id_of (BaseCtrl.entries b))) ;;;
            ret self
        | Some menu => write_ctrl drv self k v ctrl (BaseCtrlMenu.value menu)
        end
      else
        warn (W_v4l2_unsupported k v) ;;; ret self
  end.

Definition setup_ctrls {D} (drv : driver D) (self : t)
           (params : list (string * string)) : M D t :=
  for_each (setup_item drv) params self.

(** One round of the loop of [update_ctrls], on the control at hand. *)
Definition update_ctrl {D} (drv : driver D) (c : V4L2Ctrl.t) : M D V4L2Ctrl.t :=
  let id := V4L2Ctrl._id c in
  r <- run_ioctl (fun d => ioctl_queryctrl drv d id) (VIDIOC_QUERYCTRL id) ;;
  match r with
  | None => warn (W_v4l2_update_failed (BaseCtrl.name (V4L2Ctrl.base c))) ;;; ret c
  | Some qctrl =>
      ret (map_base
             (fun b => BaseCtrl.set_inactive b
                (negb (Z.land (v4l2_queryctrl.flags qctrl)
                              V4L2_CTRL_FLAG_INACTIVE =? 0))) c)
  end.

Fixpoint update_all {D} (drv : driver D) (cs : list V4L2Ctrl.t)
  : M D (list V4L2Ctrl.t) :=
  match cs with
  | [] => ret []
  | c :: rest =>
      c' <- update_ctrl drv c ;;
      rest' <- update_all drv rest ;;
      ret (c' :: rest')
  end.

Definition update_ctrls {D} (drv : driver D) (self : t) : M D t :=
  cs <- update_all drv (ctrls self) ;; ret (mk cs).

Definition get_ctrls (self : t) : list V4L2Ctrl.t := ctrls self.
End V4L2Ctrls.

(** ** Control aggregator *)

(** A control of the merged list: an object of one of the three control
    classes. *)
Inductive any_ctrl : Type :=
| Native (c : V4L2Ctrl.t)
| Kiyo (c : KiyoCtrl)
| Logitech (c : LogitechCtrl.t).

#[export] Instance any_ctrl_text_id : HasTextId any_ctrl :=
  fun c =>
    match c with
    | Native c => text_id_of c
    | Kiyo c => text_id_of c
    | Logitech c => text_id_of c
    end.

Definition any_type (c : any_ctrl) : string :=
  match c with
  | Native c => BaseCtrl.type (V4L2Ctrl.base c)
  | Kiyo c => BaseCtrl.type c
  | Logitech c => BaseCtrl.type (LogitechCtrl.base c)
  end.

Definition any_value (c : any_ctrl) : pyval :=
  match c with
  | Native c => BaseCtrl.value (V4L2Ctrl.base c)
  | Kiyo c => BaseCtrl.value c
  | Logitech c => BaseCtrl.value (LogitechCtrl.base c)
  end.

(** [[m.text_id for m in c.menu]]. *)
Definition any_menu_ids (c : any_ctrl) : list string :=
  match c with
  | Native c => map text_id_of (BaseCtrl.entries (V4L2Ctrl.base c))
  | Kiyo c => map text_id_of (BaseCtrl.entries c)
  | Logitech c => map text_id_of (BaseCtrl.entries (LogitechCtrl.base c))
  end.

Definition tab : string := String (ascii_of_nat 9) EmptyString.

Fixpoint join (sep : string) (l : list string) : string :=
  match l with
  | [] => ""
  | [x] => x
  | x :: rest => (x ++ sep ++ join sep rest)%string
  end.

(** The line [print_ctrls] prints for one control. *)
Definition print_ctrl {M} `{HasTextId M} (c : BaseCtrl.t M) : string :=
  ((BaseCtrl.text_id c ++ " = ") ++
   (if String.eqb (BaseCtrl.type c) "menu" then
      (py_str (BaseCtrl.value c) ++ tab ++ "( ") ++
      (if pyval_truthy (BaseCtrl.default c)
       then "default: " ++ py_str (BaseCtrl.default c) ++ " " else "") ++
      "values: " ++
      join ", " (map text_id_of (BaseCtrl.entries c)) ++ " )"
    else if String.eqb (BaseCtrl.type c) "integer"
            || String.eqb (BaseCtrl.type c) "boolean" then
      (py_str (BaseCtrl.value c) ++ tab ++ "( default: " ++
       py_str (BaseCtrl.default c) ++ " min: " ++ py_str (BaseCtrl.min c) ++
       " max: " ++ py_str (BaseCtrl.max c)) ++
      (if negb (pyval_eqb (BaseCtrl.step c) (VInt 1))
       then " step: " ++ py_str (BaseCtrl.step c) else "") ++
      " )"
    else "") ++
   (if BaseCtrl.updater c then " | updater" else "") ++
   (if BaseCtrl.inactive c then " | inactive" else ""))%string.

Module CameraCtrls.
Record t : Type := mk {
  v4l2 : V4L2Ctrls.t;
  kiyo : KiyoProCtrls.t;
  logitech : LogitechCtrls.t
}.

Definition init {D} (drv : driver D) (fs : sysfs) (device : string)
           (fuel : nat) : M D t :=
  a <- V4L2Ctrls.init drv fuel ;;
  let (b, ws) := KiyoProCtrls.init fs device in
  for_each (fun _ x => warn x) ws tt ;;;
  c <- LogitechCtrls.init drv fs device ;;
  ret (mk a b c).

Definition get_ctrls (self : t) : list any_ctrl :=
  map Native (V4L2Ctrls.get_ctrls (v4l2 self)) ++
  map Kiyo (KiyoProCtrls.get_ctrls (kiyo self)) ++
  map Logitech (LogitechCtrls.get_ctrls (logitech self)).

Definition print_any (c : any_ctrl) : string :=
  match c with
  | Native c => print_ctrl (V4L2Ctrl.base c)
  | Kiyo c => print_ctrl c
  | Logitech c => print_ctrl (LogitechCtrl.base c)
  end.

(** The printed lines, in order. *)
Definition print_ctrls (self : t) : list string :=
  map print_any (get_ctrls self).

Definition mem (x : string) (l : list string) : bool :=
  existsb (String.eqb x) l.

(** [list(set(params.keys()) - set(ids))]: the keys that are no id, each
    once.  The order Python gives the list in is not specified; the model
    keeps the order of the keys. *)
Definition unknown_of (keys ids : list string) : list string :=
  nodup string_dec (filter (fun k => negb (mem k ids)) keys).

Definition setup_ctrls {D} (drv : driver D) (self : t)
           (params : list (string * string)) : M D t :=
  a <- V4L2Ctrls.setup_ctrls drv (v4l2 self) params ;;
  b <- KiyoProCtrls.setup_ctrls drv (kiyo self) params ;;
  c <- LogitechCtrls.setup_ctrls drv (logitech self) params ;;
  let self' := mk a b c in
  let unknown_ctrls :=
    unknown_of (map fst params) (map text_id_of (get_ctrls self')) in
  (if (0 <? Z.of_nat (List.length unknown_ctrls))
   then warn (W_unknown_ctrls unknown_ctrls) else ret tt) ;;;
  ret self'.

Definition update_ctrls {D} (drv : driver D) (self : t) : M D t :=
  a <- V4L2Ctrls.update_ctrls drv (v4l2 self) ;;
  b <- KiyoProCtrls.update_ctrls (kiyo self) ;;
  c <- LogitechCtrls.update_ctrls (logitech self) ;;
  ret (mk a b c).

(** The [id=currentValue] pairs of the printed lines. *)
Definition printed_pairs (self : t) : list (string * string) :=
  map (fun c => (text_id_of c, py_str (any_value c))) (get_ctrls self).
End CameraCtrls.

(** * Sample file systems and devices *)

(** A file system in which [/dev/video0] is a plain device node whose
    descriptors file holds [blob]; the two id files are absent. *)
Definition fs_with_descriptors (blob : bytes) : sysfs :=
  {| islink := fun _ => false;
     readlink := fun p => p;
     isfile := String.eqb "/sys/class/video4linux/video0/../../../descriptors";
     read_bin := fun _ => Some blob;
     read_text := fun _ => None |}.

(** The id files exist; reading the vendor id fails, the product id reads
    as [0e05] and a newline. *)
Definition fs_vendor_unreadable : sysfs :=
  {| islink := fun _ => false;
     readlink := fun p => p;
     isfile := fun p =>
       String.eqb p "/sys/class/video4linux/video0/../../../idVendor"
       || String.eqb p "/sys/class/video4linux/video0/../../../idProduct";
     read_bin := fun _ => None;
     read_text := fun p =>
       if String.eqb p "/sys/class/video4linux/video0/../../../idProduct"
       then Some ("0e05" ++ String (ascii_of_nat 10) EmptyString)%string
       else None |}.

(** Both id files readable: a Razer Kiyo Pro. *)
Definition fs_kiyo_ids : sysfs :=
  {| islink := fun _ => false;
     readlink := fun p => p;
     isfile := fun p =>
       String.eqb p "/sys/class/video4linux/video0/../../../idVendor"
       || String.eqb p "/sys/class/video4linux/video0/../../../idProduct";
     read_bin := fun _ => None;
     read_text := fun p =>
       if String.eqb p "/sys/class/video4linux/video0/../../../idProduct"
       then Some ("0e05" ++ String (ascii_of_nat 10) EmptyString)%string
       else Some ("1532" ++ String (ascii_of_nat 10) EmptyString)%string |}.

(** The content of the descriptors file, when it is there and readable. *)
Definition descriptors_of (fs : sysfs) (device : string) : option bytes :=
  let descfile := (sysfs_dir fs device ++ "descriptors")%string in
  if isfile fs descfile then read_bin fs descfile else None.

(** [k] is the lowest offset at which [sub] occurs in [s]. *)
Definition first_occurrence (s sub : bytes) (k : Z) : Prop :=
  occurs_at s sub k /\ forall j, 0 <= j < k -> ~ occurs_at s sub j.

Definition vendorfile_of (fs : sysfs) (device : string) : string :=
  (sysfs_dir fs device ++ "idVendor")%string.

Definition productfile_of (fs : sysfs) (device : string) : string :=
  (sysfs_dir fs device ++ "idProduct")%string.

(** A blob with the GUID of the Kiyo Pro unit at offset 2, after the unit
    id 5. *)
Definition blob_unit_5 : bytes := [9; 5] ++ UVC_EU1_GUID ++ [1].

(** A blob that starts with the GUID and holds it again at offset 17,
    after a byte 7. *)
Definition blob_guid_twice : bytes := UVC_EU1_GUID ++ [7] ++ UVC_EU1_GUID.

(** ** A table-driven sample driver

    Its state is the stored value of every control and the LED register
    frame.  [QUERYCTRL] with the next-control flag answers with the first
    control of the registry above the id asked for, as the kernel does. *)

Record sample_state : Type := mkSample {
  values : list (Z * Z);
  led_frame : bytes
}.

Fixpoint lookup (l : list (Z * Z)) (k : Z) : option Z :=
  match l with
  | [] => None
  | (k', v) :: rest => if k' =? k then Some v else lookup rest k
  end.

Fixpoint store (l : list (Z * Z)) (k v : Z) : list (Z * Z) :=
  match l with
  | [] => []
  | (k', v') :: rest =>
      if k' =? k then (k', v) :: rest else (k', v') :: store rest k v
  end.

Definition sample_queryctrl (registry : list v4l2_queryctrl.t) (qid : Z)
  : option v4l2_queryctrl.t :=
  if Z.land qid V4L2_CTRL_FLAG_NEXT_CTRL =? 0
  then find (fun q => v4l2_queryctrl.id q =? qid) registry
  else find (fun q => Z.land qid 0x0fffffff <? v4l2_queryctrl.id q) registry.

(** [on_set old written] is the register after a [SET_CUR] of
    [written]. *)
Definition sample_xu (on_set : bytes -> bytes -> bytes) (s : sample_state)
           (q : uvc_xu_control_query.t) (data : bytes)
  : sample_state * option bytes :=
  let query := uvc_xu_control_query.query q in
  if query =? UVC_GET_LEN then
    (s, Some [Z.of_nat (List.length (led_frame s)); 0])
  else if query =? UVC_SET_CUR then
    (mkSample (values s)
              (on_set (led_frame s)
                      (firstn (Z.to_nat (uvc_xu_control_query.size q)) data)),
     Some data)
  else if query =? UVC_GET_CUR then (s, Some (led_frame s))
  else if query =? UVC_GET_DEF then (s, Some [0; 1; 0; 5; 0])
  else if query =? UVC_GET_MIN then (s, Some [0; 0; 0; 0; 0])
  else if query =? UVC_GET_MAX then (s, Some [0; 3; 0; 255; 0])
  else (s, None).

Definition sample_driver (registry : list v4l2_queryctrl.t)
           (menus : Z -> Z -> option v4l2_querymenu.t)
           (on_set : bytes -> bytes -> bytes) : driver sample_state :=
  {| ioctl_queryctrl := fun s qid => (s, sample_queryctrl registry qid);
     ioctl_g_ctrl := fun s id => (s, lookup (values s) id);
     ioctl_s_ctrl := fun s id v =>
       match lookup (values s) id with
       | Some _ => (mkSample (store (values s) id v) (led_frame s), Some v)
       | None => (s, None)
       end;
     ioctl_querymenu := fun s id index => (s, menus id index);
     ioctl_xu := sample_xu on_set |}.

(** The register takes what is written / keeps what it holds. *)
Definition accept_write (old written : bytes) : bytes := written.
Definition ignore_write (old written : bytes) : bytes := old.

Definition no_menus (id index : Z) : option v4l2_querymenu.t := None.

Definition start (vals : list (Z * Z)) (frame : bytes) : world sample_state :=
  mkWorld (mkSample vals frame) [] [].

(** A camera whose first control is the automatic white balance, followed
    by gamma and the white balance temperature. *)
Definition V4L2_CID_GAMMA : Z := V4L2_CID_BASE + 16.

Definition wb_registry : list v4l2_queryctrl.t :=
  [ v4l2_queryctrl.mk V4L2_CID_AUTO_WHITE_BALANCE V4L2_CTRL_TYPE_BOOLEAN
      "White Balance, Automatic" 0 1 1 1 0;
    v4l2_queryctrl.mk V4L2_CID_GAMMA V4L2_CTRL_TYPE_INTEGER
      "Gamma" 90 150 1 120 0;
    v4l2_queryctrl.mk V4L2_CID_WHITE_BALANCE_TEMPERATURE V4L2_CTRL_TYPE_INTEGER
      "White Balance Temperature" 2800 6500 10 4600 0 ].

Definition wb_driver : driver sample_state :=
  sample_driver wb_registry no_menus accept_write.

Definition wb_start : world sample_state :=
  start [ (V4L2_CID_AUTO_WHITE_BALANCE, 0);
          (V4L2_CID_GAMMA, 120);
          (V4L2_CID_WHITE_BALANCE_TEMPERATURE, 4600) ] [].

(** The ids of a control list, in order. *)
Definition ids_of (ctrls : list V4L2Ctrl.t) : list Z := map V4L2Ctrl._id ctrls.

(** [a] sits immediately before [b] in [l]. *)
Definition adjacent (a b : Z) (l : list Z) : Prop :=
  exists pre post, l = pre ++ a :: b :: post.

(** The frames written with [SET_CUR], in the order of the requests. *)
Definition xu_writes (tr : list request) : list bytes :=
  flat_map (fun r =>
              match r with
              | UVCIOC_CTRL_QUERY q data =>
                  if uvc_xu_control_query.query q =? UVC_SET_CUR then [data] else []
              | _ => []
              end) tr.

(** The controls of a Kiyo source are those of the table, whatever their
    values. *)
Definition kiyo_shape (cs : list KiyoCtrl) : Prop :=
  Forall2 (fun c d => BaseCtrl.text_id c = BaseCtrl.text_id d /\
                      BaseCtrl.menu c = BaseCtrl.menu d)
          cs KiyoProCtrls.device_controls.

(** The frames the table prescribes for one assignment [k=v]. *)
Definition kiyo_frames (kv : string * string) : list bytes :=
  match find_by_text_id KiyoProCtrls.device_controls (fst kv) with
  | None => []
  | Some ctrl =>
      match find_by_text_id (BaseCtrl.entries ctrl) (snd kv) with
      | None => []
      | Some menu =>
          match KiyoProCtrls.before_frame menu with
          | Some pre => [to_buf pre]
          | None => []
          end ++ [to_buf (KiyoMenu.value menu)]
      end
  end.

Definition kiyo_supported : KiyoProCtrls.t :=
  KiyoProCtrls.mk 4 "1532:0e05" KiyoProCtrls.device_controls.

(** The controls of a Logitech source are the declared ones, whatever
    their values. *)
Definition logitech_same (c d : LogitechCtrl.t) : Prop :=
  BaseCtrl.type (LogitechCtrl.base c) = BaseCtrl.type (LogitechCtrl.base d) /\
  BaseCtrl.menu (LogitechCtrl.base c) = BaseCtrl.menu (LogitechCtrl.base d) /\
  LogitechCtrl._selector c = LogitechCtrl._selector d /\
  LogitechCtrl._len c = LogitechCtrl._len d /\
  LogitechCtrl._offset c = LogitechCtrl._offset d.

Definition logitech_shape (cs : list LogitechCtrl.t) : Prop :=
  Forall2 (fun c d => text_id_of c = text_id_of d /\ logitech_same c d)
          cs LogitechCtrls.declared_controls.




Definition logitech_store (self : LogitechCtrls.t) (k : string) (x : pyval)
  : LogitechCtrls.t :=
  LogitechCtrls.mk (LogitechCtrls.unit_id self)
    (update_by_text_id (LogitechCtrls.ctrls self) k
       (fun c => LogitechCtrl.with_base c
                   (BaseCtrl.set_value (LogitechCtrl.base c) x))).

Definition logged {D} (w : world D) (x : warning) : world D :=
  mkWorld (dev w) (trace w) (log w ++ [x]).

(** The payload transfers of a trace: every extension unit request but the
    length queries, as its request code and the buffer it is issued
    with. *)
Definition xu_payloads (tr : list request) : list (Z * bytes) :=
  flat_map (fun r =>
              match r with
              | UVCIOC_CTRL_QUERY q data =>
                  if uvc_xu_control_query.query q =? UVC_GET_LEN then []
                  else [(uvc_xu_control_query.query q, data)]
              | _ => []
              end) tr.

Definition logitech_discovered : LogitechCtrls.t :=
  LogitechCtrls.mk 3
    (map (fun c => LogitechCtrl.with_base c
                     (BaseCtrl.set_value (LogitechCtrl.base c) (VInt 2)))
         LogitechCtrls.declared_controls).

Definition led_driver (on_set : bytes -> bytes -> bytes) : driver sample_state :=
  sample_driver [] no_menus on_set.

Definition led_start : world sample_state := start [] [0; 1; 0; 2; 0].

Definition led_frequency_ctrl : LogitechCtrl.t :=
  LogitechCtrl.with_base
    (LogitechCtrls.LogitechCtrl_init "logitech_led1_frequency" "LED1 Frequency"
       "integer" LOGITECH_PERIPHERAL_LED1_SEL LOGITECH_PERIPHERAL_LED1_LEN
       LOGITECH_PERIPHERAL_LED1_FREQUENCY_OFFSET None)
    (BaseCtrl.set_value
       (BaseCtrl.init "logitech_led1_frequency" "LED1 Frequency" "integer"
          VNone VNone VNone VNone VNone None)
       (VInt 2)).

(** A file system without descriptors: no extension unit is found. *)
Definition fs_plain : sysfs :=
  {| islink := fun _ => false;
     readlink := fun p => p;
     isfile := fun _ => false;
     read_bin := fun _ => None;
     read_text := fun _ => None |}.

(** A camera with two controls whose names differ by a comma. *)
Definition V4L2_CID_ZOOM_ABSOLUTE : Z := V4L2_CID_CAMERA_CLASS_BASE + 13.
Definition V4L2_CID_ZOOM_RELATIVE : Z := V4L2_CID_CAMERA_CLASS_BASE + 14.

Definition zoom_registry : list v4l2_queryctrl.t :=
  [ v4l2_queryctrl.mk V4L2_CID_ZOOM_ABSOLUTE V4L2_CTRL_TYPE_INTEGER
      "Zoom, Absolute" 100 500 1 100 0;
    v4l2_queryctrl.mk V4L2_CID_ZOOM_RELATIVE V4L2_CTRL_TYPE_INTEGER
      "Zoom Absolute" 0 10 1 0 0 ].

Definition zoom_driver : driver sample_state :=
  sample_driver zoom_registry no_menus accept_write.

Definition zoom_start : world sample_state :=
  start [ (V4L2_CID_ZOOM_ABSOLUTE, 100); (V4L2_CID_ZOOM_RELATIVE, 0) ] [].

(** The six ids of the two vendor tables. *)
Definition vendor_ids : list string :=
  map text_id_of KiyoProCtrls.device_controls ++
  map text_id_of LogitechCtrls.declared_controls.

(** A vendor source holds its table, or nothing when it is not
    supported. *)
Definition vendor_tables (self : CameraCtrls.t) : Prop :=
  (KiyoProCtrls.ctrls (CameraCtrls.kiyo self) = [] \/
   kiyo_shape (KiyoProCtrls.ctrls (CameraCtrls.kiyo self))) /\
  (LogitechCtrls.ctrls (CameraCtrls.logitech self) = [] \/
   logitech_shape (LogitechCtrls.ctrls (CameraCtrls.logitech self))).

Definition native_ids (self : CameraCtrls.t) : list string :=
  map text_id_of (V4L2Ctrls.ctrls (CameraCtrls.v4l2 self)).

Definition merged_ids (self : CameraCtrls.t) : list string :=
  map text_id_of (CameraCtrls.get_ctrls self).

(** No string occurs twice. *)
Fixpoint distinct (l : list string) : bool :=
  match l with
  | [] => true
  | x :: rest => negb (CameraCtrls.mem x rest) && distinct rest
  end.

Definition no_cam : CameraCtrls.t :=
  CameraCtrls.mk (V4L2Ctrls.mk []) (KiyoProCtrls.mk 0 "" []) (LogitechCtrls.mk 0 []).

(** The sources of the white balance camera after discovery. *)
Definition wb_cam : CameraCtrls.t :=
  Eval vm_compute in
    match CameraCtrls.init wb_driver fs_plain "/dev/video0" 4 wb_start with
    | (_, Ok cam) => cam
    | _ => no_cam
    end.

(** The value of a menu control is the id of one of its entries, or a
    number that is the code of none of them. *)
Definition resolved_or_raw (b : BaseCtrl.t BaseCtrlMenu.t) : Prop :=
  (exists m, In m (BaseCtrl.entries b) /\
             BaseCtrl.value b = VStr (BaseCtrlMenu.text_id m)) \/
  (exists n, BaseCtrl.value b = VInt n /\
             forall m, In m (BaseCtrl.entries b) -> BaseCtrlMenu.value m <> n).

(** The value of a menu control is the id of one of its entries. *)
Definition resolved (b : BaseCtrl.t BaseCtrlMenu.t) : Prop :=
  exists m, In m (BaseCtrl.entries b) /\
            BaseCtrl.value b = VStr (BaseCtrlMenu.text_id m).

(** An LED register whose mode byte is 7, the code of no entry. *)
Definition led_mode_7 : world sample_state := start [] [0; 7; 0; 2; 0].

Definition type_and_value {M} (b : BaseCtrl.t M) : string * pyval :=
  (BaseCtrl.type b, BaseCtrl.value b).

(** A camera with one menu control: the power line frequency, set to its
    entry 1. *)
Definition V4L2_CID_POWER_LINE_FREQUENCY : Z := V4L2_CID_BASE + 24.

Definition plf_registry : list v4l2_queryctrl.t :=
  [ v4l2_queryctrl.mk V4L2_CID_POWER_LINE_FREQUENCY V4L2_CTRL_TYPE_MENU
      "Power Line Frequency" 0 2 1 2 0 ].

Definition plf_menus (id index : Z) : option v4l2_querymenu.t :=
  if id =? V4L2_CID_POWER_LINE_FREQUENCY then
    if index =? 0 then Some (v4l2_querymenu.mk "Disabled" 0)
    else if index =? 1 then Some (v4l2_querymenu.mk "50 Hz" 0)
    else if index =? 2 then Some (v4l2_querymenu.mk "60 Hz" 0)
    else None
  else None.

Definition plf_driver : driver sample_state :=
  sample_driver plf_registry plf_menus accept_write.

Definition plf_start : world sample_state :=
  start [ (V4L2_CID_POWER_LINE_FREQUENCY, 1) ] [].

Definition plf_ctrl : V4L2Ctrl.t :=
  V4L2Ctrl.mk
    (BaseCtrl.mk "power_line_frequency" "Power Line Frequency" "menu"
       (VStr "50_hz") (VStr "60_hz") (VInt 0) (VInt 2) (VInt 1) false false
       (Some [ BaseCtrlMenu.mk "disabled" "Disabled" 0;
               BaseCtrlMenu.mk "50_hz" "50 Hz" 1;
               BaseCtrlMenu.mk "60_hz" "60 Hz" 2 ]))
    V4L2_CID_POWER_LINE_FREQUENCY.

Definition led_mode_ctrl_7 : LogitechCtrl.t :=
  LogitechCtrl.mk
    (BaseCtrl.mk "logitech_led1_mode" "LED1 Mode" "menu"
       (VInt 7) (VStr "on") (VInt 0) (VInt 3) VNone false false
       (Some [ BaseCtrlMenu.mk "off" "Off" 0;
               BaseCtrlMenu.mk "on" "On" 1;
               BaseCtrlMenu.mk "blink" "Blink" 2;
               BaseCtrlMenu.mk "auto" "Auto" 3 ]))
    9 5 1.

(** The batches of unknown ids a log reports, one per warning. *)
Definition unknown_warnings (l : list warning) : list (list string) :=
  flat_map (fun x => match x with
                     | W_unknown_ctrls ids => [ids]
                     | _ => []
                     end) l.

(** The assignments of a map whose id is one of [ids]. *)
Definition known_params (ids : list string) (params : list (string * string))
  : list (string * string) :=
  filter (fun kv => CameraCtrls.mem (fst kv) ids) params.

(** The world after the batch of unknown ids, if there is one, is
    reported. *)
Definition report_unknown {D} (w : world D) (unknown : list string) : world D :=
  match unknown with
  | [] => w
  | _ :: _ => logged w (W_unknown_ctrls unknown)
  end.

(** A computation that logs no batch of unknown ids. *)
Definition quiet {D A} (m : M D A) : Prop :=
  forall w, unknown_warnings (log (fst (m w))) = unknown_warnings (log w).

(** The ids a source owns. *)
Definition v4l2_own (s : V4L2Ctrls.t) : list string :=
  map text_id_of (V4L2Ctrls.ctrls s).
Definition kiyo_own (s : KiyoProCtrls.t) : list string :=
  map text_id_of (KiyoProCtrls.ctrls s).
Definition logitech_own (s : LogitechCtrls.t) : list string :=
  map text_id_of (LogitechCtrls.ctrls s).


(** The world of the white balance camera after discovery. *)
Definition wb_world : world sample_state :=
  Eval vm_compute in
    fst (CameraCtrls.init wb_driver fs_plain "/dev/video0" 4 wb_start).

(** A request with an unknown id beside a valid assignment, and one in
    which the value of an integer control is no number. *)
Definition params_unknown : list (string * string) :=
  [ ("nonexistent_ctrl", "x"); ("gamma", "128") ].

Definition params_bad_integer : list (string * string) :=
  [ ("gamma", "abc"); ("nonexistent_ctrl", "x");
    ("white_balance_temperature", "5000") ].

(** A camera with brightness before the automatic white balance. *)
Definition V4L2_CID_BRIGHTNESS : Z := V4L2_CID_BASE.

Definition bright_registry : list v4l2_queryctrl.t :=
  v4l2_queryctrl.mk V4L2_CID_BRIGHTNESS V4L2_CTRL_TYPE_INTEGER
    "Brightness" 0 255 1 128 0 :: wb_registry.

Definition bright_driver : driver sample_state :=
  sample_driver bright_registry no_menus accept_write.

Definition bright_start : world sample_state :=
  start [ (V4L2_CID_BRIGHTNESS, 128);
          (V4L2_CID_AUTO_WHITE_BALANCE, 0);
          (V4L2_CID_GAMMA, 120);
          (V4L2_CID_WHITE_BALANCE_TEMPERATURE, 4600) ] [].

(** Its controls in the order of the enumeration, before the reordering
    pass. *)
Definition bright_enumerated : list V4L2Ctrl.t :=
  Eval vm_compute in
    match V4L2Ctrls.enumerate bright_driver 5 V4L2Ctrls.next_flag [] bright_start with
    | (_, Ok l) => l
    | _ => []
    end.

(** The native control [k] of a source with the value [x]. *)
Definition v4l2_store (self : V4L2Ctrls.t) (k : string) (x : pyval) : V4L2Ctrls.t :=
  V4L2Ctrls.mk
    (update_by_text_id (V4L2Ctrls.ctrls self) k
       (V4L2Ctrls.map_base (fun b => BaseCtrl.set_value b x))).

(** A control with its [inactive] flag put aside. *)
Definition without_inactive (c : V4L2Ctrl.t) : V4L2Ctrl.t :=
  V4L2Ctrls.map_base (fun b => BaseCtrl.set_inactive b false) c.

Definition gamma_ctrl : V4L2Ctrl.t :=
  Eval vm_compute in nth 1 (V4L2Ctrls.ctrls (CameraCtrls.v4l2 wb_cam))
                         (V4L2Ctrl.mk (BaseCtrl.init "" "" "" VNone VNone VNone VNone VNone None) 0).

Definition wb_auto_ctrl : V4L2Ctrl.t :=
  Eval vm_compute in nth 0 (V4L2Ctrls.ctrls (CameraCtrls.v4l2 wb_cam))
                         (V4L2Ctrl.mk (BaseCtrl.init "" "" "" VNone VNone VNone VNone VNone None) 0).

(** What the enumeration fixes of a native control. *)
Definition native_wellformed (c : V4L2Ctrl.t) : Prop :=
  let b := V4L2Ctrl.base c in
  BaseCtrl.text_id b = to_text_id (BaseCtrl.name b) /\
  In (BaseCtrl.type b) ["integer"; "boolean"; "menu"] /\
  BaseCtrl.updater b = existsb (Z.eqb (V4L2Ctrl._id c)) V4L2_CTRL_UPDATERS /\
  (BaseCtrl.type b = "menu" <-> BaseCtrl.menu b <> None).

(** The four reads of the discovery of one Logitech control. *)
Definition discovery_reads (c : LogitechCtrl.t) : list (Z * bytes) :=
  let blank := to_buf (zero_bytes (LogitechCtrl._len c)) in
  [ (UVC_GET_DEF, blank); (UVC_GET_MIN, blank);
    (UVC_GET_MAX, blank); (UVC_GET_CUR, blank) ].

(** A character an id may hold: no upper-case letter, no space or dash,
    and none of the deleted characters. *)
Definition is_upper (c : ascii) : bool :=
  let n := N_of_ascii c in ((65 <=? n) && (n <=? 90))%N.

Definition id_char (c : ascii) : bool :=
  negb (is_upper c) && negb (deleted_char c)
  && negb (Ascii.eqb c " "%char) && negb (Ascii.eqb c "-"%char).

(** Every character of a string satisfies [p]. *)
Fixpoint all_chars (p : ascii -> bool) (s : string) : bool :=
  match s with
  | EmptyString => true
  | String c r => p c && all_chars p r
  end.

(** * The request codes and the command line *)

(** ** [_IOC], [_IOR], [_IOWR] *)

Definition _IOC_NRBITS : Z := 8.
Definition _IOC_TYPEBITS : Z := 8.
Definition _IOC_SIZEBITS : Z := 14.

Definition _IOC_NRSHIFT : Z := 0.
Definition _IOC_TYPESHIFT : Z := _IOC_NRSHIFT + _IOC_NRBITS.
Definition _IOC_SIZESHIFT : Z := _IOC_TYPESHIFT + _IOC_TYPEBITS.
Definition _IOC_DIRSHIFT : Z := _IOC_SIZESHIFT + _IOC_SIZEBITS.

Definition _IOC_WRITE : Z := 1.
Definition _IOC_READ : Z := 2.

(** [type_] is [ord] of the type character; each field goes through a
    [c_int32] before the bitwise or of Python integers. *)
Definition _IOC (dir_ type_ nr size : Z) : Z :=
  Z.lor (Z.lor (Z.lor (wrap_int32 (Z.shiftl dir_ _IOC_DIRSHIFT))
                      (wrap_int32 (Z.shiftl type_ _IOC_TYPESHIFT)))
               (wrap_int32 (Z.shiftl nr _IOC_NRSHIFT)))
        (wrap_int32 (Z.shiftl size _IOC_SIZESHIFT)).

(** [size] is [ctypes.sizeof] of the structure. *)
Definition _IOR (type_ nr size : Z) : Z := _IOC _IOC_READ type_ nr size.

Definition _IOWR (type_ nr size : Z) : Z :=
  _IOC (Z.lor _IOC_READ _IOC_WRITE) type_ nr size.

(** ** The [-c] argument of [main] *)

Definition comma : ascii := ","%char.
Definition equals : ascii := "="%char.

(** [s.split(sep)] for a separator of one character. *)
Fixpoint split_on (sep : ascii) (s : string) : list string :=
  match s with
  | EmptyString => [EmptyString]
  | String c r =>
      if Ascii.eqb c sep then EmptyString :: split_on sep r
      else match split_on sep r with
           | [] => [String c EmptyString]
           | h :: t => String c h :: t
           end
  end.

(** [s.split(sep, maxsplit=1)] when it has two parts. *)
Fixpoint split_first (sep : ascii) (s : string) : option (string * string) :=
  match s with
  | EmptyString => None
  | String c r =>
      if Ascii.eqb c sep then Some (EmptyString, r)
      else match split_first sep r with
           | Some (a, b) => Some (String c a, b)
           | None => None
           end
  end.

(** [d[k] = v] on a dictionary kept as its items in insertion order. *)
Fixpoint dict_set (d : list (string * string)) (k v : string)
  : list (string * string) :=
  match d with
  | [] => [(k, v)]
  | (k', v') :: rest =>
      if String.eqb k' k then (k', v) :: rest else (k', v') :: dict_set rest k v
  end.

(** One round of the loop over the pieces: the map so far and the pieces
    reported as invalid. *)
Definition parse_piece (acc : list (string * string) * list string)
           (control : string) : list (string * string) * list string :=
  match split_first equals control with
  | None => (fst acc, snd acc ++ [control])
  | Some (k, v) => (dict_set (fst acc) k v, snd acc)
  end.

(** The map [main] passes to [setup_ctrls] (empty when nothing is to be
    set) and the pieces it warns about. *)
Definition parse_controls (controls : string)
  : list (string * string) * list string :=
  if String.eqb controls "" then ([], [])
  else fold_left parse_piece (split_on comma controls) ([], []).

(** The text of an assignment and of a list of them. *)
Definition assignment (kv : string * string) : string :=
  (fst kv ++ "=" ++ snd kv)%string.

Definition free_of (c : ascii) (s : string) : bool :=
  all_chars (fun x => negb (Ascii.eqb x c)) s.

(** A well-formed pair: no comma and no equals sign in the id, no comma in
    the value. *)
Definition plain_pair (kv : string * string) : Prop :=
  free_of comma (fst kv) = true /\ free_of equals (fst kv) = true /\
  free_of comma (snd kv) = true.


(** * Properties *)

(** ** Descriptor scanner *)

Lemma occurs_at_0 s sub : occurs_at s sub 0 <-> starts_with sub s = true.
Proof.
  unfold occurs_at. simpl. split.
  - now intros [_ H].
  - intro H. split; [lia | exact H].
Qed.

Lemma occurs_at_cons a s sub k :
  0 <= k -> (occurs_at (a :: s) sub (k + 1) <-> occurs_at s sub k).
Proof.
  intro Hk. unfold occurs_at.
  replace (Z.to_nat (k + 1)) with (S (Z.to_nat k)) by lia.
  simpl List.length. simpl skipn. split; intros [H1 H2]; (split; [lia | exact H2]).
Qed.

Lemma occurs_at_nil sub k : occurs_at [] sub k -> k = 0.
Proof. unfold occurs_at. simpl. lia. Qed.

(** What [find_from] returns: -1 when there is no occurrence, and
    otherwise the start offset plus the lowest occurrence. *)
Lemma find_from_spec s sub : forall i,
  (find_from s sub i = -1 /\ forall k, ~ occurs_at s sub k) \/
  (exists k, find_from s sub i = i + k /\ first_occurrence s sub k).
Proof.
  induction s as [|a s IH]; intro i.
  - simpl. destruct (starts_with sub []) eqn:E.
    + right. exists 0. split; [lia|]. split; [now apply occurs_at_0|]. lia.
    + left. split; [reflexivity|]. intros k Hk.
      pose proof (occurs_at_nil Hk) as ->. apply occurs_at_0 in Hk. congruence.
  - cbn [find_from]. destruct (starts_with sub (a :: s)) eqn:E.
    + right. exists 0. split; [lia|]. split; [now apply occurs_at_0|]. lia.
    + destruct (IH (i + 1)) as [[Hr Hno] | [k [Hr [Hocc Hmin]]]].
      * left. split; [exact Hr|]. intros k Hk.
        destruct (Z.eq_dec k 0) as [->|Hk0].
        -- apply occurs_at_0 in Hk. congruence.
        -- assert (0 <= k - 1) by (destruct Hk; lia).
           apply (Hno (k - 1)). apply (occurs_at_cons a s sub); [lia|].
           now replace (k - 1 + 1) with k by lia.
      * right. exists (k + 1). assert (0 <= k) by (destruct Hocc; lia).
        split; [lia|]. split.
        -- now apply occurs_at_cons.
        -- intros j Hj Hoj. destruct (Z.eq_dec j 0) as [->|Hj0].
           ++ apply occurs_at_0 in Hoj. congruence.
           ++ apply (Hmin (j - 1)); [lia|].
              apply (occurs_at_cons a s sub); [lia|].
              now replace (j - 1 + 1) with j by lia.
Qed.

Lemma first_occurrence_unique s sub k k' :
  first_occurrence s sub k -> first_occurrence s sub k' -> k = k'.
Proof.
  intros [H1 M1] [H2 M2].
  assert (0 <= k) by (destruct H1; lia). assert (0 <= k') by (destruct H2; lia).
  destruct (Z.lt_trichotomy k k') as [Hlt | [Heq | Hgt]]; [|exact Heq|].
  - exfalso. apply (M2 k); [lia | exact H1].
  - exfalso. apply (M1 k'); [lia | exact H2].
Qed.

Lemma bytes_find_first s sub k :
  first_occurrence s sub k -> bytes_find s sub = k.
Proof.
  intro Hk. unfold bytes_find.
  destruct (find_from_spec s sub 0) as [[_ Hno] | [k' [Hr Hk']]].
  - exfalso. apply (Hno k). apply Hk.
  - rewrite Hr. simpl. eapply first_occurrence_unique; eauto.
Qed.

Lemma bytes_find_absent s sub :
  (forall k, ~ occurs_at s sub k) -> bytes_find s sub = -1.
Proof.
  intro Hno. unfold bytes_find.
  destruct (find_from_spec s sub 0) as [[Hr _] | [k' [_ [Hk' _]]]].
  - exact Hr.
  - exfalso. exact (Hno k' Hk').
Qed.

Lemma occurs_at_bound s sub k : occurs_at s sub k -> 0 <= k <= Z.of_nat (List.length s).
Proof. now intros [H _]. Qed.

Lemma bytes_getitem_nth s j :
  0 <= j < Z.of_nat (List.length s) ->
  bytes_getitem s j = nth_error s (Z.to_nat j).
Proof.
  intro Hj. unfold bytes_getitem.
  destruct (j <? 0) eqn:E; [lia|].
  destruct (0 <=? j) eqn:E1; [|lia].
  destruct (j <? Z.of_nat (List.length s)) eqn:E2; [reflexivity|lia].
Qed.

Lemma find_unit_id_unfold fs device guid :
  fst (find_unit_id_in_sysfs fs device guid) =
  match descriptors_of fs device with
  | None => 0
  | Some blob =>
      match unit_id_index blob guid with
      | Some j => match bytes_getitem blob j with Some b => b | None => 0 end
      | None => 0
      end
  end.
Proof.
  unfold find_unit_id_in_sysfs, descriptors_of.
  destruct (isfile fs _); simpl; [|reflexivity].
  destruct (read_bin fs _) as [blob|]; [|reflexivity].
  destruct (unit_id_index blob guid) as [j|]; [|reflexivity].
  destruct (bytes_getitem blob j); reflexivity.
Qed.

(** C8 (as amended): with the descriptors file absent or unreadable the
    unit id is 0; with a blob read from it, the unit id is the byte before
    the first occurrence of the GUID when that occurrence is at an offset
    [k > 0], and 0 when the GUID does not occur. *)
Theorem find_unit_id_first_occurrence fs device guid :
  (descriptors_of fs device = None ->
   fst (find_unit_id_in_sysfs fs device guid) = 0) /\
  (forall blob, descriptors_of fs device = Some blob ->
     (forall k, 0 < k -> first_occurrence blob guid k ->
        nth_error blob (Z.to_nat (k - 1)) =
        Some (fst (find_unit_id_in_sysfs fs device guid))) /\
     ((forall k, ~ occurs_at blob guid k) ->
        fst (find_unit_id_in_sysfs fs device guid) = 0)).
Proof.
  rewrite find_unit_id_unfold. split.
  - now intros ->.
  - intros blob ->. split.
    + intros k Hk Hfirst. unfold unit_id_index.
      rewrite (bytes_find_first Hfirst).
      destruct (k >? 0) eqn:E; [|lia].
      pose proof (occurs_at_bound (proj1 Hfirst)) as Hb.
      rewrite bytes_getitem_nth by lia.
      destruct (nth_error blob (Z.to_nat (k - 1))) eqn:En; [reflexivity|].
      apply nth_error_None in En. lia.
    + intro Hno. unfold unit_id_index. now rewrite (bytes_find_absent Hno).
Qed.

(** C10: a GUID at offset 0 gives the unit id 0, whatever follows it, and
    an index the scan reads the blob at is never below 0 (nor past the
    end). *)
Theorem find_unit_id_guid_at_start :
  (forall fs device guid blob,
     descriptors_of fs device = Some blob ->
     occurs_at blob guid 0 ->
     fst (find_unit_id_in_sysfs fs device guid) = 0 /\
     unit_id_index blob guid = None) /\
  (forall blob guid j,
     unit_id_index blob guid = Some j ->
     0 <= j < Z.of_nat (List.length blob)).
Proof.
  split.
  - intros fs device guid blob Hd H0. rewrite find_unit_id_unfold, Hd.
    assert (bytes_find blob guid = 0) as Hf.
    { apply bytes_find_first. split; [exact H0 | lia]. }
    unfold unit_id_index. rewrite Hf. simpl. split; reflexivity.
  - intros blob guid j. unfold unit_id_index, bytes_find.
    destruct (find_from_spec blob guid 0) as [[Hr _] | [k [Hr [Hocc _]]]];
      rewrite Hr; simpl.
    + discriminate.
    + pose proof (occurs_at_bound Hocc) as Hb.
      destruct (k >? 0) eqn:E; [|discriminate].
      intros [= <-]. lia.
Qed.

Lemma find_unit_id_first_occurrence_witness :
  descriptors_of (fs_with_descriptors blob_unit_5) "/dev/video0" = Some blob_unit_5 /\
  0 < 2 /\
  first_occurrence blob_unit_5 UVC_EU1_GUID 2 /\
  nth_error blob_unit_5 (Z.to_nat (2 - 1)) =
  Some (fst (find_unit_id_in_sysfs (fs_with_descriptors blob_unit_5)
                                   "/dev/video0" UVC_EU1_GUID)).
Proof.
  assert (Hd : descriptors_of (fs_with_descriptors blob_unit_5) "/dev/video0"
               = Some blob_unit_5) by reflexivity.
  assert (Hf : first_occurrence blob_unit_5 UVC_EU1_GUID 2).
  { split.
    - split; [vm_compute; split; discriminate | reflexivity].
    - intros j Hj [_ H].
      assert (j = 0 \/ j = 1) as [-> | ->] by lia; vm_compute in H; discriminate. }
  split; [exact Hd|]. split; [lia|]. split; [exact Hf|].
  apply (proj1 (proj2 (find_unit_id_first_occurrence
                         (fs_with_descriptors blob_unit_5) "/dev/video0"
                         UVC_EU1_GUID) blob_unit_5 Hd) 2); [lia | exact Hf].
Defined.

(** C8 as stated fails: the GUID occurs at offset 17 after the byte 7, and
    the scan, which stops at the occurrence at offset 0, returns 0. *)
Lemma find_unit_id_later_occurrence_ignored :
  descriptors_of (fs_with_descriptors blob_guid_twice) "/dev/video0"
    = Some blob_guid_twice /\
  0 < 17 /\
  occurs_at blob_guid_twice UVC_EU1_GUID 17 /\
  nth_error blob_guid_twice (Z.to_nat (17 - 1)) = Some 7 /\
  fst (find_unit_id_in_sysfs (fs_with_descriptors blob_guid_twice)
                             "/dev/video0" UVC_EU1_GUID) = 0.
Proof.
  split; [reflexivity|]. split; [lia|]. split.
  - split; [vm_compute; split; discriminate | reflexivity].
  - split; reflexivity.
Qed.

Lemma find_unit_id_guid_at_start_witness :
  descriptors_of (fs_with_descriptors blob_guid_twice) "/dev/video0"
    = Some blob_guid_twice /\
  occurs_at blob_guid_twice UVC_EU1_GUID 0 /\
  fst (find_unit_id_in_sysfs (fs_with_descriptors blob_guid_twice)
                             "/dev/video0" UVC_EU1_GUID) = 0 /\
  unit_id_index blob_unit_5 UVC_EU1_GUID = Some 1 /\
  0 <= 1 < Z.of_nat (List.length blob_unit_5).
Proof.
  assert (Hd : descriptors_of (fs_with_descriptors blob_guid_twice) "/dev/video0"
               = Some blob_guid_twice) by reflexivity.
  assert (H0 : occurs_at blob_guid_twice UVC_EU1_GUID 0).
  { split; [vm_compute; split; discriminate | reflexivity]. }
  assert (Hi : unit_id_index blob_unit_5 UVC_EU1_GUID = Some 1) by reflexivity.
  split; [exact Hd|]. split; [exact H0|]. split.
  - exact (proj1 (proj1 find_unit_id_guid_at_start _ _ _ _ Hd H0)).
  - split; [exact Hi|].
    exact (proj2 find_unit_id_guid_at_start _ _ _ Hi).
Defined.

(** ** USB ids *)

(** C9 (as amended): the result is empty when one of the two id files is
    missing; when both are there it is the two ids joined by a colon, each
    id the stripped content of its file, or empty when the file cannot be
    read. *)
Theorem find_usb_ids_joined fs device :
  (isfile fs (vendorfile_of fs device) = false \/
   isfile fs (productfile_of fs device) = false ->
   fst (find_usb_ids_in_sysfs fs device) = "") /\
  (isfile fs (vendorfile_of fs device) = true ->
   isfile fs (productfile_of fs device) = true ->
   fst (find_usb_ids_in_sysfs fs device) =
   (fst (read_usb_id_from_file fs (vendorfile_of fs device)) ++ ":" ++
    fst (read_usb_id_from_file fs (productfile_of fs device)))%string) /\
  (forall file,
     fst (read_usb_id_from_file fs file) =
     match read_text fs file with
     | Some s => strip s
     | None => ""
     end).
Proof.
  unfold find_usb_ids_in_sysfs, vendorfile_of, productfile_of.
  split; [|split].
  - intros [H | H]; rewrite H; simpl; [reflexivity|].
    now rewrite orb_true_r.
  - intros Hv Hp. rewrite Hv, Hp. simpl.
    destruct (read_usb_id_from_file fs _) as [vendor w1].
    destruct (read_usb_id_from_file fs _) as [product w2]. reflexivity.
  - intro file. unfold read_usb_id_from_file.
    destruct (read_text fs file); reflexivity.
Qed.

Lemma find_usb_ids_joined_witness :
  isfile fs_kiyo_ids (vendorfile_of fs_kiyo_ids "/dev/video0") = true /\
  isfile fs_kiyo_ids (productfile_of fs_kiyo_ids "/dev/video0") = true /\
  fst (find_usb_ids_in_sysfs fs_kiyo_ids "/dev/video0") = "1532:0e05".
Proof.
  split; [reflexivity|]. split; [reflexivity|].
  rewrite (proj1 (proj2 (find_usb_ids_joined fs_kiyo_ids "/dev/video0"))
             eq_refl eq_refl).
  reflexivity.
Defined.

(** C9 as stated fails: the vendor id file is there but cannot be read,
    and the result is not empty. *)
Lemma find_usb_ids_unreadable_not_empty :
  isfile fs_vendor_unreadable (vendorfile_of fs_vendor_unreadable "/dev/video0") = true /\
  read_text fs_vendor_unreadable (vendorfile_of fs_vendor_unreadable "/dev/video0") = None /\
  fst (find_usb_ids_in_sysfs fs_vendor_unreadable "/dev/video0") = ":0e05" /\
  fst (find_usb_ids_in_sysfs fs_vendor_unreadable "/dev/video0") <> "".
Proof.
  split; [reflexivity|]. split; [reflexivity|]. split; [reflexivity|].
  vm_compute. discriminate.
Qed.

(** ** Presentation order of the native controls *)

(** C1, at a camera whose first control is the automatic white balance:
    the enumeration ends, the white balance temperature is in the list, and
    the automatic white balance stays at index 0, two places before it. *)
Theorem reorder_skips_first_control :
  exists w self,
    V4L2Ctrls.get_device_controls wb_driver 4 wb_start = (w, Ok self) /\
    ids_of (V4L2Ctrls.ctrls self) =
      [V4L2_CID_AUTO_WHITE_BALANCE; V4L2_CID_GAMMA;
       V4L2_CID_WHITE_BALANCE_TEMPERATURE] /\
    ~ adjacent V4L2_CID_AUTO_WHITE_BALANCE V4L2_CID_WHITE_BALANCE_TEMPERATURE
        (ids_of (V4L2Ctrls.ctrls self)).
Proof.
  eexists. eexists. split; [vm_compute; reflexivity|].
  split; [reflexivity|].
  intros [pre [post H]]. vm_compute in H.
  destruct pre as [|x [|y [|z pre]]]; try discriminate H.
  destruct pre; discriminate H.
Qed.

(** The pass moves controls and changes none: its result is a
    rearrangement of the list it is given. *)
Lemma skipn_nth_error {A} (l : list A) : forall i x,
  nth_error l i = Some x -> skipn i l = x :: skipn (S i) l.
Proof.
  induction l as [|a l IH]; intros [|i] x H; simpl in H; try discriminate.
  - now injection H as ->.
  - simpl. now apply IH.
Qed.

Lemma list_pop_perm {A} (l : list A) i x rest :
  list_pop l i = Some (x, rest) -> Permutation l (x :: rest).
Proof.
  unfold list_pop. destruct (nth_error l i) as [y|] eqn:E; [|discriminate].
  intros [= -> <-]. rewrite <- (firstn_skipn i l) at 1.
  rewrite (skipn_nth_error _ _ E). symmetry. apply Permutation_middle.
Qed.

Lemma list_insert_perm {A} (l : list A) i x :
  Permutation (list_insert l i x) (x :: l).
Proof.
  unfold list_insert. rewrite <- (firstn_skipn i l) at 3.
  symmetry. apply Permutation_middle.
Qed.

Lemma reorder_step_perm ctrls kv :
  Permutation (V4L2Ctrls.reorder_step ctrls kv) ctrls.
Proof.
  unfold V4L2Ctrls.reorder_step. destruct kv as [k v].
  destruct (truthy_idx _ && truthy_idx _); [|reflexivity].
  destruct (find_idx ctrls _) as [what|]; [|reflexivity].
  destruct (find_idx ctrls _) as [where_|]; [|reflexivity].
  destruct (list_pop ctrls what) as [[c rest]|] eqn:E; [|reflexivity].
  rewrite list_insert_perm. symmetry. now apply list_pop_perm with (i := what).
Qed.

Lemma reorder_perm ctrls : Permutation (V4L2Ctrls.reorder ctrls) ctrls.
Proof.
  unfold V4L2Ctrls.reorder.
  generalize V4L2_CTRL_REORDERS. intro pairs. revert ctrls.
  induction pairs as [|kv pairs IH]; intro ctrls; simpl; [reflexivity|].
  rewrite IH. apply reorder_step_perm.
Qed.

(** A pair with a member that is not in the list leaves the list as it
    is. *)
Lemma reorder_step_absent ctrls k v :
  find_idx ctrls (fun c => V4L2Ctrl._id c =? k) = None \/
  find_idx ctrls (fun c => V4L2Ctrl._id c =? v) = None ->
  V4L2Ctrls.reorder_step ctrls (k, v) = ctrls.
Proof.
  unfold V4L2Ctrls.reorder_step. intros [-> | ->]; simpl; [reflexivity|].
  now rewrite andb_false_r.
Qed.

(** ** Running requests *)

Lemma bind_ok {D A B} (m : M D A) (k : A -> M D B) w w1 a :
  m w = (w1, Ok a) -> bind m k w = k a w1.
Proof. intro H. unfold bind. now rewrite H. Qed.
Arguments bind_ok {D A B} m k {w w1 a} _.

Lemma xu_writes_app t1 t2 : xu_writes (t1 ++ t2) = xu_writes t1 ++ xu_writes t2.
Proof. unfold xu_writes. apply flat_map_app. Qed.

Lemma fill_length buf reply : List.length (fill buf reply) = List.length buf.
Proof.
  unfold fill. rewrite length_firstn, length_app, length_skipn. lia.
Qed.

(** A query always returns: it adds the length request and the query
    itself to the trace, logs at most failures of these two, and leaves a
    buffer of the same length. *)
Lemma query_xu_control_run {D} (drv : driver D) u s q data w :
  exists w' data' len,
    query_xu_control drv u s q data w = (w', Ok data') /\
    trace w' = trace w ++
      [UVCIOC_CTRL_QUERY (uvc_xu_control_query.mk u s UVC_GET_LEN 2) [0; 0];
       UVCIOC_CTRL_QUERY (uvc_xu_control_query.mk u s q len) data] /\
    List.length data' = List.length data /\
    (exists l, log w' = log w ++ l /\
               Forall (fun x => x = W_xu_get_len_failed \/ x = W_xu_query_failed q) l).
Proof.
  unfold query_xu_control, get_length_xu_control, bind, run_ioctl, warn, ret.
  simpl.
  destruct (ioctl_xu drv (dev w) _ [0; 0]) as [d1 [r1|]]; simpl.
  - destruct (ioctl_xu drv d1 _ data) as [d2 [r2|]]; simpl.
    + do 3 eexists. split; [reflexivity|]. simpl. rewrite <- app_assoc.
      split; [reflexivity|]. split; [apply fill_length|].
      exists []. rewrite app_nil_r. split; [reflexivity | constructor].
    + do 3 eexists. split; [reflexivity|]. simpl. rewrite <- app_assoc.
      split; [reflexivity|]. split; [reflexivity|].
      eexists. split; [reflexivity|]. apply Forall_cons; [now right | constructor].
  - destruct (ioctl_xu drv d1 _ data) as [d2 [r2|]]; simpl.
    + do 3 eexists. split; [reflexivity|]. simpl. rewrite <- app_assoc.
      split; [reflexivity|]. split; [apply fill_length|].
      eexists. split; [reflexivity|]. apply Forall_cons; [now left | constructor].
    + do 3 eexists. split; [reflexivity|]. simpl. rewrite <- !app_assoc.
      split; [reflexivity|]. split; [reflexivity|].
      eexists. split; [reflexivity|].
      apply Forall_cons; [now left | apply Forall_cons; [now right | constructor]].
Qed.

Lemma query_xu_control_writes {D} (drv : driver D) u s q data w :
  exists w' data',
    query_xu_control drv u s q data w = (w', Ok data') /\
    List.length data' = List.length data /\
    xu_writes (trace w') =
      xu_writes (trace w) ++ (if q =? UVC_SET_CUR then [data] else []).
Proof.
  destruct (query_xu_control_run drv u s q data w)
    as [w' [data' [len [Hrun [Htr [Hlen _]]]]]].
  exists w', data'. split; [exact Hrun|]. split; [exact Hlen|].
  rewrite Htr, xu_writes_app. f_equal. simpl.
  destruct (q =? UVC_SET_CUR); reflexivity.
Qed.

(** ** Kiyo Pro: the order of the frames *)

Lemma find_by_text_id_shape {A B} `{HasTextId A} `{HasTextId B}
      (R : A -> B -> Prop) cs ds k :
  Forall2 (fun c d => text_id_of c = text_id_of d /\ R c d) cs ds ->
  match find_by_text_id cs k, find_by_text_id ds k with
  | Some c, Some d => R c d
  | None, None => True
  | _, _ => False
  end.
Proof.
  induction 1 as [|c d cs ds [Hid HR] _ IH]; simpl; [exact I|].
  rewrite Hid. destruct (String.eqb (text_id_of d) k); [exact HR | exact IH].
Qed.

Lemma update_by_text_id_shape {A B} `{HasTextId A} `{HasTextId B}
      (R : A -> B -> Prop) (f : A -> A) cs ds k :
  (forall c d, text_id_of c = text_id_of d /\ R c d ->
               text_id_of (f c) = text_id_of d /\ R (f c) d) ->
  Forall2 (fun c d => text_id_of c = text_id_of d /\ R c d) cs ds ->
  Forall2 (fun c d => text_id_of c = text_id_of d /\ R c d)
          (update_by_text_id cs k f) ds.
Proof.
  intros Hf. induction 1 as [|c d cs ds Hcd Hrest IH]; simpl; [constructor|].
  destruct (String.eqb (text_id_of c) k); constructor; auto.
Qed.

Lemma kiyo_setup_item_run {D} (drv : driver D) self kv w :
  kiyo_shape (KiyoProCtrls.ctrls self) ->
  exists w' self',
    KiyoProCtrls.setup_item drv self kv w = (w', Ok self') /\
    KiyoProCtrls.unit_id self' = KiyoProCtrls.unit_id self /\
    KiyoProCtrls.usb_ids self' = KiyoProCtrls.usb_ids self /\
    kiyo_shape (KiyoProCtrls.ctrls self') /\
    xu_writes (trace w') = xu_writes (trace w) ++ kiyo_frames kv.
Proof.
  intro Hshape. destruct kv as [k v]. unfold KiyoProCtrls.setup_item, kiyo_frames.
  cbn [fst snd].
  pose proof (find_by_text_id_shape
                (fun c d : KiyoCtrl => BaseCtrl.menu c = BaseCtrl.menu d)
                k Hshape) as Hfind.
  destruct (find_by_text_id (KiyoProCtrls.ctrls self) k) as [ctrl|];
    destruct (find_by_text_id KiyoProCtrls.device_controls k) as [d|];
    try contradiction.
  2:{ exists w, self. unfold ret. rewrite app_nil_r. auto. }
  unfold BaseCtrl.entries. rewrite Hfind.
  fold (BaseCtrl.entries d).
  destruct (find_by_text_id (BaseCtrl.entries d) v) as [menu|].
  2:{ eexists. exists self. unfold bind, warn, ret. simpl.
      split; [reflexivity|]. rewrite app_nil_r. auto. }
  assert (Hshape' :
            kiyo_shape (update_by_text_id (KiyoProCtrls.ctrls self) k
                          (fun c => BaseCtrl.set_value c (VStr (KiyoMenu.text_id menu))))).
  { apply (update_by_text_id_shape
             (fun c d : KiyoCtrl => BaseCtrl.menu c = BaseCtrl.menu d));
      [|exact Hshape].
    intros c0 d0 [H1 H2]. split; assumption. }
  destruct (KiyoProCtrls.before_frame menu) as [pre|].
  - destruct (query_xu_control_writes drv (KiyoProCtrls.unit_id self)
                EU1_SET_ISP UVC_SET_CUR (to_buf pre) w)
      as [w1 [b1 [Hq1 [_ Hw1]]]].
    destruct (query_xu_control_writes drv (KiyoProCtrls.unit_id self)
                EU1_SET_ISP UVC_SET_CUR (to_buf (KiyoMenu.value menu)) w1)
      as [w2 [b2 [Hq2 [_ Hw2]]]].
    eexists w2, _. split.
    + unfold bind at 1. unfold bind at 1. rewrite Hq1. unfold ret at 1.
      unfold bind. rewrite Hq2. reflexivity.
    + simpl. repeat split; auto.
      rewrite Hw2, Hw1. simpl. now rewrite <- app_assoc.
  - destruct (query_xu_control_writes drv (KiyoProCtrls.unit_id self)
                EU1_SET_ISP UVC_SET_CUR (to_buf (KiyoMenu.value menu)) w)
      as [w2 [b2 [Hq2 [_ Hw2]]]].
    eexists w2, _. split.
    + unfold bind at 1. unfold ret at 1. unfold bind. rewrite Hq2. reflexivity.
    + simpl. repeat split; auto.
Qed.

Lemma kiyo_for_each_run {D} (drv : driver D) params : forall self w,
  kiyo_shape (KiyoProCtrls.ctrls self) ->
  exists w' self',
    for_each (KiyoProCtrls.setup_item drv) params self w = (w', Ok self') /\
    KiyoProCtrls.unit_id self' = KiyoProCtrls.unit_id self /\
    KiyoProCtrls.usb_ids self' = KiyoProCtrls.usb_ids self /\
    kiyo_shape (KiyoProCtrls.ctrls self') /\
    xu_writes (trace w') = xu_writes (trace w) ++ flat_map kiyo_frames params.
Proof.
  induction params as [|kv params IH]; intros self w Hshape.
  - exists w, self. simpl. unfold ret. rewrite app_nil_r. auto.
  - destruct (kiyo_setup_item_run drv self kv w Hshape)
      as [w1 [self1 [Hrun [Hu [Hi [Hs Hw]]]]]].
    destruct (IH self1 w1 Hs) as [w2 [self2 [Hrun2 [Hu2 [Hi2 [Hs2 Hw2]]]]]].
    exists w2, self2. split.
    + cbn [for_each]. now rewrite (bind_ok _ _ Hrun).
    + repeat split; try congruence.
      rewrite Hw2, Hw. simpl. now rewrite <- app_assoc.
Qed.

Lemma find_by_text_id_In {A} `{HasTextId A} (l : list A) k c :
  find_by_text_id l k = Some c -> In c l /\ text_id_of c = k.
Proof.
  induction l as [|x l IH]; simpl; [discriminate|].
  destruct (String.eqb (text_id_of x) k) eqn:E.
  - intros [= <-]. split; [now left | now apply String.eqb_eq].
  - intro Hf. destruct (IH Hf). split; [now right | assumption].
Qed.

(** C4: on a supported Kiyo Pro, [setup_ctrls] returns, and the frames it
    writes are, for each assignment in turn, the frames of the selected
    entry and after all of them the save frame; no entry's frame is the
    save frame, so it is written once, last; and an entry with a
    preparatory frame contributes that frame and then its main frame. *)
Theorem kiyo_setup_frames {D} (drv : driver D) self params w :
  KiyoProCtrls.supported self = true ->
  kiyo_shape (KiyoProCtrls.ctrls self) ->
  (exists w' self',
     KiyoProCtrls.setup_ctrls drv self params w = (w', Ok self') /\
     xu_writes (trace w') =
       xu_writes (trace w) ++ flat_map kiyo_frames params ++ [to_buf SAVE]) /\
  (forall kv, ~ In (to_buf SAVE) (kiyo_frames kv)) /\
  (forall k v ctrl menu pre,
     find_by_text_id KiyoProCtrls.device_controls k = Some ctrl ->
     find_by_text_id (BaseCtrl.entries ctrl) v = Some menu ->
     KiyoMenu._before menu = Some pre ->
     kiyo_frames (k, v) = [to_buf pre; to_buf (KiyoMenu.value menu)]).
Proof.
  intros Hsup Hshape. split; [|split].
  - unfold KiyoProCtrls.setup_ctrls. rewrite Hsup. simpl.
    destruct (kiyo_for_each_run drv params self w Hshape)
      as [w1 [self1 [Hrun [Hu [Hi [Hs Hw]]]]]].
    destruct (query_xu_control_writes drv (KiyoProCtrls.unit_id self1)
                EU1_SET_ISP UVC_SET_CUR (to_buf SAVE) w1)
      as [w2 [b2 [Hq2 [_ Hw2]]]].
    exists w2, self1. split.
    + rewrite (bind_ok _ _ Hrun). unfold bind. now rewrite Hq2.
    + rewrite Hw2, Hw. simpl. now rewrite <- app_assoc.
  - intros [k v]. unfold kiyo_frames. cbn [fst snd].
    destruct (find_by_text_id KiyoProCtrls.device_controls k) as [ctrl|] eqn:Hc;
      [|intros []].
    destruct (find_by_text_id (BaseCtrl.entries ctrl) v) as [menu|] eqn:Hm;
      [|intros []].
    apply find_by_text_id_In in Hc. destruct Hc as [Hc _].
    apply find_by_text_id_In in Hm. destruct Hm as [Hm _].
    unfold KiyoProCtrls.device_controls in Hc. simpl in Hc.
    repeat (destruct Hc as [<- | Hc]; [simpl in Hm|]); [..|contradiction].
    all: repeat (destruct Hm as [<- | Hm];
                 [vm_compute; intuition discriminate|]); contradiction.
  - intros k v ctrl menu pre Hc Hm Hb. unfold kiyo_frames. cbn [fst snd].
    rewrite Hc, Hm.
    apply find_by_text_id_In in Hc. destruct Hc as [Hc _].
    apply find_by_text_id_In in Hm. destruct Hm as [Hm _].
    unfold KiyoProCtrls.device_controls in Hc. simpl in Hc.
    repeat (destruct Hc as [<- | Hc]; [simpl in Hm|]); [..|contradiction].
    all: repeat (destruct Hm as [<- | Hm];
                 [simpl in Hb; try discriminate Hb;
                  injection Hb as <-; reflexivity|]); contradiction.
Qed.

Lemma kiyo_setup_frames_witness :
  KiyoProCtrls.supported kiyo_supported = true /\
  kiyo_shape (KiyoProCtrls.ctrls kiyo_supported) /\
  exists w' self',
    KiyoProCtrls.setup_ctrls wb_driver kiyo_supported
      [("kiyo_pro_fov", "medium")] wb_start = (w', Ok self') /\
    xu_writes (trace w') =
      xu_writes (trace wb_start) ++
      flat_map kiyo_frames [("kiyo_pro_fov", "medium")] ++ [to_buf SAVE].
Proof.
  assert (Hs : kiyo_shape (KiyoProCtrls.ctrls kiyo_supported)).
  { unfold kiyo_shape. simpl. repeat constructor. }
  split; [reflexivity|]. split; [exact Hs|].
  exact (proj1 (kiyo_setup_frames wb_driver kiyo_supported
                  [("kiyo_pro_fov", "medium")] wb_start eq_refl Hs)).
Defined.

(** The list after an attribute of the object found under [k] was
    assigned: that object is found changed, every other one as before. *)
Lemma find_by_text_id_update {A} `{HasTextId A} (l : list A) k f c :
  (forall x, text_id_of (f x) = text_id_of x) ->
  find_by_text_id l k = Some c ->
  find_by_text_id (update_by_text_id l k f) k = Some (f c).
Proof.
  intro Hf. induction l as [|x l IH]; simpl; [discriminate|].
  destruct (String.eqb (text_id_of x) k) eqn:E.
  - intros [= <-]. simpl. now rewrite Hf, E.
  - intro Hc. simpl. rewrite E. now apply IH.
Qed.

Lemma find_by_text_id_update_other {A} `{HasTextId A} (l : list A) k f k' :
  (forall x, text_id_of (f x) = text_id_of x) ->
  k' <> k ->
  find_by_text_id (update_by_text_id l k f) k' = find_by_text_id l k'.
Proof.
  intros Hf Hk. induction l as [|x l IH]; simpl; [reflexivity|].
  destruct (String.eqb (text_id_of x) k) eqn:E.
  - simpl. rewrite Hf. apply String.eqb_eq in E.
    destruct (String.eqb (text_id_of x) k') eqn:E'; [|reflexivity].
    apply String.eqb_eq in E'. congruence.
  - simpl. destruct (String.eqb (text_id_of x) k'); [reflexivity | exact IH].
Qed.

(** ** Logitech: read, change one byte, write, read back *)

Lemma xu_payloads_app t1 t2 :
  xu_payloads (t1 ++ t2) = xu_payloads t1 ++ xu_payloads t2.
Proof. unfold xu_payloads. apply flat_map_app. Qed.

Lemma query_xu_control_payload {D} (drv : driver D) u s q data w :
  q <> UVC_GET_LEN ->
  exists w' data',
    query_xu_control drv u s q data w = (w', Ok data') /\
    List.length data' = List.length data /\
    xu_payloads (trace w') = xu_payloads (trace w) ++ [(q, data)].
Proof.
  intro Hq.
  destruct (query_xu_control_run drv u s q data w)
    as [w' [data' [len [Hrun [Htr [Hlen _]]]]]].
  exists w', data'. split; [exact Hrun|]. split; [exact Hlen|].
  rewrite Htr, xu_payloads_app. f_equal. simpl.
  destruct (q =? UVC_GET_LEN) eqn:E; [apply Z.eqb_eq in E; contradiction|].
  reflexivity.
Qed.

Lemma buf_set_spec b i x :
  0 <= i < Z.of_nat (List.length b) ->
  exists b',
    buf_set b i x = Some b' /\
    List.length b' = List.length b /\
    nth_error b' (Z.to_nat i) = Some x /\
    (forall j, j <> Z.to_nat i -> nth_error b' j = nth_error b j).
Proof.
  intro Hi. unfold buf_set.
  destruct (0 <=? i) eqn:E1; [|lia]. destruct (i <? Z.of_nat (List.length b)) eqn:E2; [|lia].
  cbn [andb]. eexists. split; [reflexivity|].
  set (n := Z.to_nat i). assert (Hn : (n < List.length b)%nat) by lia.
  assert (Hf : List.length (firstn n b) = n) by (rewrite length_firstn; lia).
  split; [|split].
  - rewrite length_app. cbn [List.length]. rewrite Hf, length_skipn. lia.
  - rewrite nth_error_app2 by lia. rewrite Hf, Nat.sub_diag. reflexivity.
  - intros j Hj. destruct (Nat.lt_ge_cases j n) as [Hlt | Hge].
    + rewrite nth_error_app1 by lia. now rewrite nth_error_firstn, (proj2 (Nat.ltb_lt j n) Hlt).
    + rewrite nth_error_app2 by lia. rewrite Hf.
      destruct (j - n)%nat as [|m] eqn:Em; [lia|].
      cbn [nth_error]. rewrite nth_error_skipn. f_equal. lia.
Qed.

Lemma find_by_value_Some menu n m :
  find_by_value menu n = Some m -> In m menu /\ BaseCtrlMenu.value m = n.
Proof.
  induction menu as [|x menu IH]; simpl; [discriminate|].
  destruct (BaseCtrlMenu.value x =? n) eqn:E.
  - intros [= <-]. split; [now left | now apply Z.eqb_eq].
  - intro H. destruct (IH H). split; [now right | assumption].
Qed.

Lemma find_by_value_None menu n :
  find_by_value menu n = None -> forall m, In m menu -> BaseCtrlMenu.value m <> n.
Proof.
  induction menu as [|x menu IH]; simpl; [intros _ m []|].
  destruct (BaseCtrlMenu.value x =? n) eqn:E; [discriminate|].
  intros H m [<- | Hm]; [now apply Z.eqb_neq | now apply IH].
Qed.


Lemma to_buf_zero_length n :
  0 <= n -> Z.of_nat (List.length (to_buf (zero_bytes n))) = n + 1.
Proof.
  intro Hn. unfold to_buf, zero_bytes.
  rewrite length_app, repeat_length. simpl. lia.
Qed.


Lemma logitech_found cs k ctrl :
  logitech_shape cs ->
  find_by_text_id cs k = Some ctrl ->
  exists d, In d LogitechCtrls.declared_controls /\ logitech_same ctrl d.
Proof.
  intros Hshape Hfind.
  pose proof (find_by_text_id_shape logitech_same k Hshape) as H.
  rewrite Hfind in H.
  destruct (find_by_text_id LogitechCtrls.declared_controls k) as [d|] eqn:Hd;
    [|contradiction].
  exists d. split; [|exact H]. now apply find_by_text_id_In in Hd.
Qed.





(** The register that keeps its byte 2 when 3 is written: the stored value
    stays 2 and the mismatch is logged; the register that takes the write:
    the stored value becomes 3. *)
Example logitech_set_mismatch_and_match :
  (exists w,
     LogitechCtrls.setup_ctrls (led_driver ignore_write) logitech_discovered
       [("logitech_led1_frequency", "3")] led_start = (w, Ok logitech_discovered) /\
     log w = [W_logitech_mismatch "logitech_led1_frequency" (VInt 3) (VInt 2)]) /\
  (exists w,
     LogitechCtrls.setup_ctrls (led_driver accept_write) logitech_discovered
       [("logitech_led1_frequency", "3")] led_start =
       (w, Ok (logitech_store logitech_discovered "logitech_led1_frequency" (VInt 3))) /\
     log w = [] /\
     led_frame (dev w) = [0; 1; 0; 3; 0]).
Proof.
  split; eexists; (split; [vm_compute; reflexivity|]); repeat split; reflexivity.
Qed.

(** ** Print, then set *)

(** C6, at the camera with the automatic white balance switched off: the
    printed pairs, fed back, switch it on.  [bool("0")] is true, so the
    boolean control is written as 1 and, the driver taking the write, its
    stored value changes from 0 to 1. *)
Theorem print_then_set_changes_boolean :
  exists w0 cam w1 cam',
    CameraCtrls.init wb_driver fs_plain "/dev/video0" 4 wb_start = (w0, Ok cam) /\
    CameraCtrls.printed_pairs cam =
      [ ("white_balance_automatic", "0"); ("gamma", "120");
        ("white_balance_temperature", "4600") ] /\
    CameraCtrls.setup_ctrls wb_driver cam (CameraCtrls.printed_pairs cam) w0
      = (w1, Ok cam') /\
    map any_value (CameraCtrls.get_ctrls cam) = [VInt 0; VInt 120; VInt 4600] /\
    map any_value (CameraCtrls.get_ctrls cam') = [VInt 1; VInt 120; VInt 4600] /\
    lookup (values (dev w0)) V4L2_CID_AUTO_WHITE_BALANCE = Some 0 /\
    lookup (values (dev w1)) V4L2_CID_AUTO_WHITE_BALANCE = Some 1 /\
    log w1 = [].
Proof.
  do 4 eexists.
  split; [vm_compute; reflexivity|].
  split; [vm_compute; reflexivity|].
  split; [vm_compute; reflexivity|].
  repeat split; reflexivity.
Qed.

(** ** Textual identifiers in the merged list *)

(** C7 as stated fails: two controls with the distinct names
    [Zoom, Absolute] and [Zoom Absolute] both get the id [zoom_absolute],
    both are in the merged list, and nothing is logged or raised. *)
Lemma merged_ids_collide :
  exists w cam,
    CameraCtrls.init zoom_driver fs_plain "/dev/video0" 3 zoom_start = (w, Ok cam) /\
    merged_ids cam = ["zoom_absolute"; "zoom_absolute"] /\
    map V4L2Ctrl._id (V4L2Ctrls.ctrls (CameraCtrls.v4l2 cam)) =
      [V4L2_CID_ZOOM_ABSOLUTE; V4L2_CID_ZOOM_RELATIVE] /\
    "Zoom, Absolute" <> "Zoom Absolute" /\
    ~ NoDup (merged_ids cam) /\
    log w = [].
Proof.
  do 2 eexists. split; [vm_compute; reflexivity|].
  split; [reflexivity|]. split; [reflexivity|]. split; [discriminate|].
  split; [|reflexivity].
  intro H. inversion H as [|x l Hin _]. apply Hin. now left.
Qed.

Lemma mem_In x l : CameraCtrls.mem x l = true <-> In x l.
Proof.
  unfold CameraCtrls.mem. rewrite existsb_exists. split.
  - intros [y [Hy E]]. apply String.eqb_eq in E. now subst.
  - intro H. exists x. split; [exact H | apply String.eqb_refl].
Qed.

Lemma distinct_NoDup l : distinct l = true -> NoDup l.
Proof.
  induction l as [|x l IH]; simpl; [constructor|].
  intro H. apply andb_true_iff in H. destruct H as [H1 H2].
  constructor; [|now apply IH].
  intro Hin. apply mem_In in Hin. rewrite Hin in H1. discriminate.
Qed.

Lemma shape_ids {A B} `{HasTextId A} `{HasTextId B} (R : A -> B -> Prop) cs ds :
  Forall2 (fun c d => text_id_of c = text_id_of d /\ R c d) cs ds ->
  map text_id_of cs = map text_id_of ds.
Proof.
  induction 1 as [|c d cs ds [Hid _] _ IH]; simpl; [reflexivity|].
  now rewrite Hid, IH.
Qed.

Lemma merged_ids_app self :
  merged_ids self =
  native_ids self ++
  map text_id_of (KiyoProCtrls.ctrls (CameraCtrls.kiyo self)) ++
  map text_id_of (LogitechCtrls.ctrls (CameraCtrls.logitech self)).
Proof.
  unfold merged_ids, native_ids, CameraCtrls.get_ctrls,
    V4L2Ctrls.get_ctrls, KiyoProCtrls.get_ctrls, LogitechCtrls.get_ctrls.
  rewrite !map_app, !map_map. reflexivity.
Qed.

(** C7 (as amended): the id is a function of the name; the merged list is
    the three lists one after the other, with no check of the ids; the ids
    are unique when those of the native controls are pairwise distinct and
    none of them is one of the six vendor ids. *)
Theorem merged_ids_unique_if_native_unique self :
  (forall name1 name2, name1 = name2 -> to_text_id name1 = to_text_id name2) /\
  CameraCtrls.get_ctrls self =
    map Native (V4L2Ctrls.ctrls (CameraCtrls.v4l2 self)) ++
    map Kiyo (KiyoProCtrls.ctrls (CameraCtrls.kiyo self)) ++
    map Logitech (LogitechCtrls.ctrls (CameraCtrls.logitech self)) /\
  (vendor_tables self ->
   NoDup (native_ids self) ->
   (forall k, In k (native_ids self) -> ~ In k vendor_ids) ->
   NoDup (merged_ids self)).
Proof.
  split; [now intros ? ? ->|]. split; [reflexivity|].
  intros [Hk Hl] Hnd Hdisj. rewrite merged_ids_app.
  assert (Hvendor :
            NoDup (map text_id_of (KiyoProCtrls.ctrls (CameraCtrls.kiyo self)) ++
                   map text_id_of (LogitechCtrls.ctrls (CameraCtrls.logitech self))) /\
            incl (map text_id_of (KiyoProCtrls.ctrls (CameraCtrls.kiyo self)) ++
                  map text_id_of (LogitechCtrls.ctrls (CameraCtrls.logitech self)))
                 vendor_ids).
  { destruct Hk as [-> | Hk];
      [|assert (Hk' : map text_id_of (KiyoProCtrls.ctrls (CameraCtrls.kiyo self))
                      = map text_id_of KiyoProCtrls.device_controls)
          by (eapply shape_ids; exact Hk);
        rewrite Hk'];
      (destruct Hl as [-> | Hl];
       [|assert (Hl' : map text_id_of (LogitechCtrls.ctrls (CameraCtrls.logitech self))
                       = map text_id_of LogitechCtrls.declared_controls)
           by (eapply shape_ids; exact Hl);
         rewrite Hl']);
      (split;
       [ apply distinct_NoDup; reflexivity
       | intros a Ha; vm_compute in Ha |- *; intuition ]). }
  destruct Hvendor as [Hv Hincl].
  apply NoDup_app; [exact Hnd | exact Hv |].
  intros a Ha Hb. exact (Hdisj a Ha (Hincl a Hb)).
Qed.

Lemma merged_ids_unique_if_native_unique_witness :
  snd (CameraCtrls.init wb_driver fs_plain "/dev/video0" 4 wb_start) = Ok wb_cam /\
  vendor_tables wb_cam /\
  NoDup (native_ids wb_cam) /\
  (forall k, In k (native_ids wb_cam) -> ~ In k vendor_ids) /\
  NoDup (merged_ids wb_cam).
Proof.
  assert (Ht : vendor_tables wb_cam) by (split; left; reflexivity).
  assert (Hn : NoDup (native_ids wb_cam)) by (apply distinct_NoDup; reflexivity).
  assert (Hd : forall k, In k (native_ids wb_cam) -> ~ In k vendor_ids).
  { intros k Hk Hv. vm_compute in Hk. vm_compute in Hv.
    destruct Hk as [<- | [<- | [<- | []]]]; intuition discriminate. }
  split; [vm_compute; reflexivity|].
  split; [exact Ht|]. split; [exact Hn|]. split; [exact Hd|].
  exact (proj2 (proj2 (merged_ids_unique_if_native_unique wb_cam)) Ht Hn Hd).
Defined.

(** ** Menu values after discovery *)

Lemma bind_inv {D A B} (m : M D A) (k : A -> M D B) w w' b :
  bind m k w = (w', Ok b) ->
  exists w1 a, m w = (w1, Ok a) /\ k a w1 = (w', Ok b).
Proof.
  unfold bind. destruct (m w) as [w1 [a | e |]]; intro H; try discriminate.
  now exists w1, a.
Qed.

Lemma ret_inv {D A} (a b : A) (w w' : world D) :
  ret a w = (w', Ok b) -> a = b /\ w = w'.
Proof. unfold ret. intros [= -> ->]. now split. Qed.

Lemma for_each_invariant {D S A} (P : S -> Prop) (body : S -> A -> M D S) l :
  (forall s a w w' s', P s -> body s a w = (w', Ok s') -> P s') ->
  forall s w w' s', P s -> for_each body l s w = (w', Ok s') -> P s'.
Proof.
  intro Hbody. induction l as [|a l IH]; intros s w w' s' Hs Hrun.
  - apply ret_inv in Hrun. destruct Hrun as [<- _]. exact Hs.
  - cbn [for_each] in Hrun. apply bind_inv in Hrun.
    destruct Hrun as [w1 [s1 [H1 H2]]].
    exact (IH s1 w1 w' s' (Hbody _ _ _ _ _ Hs H1) H2).
Qed.

Lemma menu_step_resolved {D} (drv : driver D) qctrl T b i w w' b' :
  BaseCtrl.type b = T /\ resolved_or_raw b ->
  V4L2Ctrls.menu_step drv qctrl b i w = (w', Ok b') ->
  BaseCtrl.type b' = T /\ resolved_or_raw b'.
Proof.
  intros [HT HP] Hrun. unfold V4L2Ctrls.menu_step in Hrun.
  apply bind_inv in Hrun. destruct Hrun as [w1 [r [_ Hrun]]].
  destruct r as [qmenu|].
  2:{ apply ret_inv in Hrun. destruct Hrun as [<- _]. now split. }
  apply ret_inv in Hrun. destruct Hrun as [<- _].
  set (tid := if v4l2_queryctrl.type qctrl =? V4L2_CTRL_TYPE_MENU
              then to_text_id (v4l2_querymenu.name qmenu)
              else str_of_int (v4l2_querymenu.value qmenu)).
  set (new := BaseCtrlMenu.mk tid _ (wrap_uint32 i)).
  set (b1 := BaseCtrl.set_menu b (Some (BaseCtrl.entries b ++ [new]))).
  set (b2 := if pyval_eqb (BaseCtrl.value b1) (VInt (wrap_uint32 i))
             then BaseCtrl.set_value b1 (VStr tid) else b1).
  assert (H2 : BaseCtrl.type b2 = T /\
               BaseCtrl.entries b2 = BaseCtrl.entries b ++ [new] /\
               resolved_or_raw b2).
  { unfold b2. change (BaseCtrl.value b1) with (BaseCtrl.value b).
    destruct (pyval_eqb (BaseCtrl.value b) (VInt (wrap_uint32 i))) eqn:E.
    - split; [exact HT|]. split; [reflexivity|]. left. exists new.
      split; [|reflexivity].
      change (In new (BaseCtrl.entries b ++ [new])).
      apply in_or_app. right. now left.
    - split; [exact HT|]. split; [reflexivity|].
      destruct HP as [[m [Hm Hv]] | [n [Hv Hno]]].
      + left. exists m. split; [|exact Hv].
        change (In m (BaseCtrl.entries b ++ [new])).
        apply in_or_app. now left.
      + right. exists n. split; [exact Hv|]. intros m Hm.
        change (In m (BaseCtrl.entries b ++ [new])) in Hm.
        apply in_app_or in Hm. destruct Hm as [Hm | [<- | []]]; [now apply Hno|].
        rewrite Hv in E. simpl in E. apply Z.eqb_neq in E. simpl. congruence. }
  destruct H2 as [H2t [H2e H2p]].
  destruct (pyval_eqb (BaseCtrl.default b2) (VInt (wrap_uint32 i)));
    [|now split].
  split; [exact H2t|]. exact H2p.
Qed.

Lemma to_type_menu ty :
  V4L2Ctrls.to_type ty = "menu" ->
  existsb (Z.eqb ty) V4L2Ctrls.menu_types = true.
Proof.
  unfold V4L2Ctrls.to_type, V4L2Ctrls.menu_types. simpl.
  destruct (ty =? V4L2_CTRL_TYPE_INTEGER); [discriminate|].
  destruct (ty =? V4L2_CTRL_TYPE_BOOLEAN); [discriminate|].
  destruct (ty =? V4L2_CTRL_TYPE_MENU); [reflexivity|].
  destruct (ty =? V4L2_CTRL_TYPE_INTEGER_MENU); [reflexivity|discriminate].
Qed.

Lemma build_ctrl_resolved {D} (drv : driver D) qctrl w w' c :
  V4L2Ctrls.build_ctrl drv qctrl w = (w', Ok c) ->
  BaseCtrl.type (V4L2Ctrl.base c) = "menu" ->
  resolved_or_raw (V4L2Ctrl.base c).
Proof.
  intros Hrun Hty. unfold V4L2Ctrls.build_ctrl in Hrun.
  apply bind_inv in Hrun. destruct Hrun as [w1 [r [_ Hrun]]].
  apply bind_inv in Hrun. destruct Hrun as [w2 [value [_ Hrun]]].
  apply bind_inv in Hrun. destruct Hrun as [w3 [b [Hloop Hrun]]].
  apply ret_inv in Hrun. destruct Hrun as [<- _]. simpl in Hty |- *.
  destruct (existsb (Z.eqb (v4l2_queryctrl.type qctrl)) V4L2Ctrls.menu_types) eqn:E.
  - cut (BaseCtrl.type b = V4L2Ctrls.to_type (v4l2_queryctrl.type qctrl) /\
         resolved_or_raw b); [now intros [_ H]|].
    eapply for_each_invariant
      with (P := fun b => BaseCtrl.type b = V4L2Ctrls.to_type (v4l2_queryctrl.type qctrl)
                          /\ resolved_or_raw b);
      [ | | exact Hloop].
    + intros s a v0 v1 s' Hs Hstep. eapply menu_step_resolved; eassumption.
    + split; [reflexivity|]. right. exists value. split; [reflexivity|].
      intros m [].
  - apply ret_inv in Hloop. destruct Hloop as [<- _]. simpl in Hty.
    apply to_type_menu in Hty. congruence.
Qed.

Lemma enumerate_resolved {D} (drv : driver D) fuel : forall qid ctrls w w' out,
  V4L2Ctrls.enumerate drv fuel qid ctrls w = (w', Ok out) ->
  (forall c, In c ctrls -> BaseCtrl.type (V4L2Ctrl.base c) = "menu" ->
             resolved_or_raw (V4L2Ctrl.base c)) ->
  forall c, In c out -> BaseCtrl.type (V4L2Ctrl.base c) = "menu" ->
            resolved_or_raw (V4L2Ctrl.base c).
Proof.
  induction fuel as [|fuel IH]; intros qid ctrls w w' out Hrun Hacc;
    [discriminate|].
  cbn [V4L2Ctrls.enumerate] in Hrun.
  apply bind_inv in Hrun. destruct Hrun as [w1 [r [_ Hrun]]].
  destruct r as [qctrl|].
  2:{ apply ret_inv in Hrun. destruct Hrun as [<- _]. exact Hacc. }
  apply bind_inv in Hrun. destruct Hrun as [w2 [ctrls' [Hstep Hrun]]].
  apply (IH _ _ _ _ _ Hrun).
  destruct (existsb (Z.eqb (v4l2_queryctrl.type qctrl)) V4L2Ctrls.enumerated_types).
  - apply bind_inv in Hstep. destruct Hstep as [w3 [c0 [Hbuild Hret]]].
    apply ret_inv in Hret. destruct Hret as [<- _].
    intros c Hc. apply in_app_or in Hc. destruct Hc as [Hc | [<- | []]].
    + now apply Hacc.
    + eapply build_ctrl_resolved; eassumption.
  - apply ret_inv in Hstep. destruct Hstep as [<- _]. exact Hacc.
Qed.

Lemma discover_ctrl_resolved {D} (drv : driver D) uid c w w' c' :
  LogitechCtrls.discover_ctrl drv uid c w = (w', Ok c') ->
  BaseCtrl.type (LogitechCtrl.base c') = "menu" ->
  resolved_or_raw (LogitechCtrl.base c').
Proof.
  intros Hrun Hty. unfold LogitechCtrls.discover_ctrl in Hrun.
  repeat (apply bind_inv in Hrun; destruct Hrun as [? [? [_ Hrun]]]).
  apply ret_inv in Hrun. destruct Hrun as [<- _].
  simpl in Hty |- *.
  destruct (String.eqb (BaseCtrl.type (LogitechCtrl.base c)) "menu") eqn:E.
  - simpl. unfold resolved_or_raw. simpl.
    change (match BaseCtrl.menu (LogitechCtrl.base c) with
            | Some l => l
            | None => []
            end) with (BaseCtrl.entries (LogitechCtrl.base c)).
    unfold LogitechCtrls.menu_text.
    match goal with
    | |- context [find_by_value ?menu ?n] =>
        destruct (find_by_value menu n) as [m|] eqn:Hm
    end.
    + left. exists m. split; [|reflexivity].
      now apply find_by_value_Some in Hm.
    + right. eexists. split; [reflexivity|].
      now apply find_by_value_None.
  - simpl in Hty. rewrite Hty in E. discriminate.
Qed.

Lemma discover_all_resolved {D} (drv : driver D) uid cs : forall w w' out,
  LogitechCtrls.discover_all drv uid cs w = (w', Ok out) ->
  forall c, In c out -> BaseCtrl.type (LogitechCtrl.base c) = "menu" ->
            resolved_or_raw (LogitechCtrl.base c).
Proof.
  induction cs as [|c0 cs IH]; intros w w' out Hrun; cbn [LogitechCtrls.discover_all] in Hrun.
  - apply ret_inv in Hrun. destruct Hrun as [<- _]. intros c [].
  - apply bind_inv in Hrun. destruct Hrun as [w1 [c1 [H1 Hrun]]].
    apply bind_inv in Hrun. destruct Hrun as [w2 [rest [H2 Hrun]]].
    apply ret_inv in Hrun. destruct Hrun as [<- _].
    intros c [<- | Hc].
    + eapply discover_ctrl_resolved; eassumption.
    + eapply IH; eassumption.
Qed.

(** C2 (as amended): after discovery the value of a menu control of the
    native or of the Logitech source is the id of one of its entries, or,
    no entry having the number read from the device as its code, that
    number; the value of a Kiyo control is [None]. *)
Theorem menu_value_after_discovery {D} (drv : driver D) :
  (forall fuel w w' self,
     V4L2Ctrls.get_device_controls drv fuel w = (w', Ok self) ->
     forall c, In c (V4L2Ctrls.ctrls self) ->
               BaseCtrl.type (V4L2Ctrl.base c) = "menu" ->
               resolved_or_raw (V4L2Ctrl.base c)) /\
  (forall self0 w w' self,
     LogitechCtrls.get_device_controls drv self0 w = (w', Ok self) ->
     forall c, In c (LogitechCtrls.ctrls self) ->
               BaseCtrl.type (LogitechCtrl.base c) = "menu" ->
               resolved_or_raw (LogitechCtrl.base c)) /\
  (forall self c,
     In c (KiyoProCtrls.ctrls (KiyoProCtrls.get_device_controls self)) ->
     BaseCtrl.type c = "menu" /\ BaseCtrl.value c = VNone).
Proof.
  split; [|split].
  - intros fuel w w' self Hrun c Hc.
    unfold V4L2Ctrls.get_device_controls in Hrun.
    apply bind_inv in Hrun. destruct Hrun as [w1 [ctrls [Henum Hrun]]].
    apply ret_inv in Hrun. destruct Hrun as [<- _]. simpl in Hc.
    apply (Permutation_in _ (reorder_perm ctrls)) in Hc.
    eapply enumerate_resolved; [exact Henum | | exact Hc].
    intros c0 [].
  - intros self0 w w' self Hrun c Hc.
    unfold LogitechCtrls.get_device_controls in Hrun.
    destruct (negb (LogitechCtrls.supported self0)).
    + apply ret_inv in Hrun. destruct Hrun as [<- _]. destruct Hc.
    + apply bind_inv in Hrun. destruct Hrun as [w1 [cs [Hall Hrun]]].
      apply ret_inv in Hrun. destruct Hrun as [<- _]. simpl in Hc.
      eapply discover_all_resolved; eassumption.
  - intros self c. unfold KiyoProCtrls.get_device_controls.
    destruct (negb (KiyoProCtrls.supported self)); simpl; [intros []|].
    intros [<- | [<- | [<- | [<- | []]]]]; split; reflexivity.
Qed.

Lemma menu_value_after_discovery_witness :
  exists w,
    V4L2Ctrls.get_device_controls plf_driver 2 plf_start
      = (w, Ok (V4L2Ctrls.mk [plf_ctrl])) /\
    In plf_ctrl (V4L2Ctrls.ctrls (V4L2Ctrls.mk [plf_ctrl])) /\
    BaseCtrl.type (V4L2Ctrl.base plf_ctrl) = "menu" /\
    resolved_or_raw (V4L2Ctrl.base plf_ctrl).
Proof.
  eexists.
  assert (Hrun : V4L2Ctrls.get_device_controls plf_driver 2 plf_start
                 = (_, Ok (V4L2Ctrls.mk [plf_ctrl]))) by (vm_compute; reflexivity).
  split; [exact Hrun|]. split; [now left|]. split; [reflexivity|].
  exact (proj1 (menu_value_after_discovery plf_driver) 2%nat plf_start _ _ Hrun
           plf_ctrl (or_introl eq_refl) eq_refl).
Defined.

(** C2 as stated fails.  An LED register whose mode byte is 7: the menu
    control is discovered with the value 7, the id of none of its entries.
    And on every supported Kiyo Pro the four menu controls are discovered
    with no value at all. *)
Lemma menu_value_left_raw :
  (exists w cs,
     LogitechCtrls.get_device_controls (led_driver accept_write)
       (LogitechCtrls.mk 3 []) led_mode_7 = (w, Ok (LogitechCtrls.mk 3 cs)) /\
     In led_mode_ctrl_7 cs /\
     BaseCtrl.type (LogitechCtrl.base led_mode_ctrl_7) = "menu" /\
     BaseCtrl.value (LogitechCtrl.base led_mode_ctrl_7) = VInt 7 /\
     ~ resolved (LogitechCtrl.base led_mode_ctrl_7)) /\
  map type_and_value
      (KiyoProCtrls.ctrls (KiyoProCtrls.get_device_controls kiyo_supported))
    = [("menu", VNone); ("menu", VNone); ("menu", VNone); ("menu", VNone)].
Proof.
  split; [|reflexivity].
  do 2 eexists. split; [vm_compute; reflexivity|].
  split; [now left|]. split; [reflexivity|]. split; [reflexivity|].
  intros [m [_ H]]. discriminate H.
Qed.

(** ** Setting many controls: unknown ids *)

Lemma quiet_ret {D A} (a : A) : quiet (ret (D := D) a).
Proof. intro w. reflexivity. Qed.

Lemma quiet_raise {D A} e : quiet (raise (D := D) (A := A) e).
Proof. intro w. reflexivity. Qed.

Lemma quiet_bind {D A B} (m : M D A) (k : A -> M D B) :
  quiet m -> (forall a, quiet (k a)) -> quiet (bind m k).
Proof.
  intros Hm Hk w. unfold bind. specialize (Hm w).
  destruct (m w) as [w1 [a | e |]]; simpl in *; try exact Hm.
  now rewrite (Hk a w1).
Qed.

Lemma quiet_warn {D} x :
  match x with W_unknown_ctrls _ => False | _ => True end ->
  quiet (warn (D := D) x).
Proof.
  intros Hx w. unfold warn, unknown_warnings. simpl.
  rewrite flat_map_app. simpl. destruct x; try contradiction; simpl;
    now rewrite app_nil_r.
Qed.

Lemma quiet_run_ioctl {D R} (step : D -> D * option R) r :
  quiet (run_ioctl step r).
Proof. intro w. unfold run_ioctl. now destruct (step (dev w)). Qed.

Lemma quiet_lift {D A} e (o : option A) : quiet (lift (D := D) e o).
Proof. destruct o; [apply quiet_ret | apply quiet_raise]. Qed.

Lemma quiet_for_each {D S A} (body : S -> A -> M D S) l :
  (forall s a, quiet (body s a)) -> forall s, quiet (for_each body l s).
Proof.
  intro Hb. induction l as [|a l IH]; intro s; cbn [for_each].
  - apply quiet_ret.
  - apply quiet_bind; [apply Hb | exact IH].
Qed.

Ltac quiet_step :=
  first
    [ apply quiet_ret
    | apply quiet_raise
    | apply quiet_run_ioctl
    | apply quiet_lift
    | apply quiet_warn; exact I
    | apply quiet_bind; [|intro]
    | match goal with
      | |- quiet (match ?x with _ => _ end) => destruct x
      end ].

Lemma quiet_query_xu_control {D} (drv : driver D) u s q data :
  quiet (query_xu_control drv u s q data).
Proof.
  unfold query_xu_control, get_length_xu_control. repeat quiet_step.
Qed.

Lemma quiet_v4l2_setup {D} (drv : driver D) self params :
  quiet (V4L2Ctrls.setup_ctrls drv self params).
Proof.
  unfold V4L2Ctrls.setup_ctrls. apply quiet_for_each. clear.
  intros self [k v]. unfold V4L2Ctrls.setup_item, V4L2Ctrls.write_ctrl.
  repeat quiet_step.
Qed.

Lemma quiet_kiyo_setup {D} (drv : driver D) self params :
  quiet (KiyoProCtrls.setup_ctrls drv self params).
Proof.
  unfold KiyoProCtrls.setup_ctrls. quiet_step; [apply quiet_ret|].
  apply quiet_bind.
  - apply quiet_for_each. clear. intros self [k v].
    unfold KiyoProCtrls.setup_item.
    repeat first [apply quiet_query_xu_control | quiet_step].
  - intro s. repeat first [apply quiet_query_xu_control | quiet_step].
Qed.

Lemma quiet_logitech_setup {D} (drv : driver D) self params :
  quiet (LogitechCtrls.setup_ctrls drv self params).
Proof.
  unfold LogitechCtrls.setup_ctrls. quiet_step; [apply quiet_ret|].
  apply quiet_for_each. clear. intros self [k v].
  unfold LogitechCtrls.setup_item, LogitechCtrls.write_and_verify,
    LogitechCtrls.store_byte.
  repeat first [apply quiet_query_xu_control | quiet_step].
Qed.

Lemma find_by_text_id_None {A} `{HasTextId A} (l : list A) k :
  ~ In k (map text_id_of l) -> find_by_text_id l k = None.
Proof.
  induction l as [|x l IH]; simpl; [reflexivity|]. intro Hn.
  destruct (String.eqb (text_id_of x) k) eqn:E.
  - apply String.eqb_eq in E. exfalso. apply Hn. now left.
  - apply IH. intro Hin. apply Hn. now right.
Qed.

Lemma update_by_text_id_ids {A} `{HasTextId A} (l : list A) k f :
  (forall c, text_id_of (f c) = text_id_of c) ->
  map text_id_of (update_by_text_id l k f) = map text_id_of l.
Proof.
  intro Hf. induction l as [|x l IH]; simpl; [reflexivity|].
  destruct (String.eqb (text_id_of x) k); simpl; [now rewrite Hf | now rewrite IH].
Qed.

(** Taking a run apart: every bind that returned, every match on a value
    of the program. *)
Ltac run_inv H :=
  repeat first
    [ apply ret_inv in H; destruct H as [? ?]; subst
    | let w := fresh "w" in let a := fresh "a" in let H1 := fresh "Hrun" in
      apply bind_inv in H; destruct H as [w [a [H1 H]]]
    | match type of H with
      | (match ?x with _ => _ end) _ = _ => destruct x eqn:?
      | (let (_, _) := ?x in _) _ = _ => destruct x eqn:?
      end ].

Lemma v4l2_setup_item_ids {D} (drv : driver D) self kv w w' self' :
  V4L2Ctrls.setup_item drv self kv w = (w', Ok self') ->
  map text_id_of (V4L2Ctrls.ctrls self') = map text_id_of (V4L2Ctrls.ctrls self).
Proof.
  destruct kv as [k v]. unfold V4L2Ctrls.setup_item, V4L2Ctrls.write_ctrl.
  intro H. run_inv H; try reflexivity; try discriminate;
    simpl; apply update_by_text_id_ids; reflexivity.
Qed.

Lemma kiyo_setup_item_ids {D} (drv : driver D) self kv w w' self' :
  KiyoProCtrls.setup_item drv self kv w = (w', Ok self') ->
  map text_id_of (KiyoProCtrls.ctrls self') = map text_id_of (KiyoProCtrls.ctrls self) /\
  KiyoProCtrls.supported self' = KiyoProCtrls.supported self.
Proof.
  destruct kv as [k v]. unfold KiyoProCtrls.setup_item.
  intro H. run_inv H; try (split; reflexivity); try discriminate;
    (split; [simpl; apply update_by_text_id_ids; reflexivity | reflexivity]).
Qed.

Lemma logitech_setup_item_ids {D} (drv : driver D) self kv w w' self' :
  LogitechCtrls.setup_item drv self kv w = (w', Ok self') ->
  map text_id_of (LogitechCtrls.ctrls self') = map text_id_of (LogitechCtrls.ctrls self).
Proof.
  destruct kv as [k v].
  unfold LogitechCtrls.setup_item, LogitechCtrls.write_and_verify.
  intro H. run_inv H; try reflexivity; try discriminate;
    simpl; apply update_by_text_id_ids; reflexivity.
Qed.

(** A loop whose rounds ignore the keys they do not own behaves on a map
    as on the map without the keys that are none of [ids]. *)
Lemma for_each_skip {D S} (body : S -> string * string -> M D S)
      (own : S -> list string) ids params :
  (forall s kv w w' s', body s kv w = (w', Ok s') -> own s' = own s) ->
  (forall s k v w, ~ In k (own s) -> body s (k, v) w = (w, Ok s)) ->
  forall s w, incl (own s) ids ->
    for_each body params s w = for_each body (known_params ids params) s w.
Proof.
  intros Hown Hskip. induction params as [|[k v] params IH]; intros s w Hincl.
  - reflexivity.
  - unfold known_params. cbn [filter fst]. fold (known_params ids params).
    destruct (CameraCtrls.mem k ids) eqn:E.
    + cbn [for_each]. unfold bind.
      destruct (body s (k, v) w) as [w1 [s1 | e |]] eqn:Eb; try reflexivity.
      apply IH. rewrite (Hown _ _ _ _ _ Eb). exact Hincl.
    + cbn [for_each]. unfold bind. rewrite Hskip.
      * now apply IH.
      * intro Hin. apply Hincl in Hin. apply mem_In in Hin. congruence.
Qed.

Lemma for_each_own {D S A} (body : S -> A -> M D S) (X : Type) (own : S -> X) l :
  (forall s a w w' s', body s a w = (w', Ok s') -> own s' = own s) ->
  forall s w w' s', for_each body l s w = (w', Ok s') -> own s' = own s.
Proof.
  intros Hown s w w' s' Hrun.
  apply (for_each_invariant (fun x => own x = own s) body l) with (s := s) (w := w) (w' := w');
    [|reflexivity|exact Hrun].
  intros s0 a w0 w1 s1 Hs Hb. rewrite <- Hs. eapply Hown; eassumption.
Qed.

Lemma v4l2_setup_skip {D} (drv : driver D) ids params self w :
  incl (v4l2_own self) ids ->
  V4L2Ctrls.setup_ctrls drv self params w =
  V4L2Ctrls.setup_ctrls drv self (known_params ids params) w.
Proof.
  intro Hincl. unfold V4L2Ctrls.setup_ctrls.
  apply (@for_each_skip _ _ (V4L2Ctrls.setup_item drv) v4l2_own); [| |exact Hincl].
  - intros. eapply v4l2_setup_item_ids; eassumption.
  - intros s k v w0 Hn. unfold V4L2Ctrls.setup_item.
    now rewrite (find_by_text_id_None _ _ Hn).
Qed.

Lemma kiyo_setup_skip {D} (drv : driver D) ids params self w :
  incl (kiyo_own self) ids ->
  KiyoProCtrls.setup_ctrls drv self params w =
  KiyoProCtrls.setup_ctrls drv self (known_params ids params) w.
Proof.
  intro Hincl. unfold KiyoProCtrls.setup_ctrls.
  destruct (negb (KiyoProCtrls.supported self)); [reflexivity|].
  unfold bind at 1 3.
  rewrite (@for_each_skip _ _ (KiyoProCtrls.setup_item drv) kiyo_own ids params);
    [reflexivity | | | exact Hincl].
  - intros. eapply (fun H => proj1 (kiyo_setup_item_ids _ _ _ _ H)); eassumption.
  - intros s k v w0 Hn. unfold KiyoProCtrls.setup_item.
    now rewrite (find_by_text_id_None _ _ Hn).
Qed.

Lemma logitech_setup_skip {D} (drv : driver D) ids params self w :
  incl (logitech_own self) ids ->
  LogitechCtrls.setup_ctrls drv self params w =
  LogitechCtrls.setup_ctrls drv self (known_params ids params) w.
Proof.
  intro Hincl. unfold LogitechCtrls.setup_ctrls.
  destruct (negb (LogitechCtrls.supported self)); [reflexivity|].
  apply (@for_each_skip _ _ (LogitechCtrls.setup_item drv) logitech_own); [| |exact Hincl].
  - intros. eapply logitech_setup_item_ids; eassumption.
  - intros s k v w0 Hn. unfold LogitechCtrls.setup_item.
    now rewrite (find_by_text_id_None _ _ Hn).
Qed.

Lemma v4l2_setup_own {D} (drv : driver D) self params w w' self' :
  V4L2Ctrls.setup_ctrls drv self params w = (w', Ok self') ->
  v4l2_own self' = v4l2_own self.
Proof.
  unfold V4L2Ctrls.setup_ctrls. apply for_each_own.
  intros. eapply v4l2_setup_item_ids; eassumption.
Qed.

Lemma kiyo_setup_own {D} (drv : driver D) self params w w' self' :
  KiyoProCtrls.setup_ctrls drv self params w = (w', Ok self') ->
  kiyo_own self' = kiyo_own self.
Proof.
  unfold KiyoProCtrls.setup_ctrls. intro H.
  destruct (negb (KiyoProCtrls.supported self)).
  - apply ret_inv in H. now destruct H as [<- _].
  - apply bind_inv in H. destruct H as [w1 [s1 [Hloop H]]].
    apply bind_inv in H. destruct H as [w2 [b [_ H]]].
    apply ret_inv in H. destruct H as [<- _].
    revert Hloop. apply for_each_own.
    intros. eapply (fun H => proj1 (kiyo_setup_item_ids _ _ _ _ H)); eassumption.
Qed.

Lemma logitech_setup_own {D} (drv : driver D) self params w w' self' :
  LogitechCtrls.setup_ctrls drv self params w = (w', Ok self') ->
  logitech_own self' = logitech_own self.
Proof.
  unfold LogitechCtrls.setup_ctrls. intro H.
  destruct (negb (LogitechCtrls.supported self)).
  - apply ret_inv in H. now destruct H as [<- _].
  - revert H. apply for_each_own.
    intros. eapply logitech_setup_item_ids; eassumption.
Qed.

Lemma merged_ids_own self :
  merged_ids self =
  v4l2_own (CameraCtrls.v4l2 self) ++ kiyo_own (CameraCtrls.kiyo self) ++
  logitech_own (CameraCtrls.logitech self).
Proof. apply merged_ids_app. Qed.

Lemma unknown_of_known ids params :
  CameraCtrls.unknown_of (map fst (known_params ids params)) ids = [].
Proof.
  unfold CameraCtrls.unknown_of.
  replace (filter _ (map fst (known_params ids params))) with (@nil string);
    [reflexivity|].
  symmetry. induction params as [|[k v] params IH]; simpl; [reflexivity|].
  destruct (CameraCtrls.mem k ids) eqn:E; simpl; [rewrite E; simpl|]; exact IH.
Qed.

(** Ids that no source owns: the sources do on a map exactly what they do
    on the map without those ids, whatever the outcome; when they all
    return, the unknown ids, each once, are reported in one warning after
    the last source, and in no other; without unknown ids nothing is
    reported. *)
Theorem set_many_unknown_ids {D} (drv : driver D) self params w :
  let ids := merged_ids self in
  let unknown := CameraCtrls.unknown_of (map fst params) ids in
  (forall k, In k unknown <-> In k (map fst params) /\ ~ In k ids) /\
  NoDup unknown /\
  match CameraCtrls.setup_ctrls drv self (known_params ids params) w with
  | (w1, Ok self1) =>
      CameraCtrls.setup_ctrls drv self params w
        = (report_unknown w1 unknown, Ok self1) /\
      unknown_warnings (log w1) = unknown_warnings (log w) /\
      merged_ids self1 = ids
  | (w1, Raise e) => CameraCtrls.setup_ctrls drv self params w = (w1, Raise e)
  | (w1, OutOfFuel) => CameraCtrls.setup_ctrls drv self params w = (w1, OutOfFuel)
  end.
Proof.
  intros ids unknown. split; [|split].
  - intro k. unfold unknown, CameraCtrls.unknown_of.
    rewrite nodup_In, filter_In, negb_true_iff.
    split; intros [H1 H2]; (split; [exact H1|]).
    + intro Hin. apply mem_In in Hin. congruence.
    + destruct (CameraCtrls.mem k ids) eqn:E; [|reflexivity].
      apply mem_In in E. contradiction.
  - apply NoDup_nodup.
  - assert (Hids : ids = v4l2_own (CameraCtrls.v4l2 self) ++
                         kiyo_own (CameraCtrls.kiyo self) ++
                         logitech_own (CameraCtrls.logitech self))
      by apply merged_ids_own.
    assert (Hv : incl (v4l2_own (CameraCtrls.v4l2 self)) ids)
      by (rewrite Hids; intros x Hx; apply in_or_app; now left).
    assert (Hk : incl (kiyo_own (CameraCtrls.kiyo self)) ids)
      by (rewrite Hids; intros x Hx; apply in_or_app; right;
          apply in_or_app; now left).
    assert (Hl : incl (logitech_own (CameraCtrls.logitech self)) ids)
      by (rewrite Hids; intros x Hx; apply in_or_app; right;
          apply in_or_app; now right).
    unfold CameraCtrls.setup_ctrls, bind.
    rewrite (v4l2_setup_skip drv params (CameraCtrls.v4l2 self) w Hv).
    pose proof (quiet_v4l2_setup drv (CameraCtrls.v4l2 self)
                  (known_params ids params) w) as Q1.
    destruct (V4L2Ctrls.setup_ctrls drv (CameraCtrls.v4l2 self)
                (known_params ids params) w) as [w1 [a | e |]] eqn:Ea;
      [|reflexivity|reflexivity].
    rewrite (kiyo_setup_skip drv params (CameraCtrls.kiyo self) w1 Hk).
    pose proof (quiet_kiyo_setup drv (CameraCtrls.kiyo self)
                  (known_params ids params) w1) as Q2.
    destruct (KiyoProCtrls.setup_ctrls drv (CameraCtrls.kiyo self)
                (known_params ids params) w1) as [w2 [b | e |]] eqn:Eb;
      [|reflexivity|reflexivity].
    rewrite (logitech_setup_skip drv params (CameraCtrls.logitech self) w2 Hl).
    pose proof (quiet_logitech_setup drv (CameraCtrls.logitech self)
                  (known_params ids params) w2) as Q3.
    destruct (LogitechCtrls.setup_ctrls drv (CameraCtrls.logitech self)
                (known_params ids params) w2) as [w3 [c | e |]] eqn:Ec;
      [|reflexivity|reflexivity].
    simpl in Q1, Q2, Q3.
    assert (Hsame : map text_id_of (CameraCtrls.get_ctrls (CameraCtrls.mk a b c)) = ids).
    { change (merged_ids (CameraCtrls.mk a b c) = ids).
      rewrite merged_ids_own, Hids. simpl.
      rewrite (v4l2_setup_own _ _ _ _ Ea), (kiyo_setup_own _ _ _ _ Eb),
        (logitech_setup_own _ _ _ _ Ec). reflexivity. }
    rewrite Hsame, unknown_of_known. fold unknown. simpl.
    split; [|split; [congruence | exact Hsame]].
    destruct unknown as [|u rest]; simpl; [reflexivity|].
    replace (0 <? Z.pos (Pos.of_succ_nat (List.length rest))) with true by (symmetry; apply Z.ltb_lt; lia).
    reflexivity.
Qed.

Lemma set_many_unknown_ids_witness :
  exists w1 self1,
    CameraCtrls.setup_ctrls wb_driver wb_cam
      (known_params (merged_ids wb_cam) params_unknown) wb_world = (w1, Ok self1) /\
    CameraCtrls.setup_ctrls wb_driver wb_cam params_unknown wb_world
      = (logged w1 (W_unknown_ctrls ["nonexistent_ctrl"]), Ok self1) /\
    unknown_warnings (log w1) = unknown_warnings (log wb_world) /\
    map any_value (CameraCtrls.get_ctrls self1) = [VInt 0; VInt 128; VInt 4600].
Proof.
  pose proof (set_many_unknown_ids wb_driver wb_cam params_unknown wb_world) as H.
  cbv zeta in H. destruct H as [_ [_ H]].
  destruct (CameraCtrls.setup_ctrls wb_driver wb_cam
              (known_params (merged_ids wb_cam) params_unknown) wb_world)
    as [w1 [self1 | e |]] eqn:E.
  - exists w1, self1. destruct H as [H1 [H2 _]].
    split; [reflexivity|]. split; [exact H1|]. split; [exact H2|].
    vm_compute in E. injection E as <- <-. reflexivity.
  - vm_compute in E. discriminate E.
  - vm_compute in E. discriminate E.
Defined.

(** C5, at the map gamma=abc, nonexistent_ctrl=x,
    white_balance_temperature=5000: the claim has every owned id applied
    and every unknown id reported, for every map, with no abort.  The
    conversion [int(v)] of the native source stands before its [try], so
    the value that is no number ends the batch with a [ValueError]: the
    unknown id is not reported, and the valid assignment after it is not
    made (no request reaches the driver).  Every other failure of a single
    assignment is logged and the loop goes on. *)
Lemma set_many_bad_integer_aborts :
  exists w1,
    CameraCtrls.setup_ctrls wb_driver wb_cam params_bad_integer wb_world
      = (w1, Raise ValueError) /\
    In "nonexistent_ctrl"
       (CameraCtrls.unknown_of (map fst params_bad_integer) (merged_ids wb_cam)) /\
    In "white_balance_temperature" (merged_ids wb_cam) /\
    unknown_warnings (log w1) = [] /\
    trace w1 = trace wb_world.
Proof.
  eexists. split; [vm_compute; reflexivity|].
  split; [vm_compute; now left|].
  split; [vm_compute; tauto|].
  split; reflexivity.
Qed.

(** * Further properties of the code *)

(** ** Lookups *)

(** [find_idx] returns the index of the first element that satisfies the
    predicate, and [None] exactly when no element does. *)
Theorem find_idx_first {A} (l : list A) (pred : A -> bool) :
  match find_idx l pred with
  | Some i =>
      exists c, nth_error l i = Some c /\ pred c = true /\
                forall j c', (j < i)%nat -> nth_error l j = Some c' -> pred c' = false
  | None => forall c, In c l -> pred c = false
  end.
Proof.
  induction l as [|x l IH]; simpl; [intros c []|].
  destruct (pred x) eqn:E.
  - exists x. split; [reflexivity|]. split; [exact E|]. intros j c' Hj. lia.
  - destruct (find_idx l pred) as [i|]; simpl.
    + destruct IH as [c [Hn [Hp Hmin]]]. exists c.
      split; [exact Hn|]. split; [exact Hp|].
      intros [|j] c' Hj Hc'; simpl in Hc'.
      * now injection Hc' as <-.
      * apply (Hmin j); [lia | exact Hc'].
    + intros c [<- | Hc]; [exact E | now apply IH].
Qed.

(** [find_by_text_id] returns the first object with the id asked for, and
    [None] exactly when no object has it. *)
Theorem find_by_text_id_first {A} `{HasTextId A} (l : list A) k :
  match find_by_text_id l k with
  | Some c =>
      exists pre post, l = pre ++ c :: post /\ text_id_of c = k /\
                       forall x, In x pre -> text_id_of x <> k
  | None => forall x, In x l -> text_id_of x <> k
  end.
Proof.
  induction l as [|x l IH]; simpl; [intros c []|].
  destruct (String.eqb (text_id_of x) k) eqn:E.
  - exists [], l. split; [reflexivity|]. split; [now apply String.eqb_eq|].
    intros y [].
  - apply String.eqb_neq in E.
    destruct (find_by_text_id l k) as [c|].
    + destruct IH as [pre [post [Hl [Hc Hpre]]]].
      exists (x :: pre), post. split; [simpl; now rewrite Hl|].
      split; [exact Hc|]. intros y [<- | Hy]; [exact E | now apply Hpre].
    + intros y [<- | Hy]; [exact E | now apply IH].
Qed.

(** [find_by_value] returns the first entry with the code asked for, and
    [None] exactly when no entry has it. *)
Theorem find_by_value_first (menu : list BaseCtrlMenu.t) n :
  match find_by_value menu n with
  | Some m =>
      exists pre post, menu = pre ++ m :: post /\ BaseCtrlMenu.value m = n /\
                       forall x, In x pre -> BaseCtrlMenu.value x <> n
  | None => forall x, In x menu -> BaseCtrlMenu.value x <> n
  end.
Proof.
  induction menu as [|x l IH]; simpl; [intros c []|].
  destruct (BaseCtrlMenu.value x =? n) eqn:E.
  - exists [], l. split; [reflexivity|]. split; [now apply Z.eqb_eq|].
    intros y [].
  - apply Z.eqb_neq in E.
    destruct (find_by_value l n) as [c|].
    + destruct IH as [pre [post [Hl [Hc Hpre]]]].
      exists (x :: pre), post. split; [simpl; now rewrite Hl|].
      split; [exact Hc|]. intros y [<- | Hy]; [exact E | now apply Hpre].
    + intros y [<- | Hy]; [exact E | now apply IH].
Qed.

(** ** The reordering pass *)

(** The pass over the enumerated controls changes no control, drops none
    and adds none: the list it returns is a rearrangement of the list it
    is given. *)
Theorem reorder_rearranges ctrls :
  Permutation (V4L2Ctrls.reorder ctrls) ctrls /\
  List.length (V4L2Ctrls.reorder ctrls) = List.length ctrls.
Proof.
  split; [apply reorder_perm|]. apply Permutation_length, reorder_perm.
Qed.

Lemma find_idx_nth {A} (l : list A) pred : forall i,
  find_idx l pred = Some i ->
  exists c, nth_error l i = Some c /\ pred c = true.
Proof.
  induction l as [|x l IH]; intros i; simpl; [discriminate|].
  destruct (pred x) eqn:E.
  - intros [= <-]. now exists x.
  - destruct (find_idx l pred) as [j|]; [|discriminate].
    intros [= <-]. simpl. now apply IH.
Qed.

(** A pair both of whose controls are found, neither at index 0: the
    control [k] is taken out and put back immediately before the control
    [v]; the list without it is the same before and after. *)
Theorem reorder_step_adjacent ctrls k v a b :
  k <> v ->
  find_idx ctrls (fun c => V4L2Ctrl._id c =? k) = Some (S a) ->
  find_idx ctrls (fun c => V4L2Ctrl._id c =? v) = Some (S b) ->
  exists x y pre post,
    V4L2Ctrls.reorder_step ctrls (k, v) = pre ++ x :: y :: post /\
    V4L2Ctrl._id x = k /\ V4L2Ctrl._id y = v /\
    list_pop ctrls (S a) = Some (x, pre ++ y :: post).
Proof.
  intros Hkv Hwhat Hwhere.
  destruct (find_idx_nth _ _ Hwhat) as [x [Hx Hxk]].
  destruct (find_idx_nth _ _ Hwhere) as [y [Hy Hyv]].
  apply Z.eqb_eq in Hxk, Hyv.
  assert (Hne : S a <> S b).
  { intro E. rewrite E in Hx. rewrite Hx in Hy. injection Hy as ->. congruence. }
  unfold V4L2Ctrls.reorder_step. rewrite Hwhat, Hwhere. cbn [truthy_idx andb].
  unfold list_pop. rewrite Hx.
  set (rest := firstn (S a) ctrls ++ skipn (S (S a)) ctrls).
  assert (Hla : (S a < List.length ctrls)%nat)
    by (apply nth_error_Some; congruence).
  assert (Hf : List.length (firstn (S a) ctrls) = S a)
    by (rewrite length_firstn; lia).
  set (j := if (S a <? S b)%nat then (S b - 1)%nat else S b).
  assert (Hj : nth_error rest j = Some y).
  { unfold j, rest. destruct (S a <? S b)%nat eqn:E.
    - apply Nat.ltb_lt in E. rewrite nth_error_app2 by lia.
      rewrite Hf, nth_error_skipn. rewrite <- Hy. f_equal. lia.
    - apply Nat.ltb_ge in E. rewrite nth_error_app1 by lia.
      rewrite nth_error_firstn.
      destruct (S b <? S a)%nat eqn:E2; [exact Hy|].
      apply Nat.ltb_ge in E2. lia. }
  exists x, y, (firstn j rest), (skipn (S j) rest).
  unfold list_insert. rewrite (skipn_nth_error _ _ Hj).
  split; [reflexivity|]. split; [exact Hxk|]. split; [exact Hyv|].
  f_equal. f_equal.
  rewrite <- (skipn_nth_error _ _ Hj). symmetry. apply firstn_skipn.
Qed.

Lemma reorder_step_adjacent_witness :
  V4L2_CID_AUTO_WHITE_BALANCE <> V4L2_CID_WHITE_BALANCE_TEMPERATURE /\
  find_idx bright_enumerated
    (fun c => V4L2Ctrl._id c =? V4L2_CID_AUTO_WHITE_BALANCE) = Some 1%nat /\
  find_idx bright_enumerated
    (fun c => V4L2Ctrl._id c =? V4L2_CID_WHITE_BALANCE_TEMPERATURE) = Some 3%nat /\
  exists x y pre post,
    V4L2Ctrls.reorder_step bright_enumerated
      (V4L2_CID_AUTO_WHITE_BALANCE, V4L2_CID_WHITE_BALANCE_TEMPERATURE)
      = pre ++ x :: y :: post /\
    V4L2Ctrl._id x = V4L2_CID_AUTO_WHITE_BALANCE /\
    V4L2Ctrl._id y = V4L2_CID_WHITE_BALANCE_TEMPERATURE /\
    list_pop bright_enumerated 1 = Some (x, pre ++ y :: post).
Proof.
  assert (Hne : V4L2_CID_AUTO_WHITE_BALANCE <> V4L2_CID_WHITE_BALANCE_TEMPERATURE)
    by (vm_compute; discriminate).
  split; [exact Hne|]. split; [reflexivity|]. split; [reflexivity|].
  exact (@reorder_step_adjacent bright_enumerated _ _ 0%nat 2%nat Hne eq_refl eq_refl).
Defined.

(** A pair one of whose controls is not in the list, or is its first
    element, leaves the list as it is. *)
Theorem reorder_step_skips ctrls k v :
  truthy_idx (find_idx ctrls (fun c => V4L2Ctrl._id c =? k)) = false \/
  truthy_idx (find_idx ctrls (fun c => V4L2Ctrl._id c =? v)) = false ->
  V4L2Ctrls.reorder_step ctrls (k, v) = ctrls.
Proof.
  unfold V4L2Ctrls.reorder_step. intros [-> | ->]; [reflexivity|].
  now rewrite andb_false_r.
Qed.

Lemma reorder_step_skips_witness :
  truthy_idx (find_idx bright_enumerated
                (fun c => V4L2Ctrl._id c =? V4L2_CID_FOCUS_AUTO)) = false /\
  V4L2Ctrls.reorder_step bright_enumerated
    (V4L2_CID_FOCUS_AUTO, V4L2_CID_FOCUS_ABSOLUTE) = bright_enumerated.
Proof.
  split; [reflexivity|].
  exact (reorder_step_skips bright_enumerated V4L2_CID_FOCUS_AUTO
           V4L2_CID_FOCUS_ABSOLUTE (or_introl eq_refl)).
Defined.

(** ** Extension unit queries *)

(** [query_xu_control] never raises, whatever the driver does.  It issues
    two requests: the length query, with a two-byte buffer, and then the
    query itself with the size the driver answered (0 when the length query
    failed).  The buffer keeps its length; it is left as it was when the
    query failed. *)
Theorem query_xu_control_protocol {D} (drv : driver D) u s q data w :
  let get_len := uvc_xu_control_query.mk u s UVC_GET_LEN 2 in
  let len := match snd (ioctl_xu drv (dev w) get_len [0; 0]) with
             | Some reply => uint16_of (fill [0; 0] reply)
             | None => 0
             end in
  let d1 := fst (ioctl_xu drv (dev w) get_len [0; 0]) in
  let query := uvc_xu_control_query.mk u s q len in
  exists w' data',
    query_xu_control drv u s q data w = (w', Ok data') /\
    trace w' = trace w ++ [UVCIOC_CTRL_QUERY get_len [0; 0];
                           UVCIOC_CTRL_QUERY query data] /\
    dev w' = fst (ioctl_xu drv d1 query data) /\
    List.length data' = List.length data /\
    data' = match snd (ioctl_xu drv d1 query data) with
            | Some reply => fill data reply
            | None => data
            end.
Proof.
  cbv zeta.
  unfold query_xu_control, get_length_xu_control, bind, run_ioctl, warn, ret.
  cbn [dev trace log].
  destruct (ioctl_xu drv (dev w) (uvc_xu_control_query.mk u s UVC_GET_LEN 2) [0; 0])
    as [d1 [r1|]]; cbv beta iota; cbn [fst snd dev trace log];
    change (uint16_of [0; 0]) with 0.
  - destruct (ioctl_xu drv d1
                (uvc_xu_control_query.mk u s q (uint16_of (fill [0; 0] r1))) data)
      as [d2 [r2|]]; cbv beta iota; cbn [fst snd dev trace log];
      do 2 eexists; (split; [reflexivity|]); cbn [dev trace log];
      rewrite <- ?app_assoc;
      (split; [reflexivity|]); (split; [reflexivity|]);
      (split; [try apply fill_length; reflexivity | reflexivity]).
  - destruct (ioctl_xu drv d1 (uvc_xu_control_query.mk u s q 0) data)
      as [d2 [r2|]]; cbv beta iota; cbn [fst snd dev trace log];
      do 2 eexists; (split; [reflexivity|]); cbn [dev trace log];
      rewrite <- ?app_assoc;
      (split; [reflexivity|]); (split; [reflexivity|]);
      (split; [try apply fill_length; reflexivity | reflexivity]).
Qed.

(** ** Kiyo Pro: the value is stored without confirmation *)

(** On a supported Kiyo Pro a request [k=v] for an entry [v] of the menu
    of the control [k] always returns and leaves [v] as the stored value of
    [k], whatever the driver answers: no request of it is checked. *)
Theorem kiyo_set_stores_requested {D} (drv : driver D) self k v ctrl menu w :
  KiyoProCtrls.supported self = true ->
  find_by_text_id (KiyoProCtrls.ctrls self) k = Some ctrl ->
  find_by_text_id (BaseCtrl.entries ctrl) v = Some menu ->
  exists w' self' ctrl',
    KiyoProCtrls.setup_ctrls drv self [(k, v)] w = (w', Ok self') /\
    find_by_text_id (KiyoProCtrls.ctrls self') k = Some ctrl' /\
    BaseCtrl.value ctrl' = VStr v /\
    BaseCtrl.menu ctrl' = BaseCtrl.menu ctrl.
Proof.
  intros Hsup Hc Hm.
  assert (Hv : KiyoMenu.text_id menu = v)
    by (apply find_by_text_id_In in Hm; apply Hm).
  unfold KiyoProCtrls.setup_ctrls. rewrite Hsup. cbn [negb for_each].
  unfold KiyoProCtrls.setup_item. rewrite Hc, Hm.
  set (self1 := KiyoProCtrls.mk _ _ _).
  assert (Hitem : exists w1,
             (match KiyoProCtrls.before_frame menu with
              | Some pre =>
                  query_xu_control drv (KiyoProCtrls.unit_id self) EU1_SET_ISP
                    UVC_SET_CUR (to_buf pre);;; ret tt
              | None => ret tt
              end;;;
              query_xu_control drv (KiyoProCtrls.unit_id self) EU1_SET_ISP
                UVC_SET_CUR (to_buf (KiyoMenu.value menu));;; ret self1) w
             = (w1, Ok self1)).
  { destruct (KiyoProCtrls.before_frame menu) as [pre|].
    - destruct (query_xu_control_run drv (KiyoProCtrls.unit_id self) EU1_SET_ISP
                  UVC_SET_CUR (to_buf pre) w) as [w1 [b1 [l1 [H1 _]]]].
      destruct (query_xu_control_run drv (KiyoProCtrls.unit_id self) EU1_SET_ISP
                  UVC_SET_CUR (to_buf (KiyoMenu.value menu)) w1)
        as [w2 [b2 [l2 [H2 _]]]].
      exists w2. unfold bind at 1. unfold bind at 1. rewrite H1.
      unfold ret at 1. unfold bind. now rewrite H2.
    - destruct (query_xu_control_run drv (KiyoProCtrls.unit_id self) EU1_SET_ISP
                  UVC_SET_CUR (to_buf (KiyoMenu.value menu)) w)
        as [w2 [b2 [l2 [H2 _]]]].
      exists w2. unfold bind at 1. unfold ret at 1. unfold bind. now rewrite H2. }
  destruct Hitem as [w1 Hitem].
  destruct (query_xu_control_run drv (KiyoProCtrls.unit_id self1) EU1_SET_ISP
              UVC_SET_CUR (to_buf SAVE) w1) as [w2 [b2 [l2 [H2 _]]]].
  exists w2, self1, (BaseCtrl.set_value ctrl (VStr v)).
  split.
  - unfold bind at 1. unfold bind at 1. rewrite Hitem. unfold ret at 1.
    unfold bind. now rewrite H2.
  - split; [|split; reflexivity].
    unfold self1. cbn [KiyoProCtrls.ctrls]. rewrite Hv.
    now apply (find_by_text_id_update _ _ (fun c => BaseCtrl.set_value c (VStr v))).
Qed.

Lemma kiyo_set_stores_requested_witness :
  KiyoProCtrls.supported kiyo_supported = true /\
  exists ctrl menu,
    find_by_text_id (KiyoProCtrls.ctrls kiyo_supported) "kiyo_pro_hdr" = Some ctrl /\
    find_by_text_id (BaseCtrl.entries ctrl) "on" = Some menu /\
    exists w' self' ctrl',
      KiyoProCtrls.setup_ctrls (led_driver ignore_write) kiyo_supported
        [("kiyo_pro_hdr", "on")] led_start = (w', Ok self') /\
      find_by_text_id (KiyoProCtrls.ctrls self') "kiyo_pro_hdr" = Some ctrl' /\
      BaseCtrl.value ctrl' = VStr "on" /\
      BaseCtrl.menu ctrl' = BaseCtrl.menu ctrl.
Proof.
  split; [reflexivity|]. do 2 eexists.
  split; [reflexivity|]. split; [reflexivity|].
  exact (@kiyo_set_stores_requested _ (led_driver ignore_write) kiyo_supported
           "kiyo_pro_hdr" "on" _ _ led_start eq_refl eq_refl eq_refl).
Defined.

(** ** Native source: writing a control *)

Lemma write_ctrl_run {D} (drv : driver D) self k v ctrl intvalue w :
  let id := V4L2Ctrl._id ctrl in
  let sent := wrap_int32 intvalue in
  let answer := snd (ioctl_s_ctrl drv (dev w) id sent) in
  exists w' self',
    V4L2Ctrls.write_ctrl drv self k v ctrl intvalue w = (w', Ok self') /\
    trace w' = trace w ++ [VIDIOC_S_CTRL id sent] /\
    dev w' = fst (ioctl_s_ctrl drv (dev w) id sent) /\
    ((answer = Some intvalue /\
      self' = v4l2_store self k
                (if String.eqb (BaseCtrl.type (V4L2Ctrl.base ctrl)) "menu"
                 then VStr v else VInt intvalue) /\
      log w' = log w) \/
     (answer <> Some intvalue /\ self' = self /\
      exists x, log w' = log w ++ [x])).
Proof.
  cbv zeta. unfold V4L2Ctrls.write_ctrl, bind, run_ioctl, warn, ret.
  destruct (ioctl_s_ctrl drv (dev w) (V4L2Ctrl._id ctrl) (wrap_int32 intvalue))
    as [d1 [echoed|]]; cbv beta iota; cbn [fst snd dev trace log].
  - destruct (echoed =? intvalue) eqn:E; cbn [negb].
    + apply Z.eqb_eq in E. subst echoed. do 2 eexists.
      split; [reflexivity|]. split; [reflexivity|]. split; [reflexivity|].
      left. split; [reflexivity|]. split; reflexivity.
    + apply Z.eqb_neq in E. do 2 eexists.
      split; [reflexivity|]. split; [reflexivity|]. split; [reflexivity|].
      right. split; [congruence|]. split; [reflexivity|]. eexists. reflexivity.
  - do 2 eexists.
    split; [reflexivity|]. split; [reflexivity|]. split; [reflexivity|].
    right. split; [discriminate|]. split; [reflexivity|]. eexists. reflexivity.
Qed.

(** Reading the store back: after [v4l2_store] the control [k] is found
    with the new value and its other attributes as they were, every other
    id is found as before, and the ids are in the same order. *)
Lemma v4l2_store_lookup self k x ctrl :
  find_by_text_id (V4L2Ctrls.ctrls self) k = Some ctrl ->
  find_by_text_id (V4L2Ctrls.ctrls (v4l2_store self k x)) k =
    Some (V4L2Ctrl.with_base ctrl (BaseCtrl.set_value (V4L2Ctrl.base ctrl) x)) /\
  (forall k', k' <> k ->
     find_by_text_id (V4L2Ctrls.ctrls (v4l2_store self k x)) k' =
     find_by_text_id (V4L2Ctrls.ctrls self) k') /\
  map text_id_of (V4L2Ctrls.ctrls (v4l2_store self k x)) =
    map text_id_of (V4L2Ctrls.ctrls self).
Proof.
  intro Hc. unfold v4l2_store. cbn [V4L2Ctrls.ctrls].
  split; [|split].
  - now apply (find_by_text_id_update _ _
                 (V4L2Ctrls.map_base (fun b => BaseCtrl.set_value b x))).
  - intros k' Hk'.
    now apply (find_by_text_id_update_other _
                 (V4L2Ctrls.map_base (fun b => BaseCtrl.set_value b x))).
  - now apply update_by_text_id_ids.
Qed.

(** The write of a native control never raises and issues one
    [VIDIOC_S_CTRL], with the requested integer cut to 32 bits.  When the
    driver answers with the requested integer itself, the control is then
    found holding the new value (the text for a menu, the integer
    otherwise), every other control is found as before and nothing is
    logged; a failed request, or any other answer, leaves the source as it
    was and logs one warning.  An integer that does not fit 32 bits is sent
    as another number. *)
Theorem v4l2_write_ctrl_outcome {D} (drv : driver D) self k v ctrl intvalue w :
  find_by_text_id (V4L2Ctrls.ctrls self) k = Some ctrl ->
  let id := V4L2Ctrl._id ctrl in
  let sent := wrap_int32 intvalue in
  let answer := snd (ioctl_s_ctrl drv (dev w) id sent) in
  let new_value := if String.eqb (BaseCtrl.type (V4L2Ctrl.base ctrl)) "menu"
                   then VStr v else VInt intvalue in
  (exists w' self',
     V4L2Ctrls.write_ctrl drv self k v ctrl intvalue w = (w', Ok self') /\
     trace w' = trace w ++ [VIDIOC_S_CTRL id sent] /\
     dev w' = fst (ioctl_s_ctrl drv (dev w) id sent) /\
     ((answer = Some intvalue /\
       find_by_text_id (V4L2Ctrls.ctrls self') k =
         Some (V4L2Ctrl.with_base ctrl
                 (BaseCtrl.set_value (V4L2Ctrl.base ctrl) new_value)) /\
       (forall k', k' <> k ->
          find_by_text_id (V4L2Ctrls.ctrls self') k' =
          find_by_text_id (V4L2Ctrls.ctrls self) k') /\
       map text_id_of (V4L2Ctrls.ctrls self') =
         map text_id_of (V4L2Ctrls.ctrls self) /\
       log w' = log w) \/
      (answer <> Some intvalue /\ self' = self /\
       exists x, log w' = log w ++ [x]))) /\
  (sent = intvalue <-> - 2 ^ 31 <= intvalue < 2 ^ 31).
Proof.
  intros Hc id sent answer new_value. split.
  - destruct (write_ctrl_run drv self k v ctrl intvalue w)
      as [w' [self' [Hrun [Htr [Hdev Hcase]]]]].
    exists w', self'. split; [exact Hrun|]. split; [exact Htr|].
    split; [exact Hdev|].
    destruct Hcase as [[Ha [Hs Hl]] | Hfail]; [left | right; exact Hfail].
    split; [exact Ha|]. rewrite Hs. fold new_value.
    destruct (@v4l2_store_lookup self k new_value ctrl Hc) as [H1 [H2 H3]].
    split; [exact H1|]. split; [exact H2|]. split; [exact H3 | exact Hl].
  - unfold sent, wrap_int32.
    pose proof (Z.mod_pos_bound (intvalue + 2 ^ 31) (2 ^ 32) eq_refl) as Hb.
    split.
    + intro H. lia.
    + intro H. rewrite Z.mod_small by lia. lia.
Qed.

Lemma v4l2_write_ctrl_outcome_witness :
  find_by_text_id (V4L2Ctrls.ctrls (CameraCtrls.v4l2 wb_cam)) "gamma" = Some gamma_ctrl /\
  let id := V4L2Ctrl._id gamma_ctrl in
  let sent := wrap_int32 130 in
  let answer := snd (ioctl_s_ctrl wb_driver (dev wb_world) id sent) in
  let new_value := if String.eqb (BaseCtrl.type (V4L2Ctrl.base gamma_ctrl)) "menu"
                   then VStr "130" else VInt 130 in
  (exists w' self',
     V4L2Ctrls.write_ctrl wb_driver (CameraCtrls.v4l2 wb_cam) "gamma" "130"
       gamma_ctrl 130 wb_world = (w', Ok self') /\
     trace w' = trace wb_world ++ [VIDIOC_S_CTRL id sent] /\
     dev w' = fst (ioctl_s_ctrl wb_driver (dev wb_world) id sent) /\
     ((answer = Some 130 /\
       find_by_text_id (V4L2Ctrls.ctrls self') "gamma" =
         Some (V4L2Ctrl.with_base gamma_ctrl
                 (BaseCtrl.set_value (V4L2Ctrl.base gamma_ctrl) new_value)) /\
       (forall k', k' <> "gamma" ->
          find_by_text_id (V4L2Ctrls.ctrls self') k' =
          find_by_text_id (V4L2Ctrls.ctrls (CameraCtrls.v4l2 wb_cam)) k') /\
       map text_id_of (V4L2Ctrls.ctrls self') =
         map text_id_of (V4L2Ctrls.ctrls (CameraCtrls.v4l2 wb_cam)) /\
       log w' = log wb_world) \/
      (answer <> Some 130 /\ self' = CameraCtrls.v4l2 wb_cam /\
       exists x, log w' = log wb_world ++ [x]))) /\
  (sent = 130 <-> - 2 ^ 31 <= 130 < 2 ^ 31).
Proof.
  split; [reflexivity|].
  exact (@v4l2_write_ctrl_outcome _ wb_driver (CameraCtrls.v4l2 wb_cam)
           "gamma" "130" gamma_ctrl 130 wb_world eq_refl).
Defined.

(** A text that [int()] rejects, given for an integer control, ends
    [setup_ctrls] with a [ValueError]: nothing is sent or logged for it, and
    the assignments after it are not made. *)
Theorem v4l2_set_non_number_raises {D} (drv : driver D) self k v ctrl rest w :
  find_by_text_id (V4L2Ctrls.ctrls self) k = Some ctrl ->
  BaseCtrl.type (V4L2Ctrl.base ctrl) = "integer" ->
  py_int v = None ->
  V4L2Ctrls.setup_ctrls drv self ((k, v) :: rest) w = (w, Raise ValueError).
Proof.
  intros Hc Hty Hv. unfold V4L2Ctrls.setup_ctrls. cbn [for_each].
  unfold V4L2Ctrls.setup_item. rewrite Hc, Hty, Hv. reflexivity.
Qed.

Lemma v4l2_set_non_number_raises_witness :
  find_by_text_id (V4L2Ctrls.ctrls (CameraCtrls.v4l2 wb_cam)) "gamma" = Some gamma_ctrl /\
  BaseCtrl.type (V4L2Ctrl.base gamma_ctrl) = "integer" /\
  py_int "12O" = None /\
  V4L2Ctrls.setup_ctrls wb_driver (CameraCtrls.v4l2 wb_cam)
    [("gamma", "12O"); ("white_balance_temperature", "5000")] wb_world
    = (wb_world, Raise ValueError).
Proof.
  split; [reflexivity|]. split; [reflexivity|]. split; [reflexivity|].
  exact (@v4l2_set_non_number_raises _ wb_driver (CameraCtrls.v4l2 wb_cam)
           "gamma" "12O" gamma_ctrl _ wb_world eq_refl eq_refl eq_refl).
Defined.

(** For a boolean control the integer written is 1 for every text that is
    not empty (the texts [0] and [false] too) and 0 for the empty text
    only. *)
Theorem v4l2_set_boolean_writes {D} (drv : driver D) self k v ctrl w :
  find_by_text_id (V4L2Ctrls.ctrls self) k = Some ctrl ->
  BaseCtrl.type (V4L2Ctrl.base ctrl) = "boolean" ->
  exists w' self',
    V4L2Ctrls.setup_item drv self (k, v) w = (w', Ok self') /\
    trace w' = trace w ++
      [VIDIOC_S_CTRL (V4L2Ctrl._id ctrl) (if String.eqb v "" then 0 else 1)].
Proof.
  intros Hc Hty. unfold V4L2Ctrls.setup_item. rewrite Hc, Hty. cbn [String.eqb].
  change (String.eqb "boolean" "integer") with false.
  change (String.eqb "boolean" "boolean") with true. cbv iota.
  destruct (write_ctrl_run drv self k v ctrl (if py_bool v then 1 else 0) w)
    as [w' [self' [Hrun [Htr _]]]].
  exists w', self'. split; [exact Hrun|]. rewrite Htr.
  destruct v; reflexivity.
Qed.

Lemma v4l2_set_boolean_writes_witness :
  find_by_text_id (V4L2Ctrls.ctrls (CameraCtrls.v4l2 wb_cam))
    "white_balance_automatic" = Some wb_auto_ctrl /\
  BaseCtrl.type (V4L2Ctrl.base wb_auto_ctrl) = "boolean" /\
  exists w' self',
    V4L2Ctrls.setup_item wb_driver (CameraCtrls.v4l2 wb_cam)
      ("white_balance_automatic", "false") wb_world = (w', Ok self') /\
    trace w' = trace wb_world ++
      [VIDIOC_S_CTRL (V4L2Ctrl._id wb_auto_ctrl)
         (if String.eqb "false" "" then 0 else 1)].
Proof.
  split; [reflexivity|]. split; [reflexivity|].
  exact (@v4l2_set_boolean_writes _ wb_driver (CameraCtrls.v4l2 wb_cam)
           "white_balance_automatic" "false" wb_auto_ctrl wb_world
           eq_refl eq_refl).
Defined.

(** ** Native source: refresh *)

Lemma update_ctrl_run {D} (drv : driver D) c w :
  exists w' c',
    V4L2Ctrls.update_ctrl drv c w = (w', Ok c') /\
    without_inactive c' = without_inactive c /\
    trace w' = trace w ++ [VIDIOC_QUERYCTRL (V4L2Ctrl._id c)].
Proof.
  unfold V4L2Ctrls.update_ctrl, bind, run_ioctl, warn, ret.
  destruct (ioctl_queryctrl drv (dev w) (V4L2Ctrl._id c)) as [d1 [qctrl|]];
    cbv beta iota; cbn [dev trace log]; do 2 eexists;
    (split; [reflexivity|]); split; reflexivity.
Qed.

(** [update_ctrls] never raises; it issues one [VIDIOC_QUERYCTRL] per
    control, in the order of the list and with the control's own id, and
    changes nothing of a control but its [inactive] flag. *)
Theorem update_ctrls_only_inactive {D} (drv : driver D) self w :
  exists w' self',
    V4L2Ctrls.update_ctrls drv self w = (w', Ok self') /\
    map without_inactive (V4L2Ctrls.ctrls self')
      = map without_inactive (V4L2Ctrls.ctrls self) /\
    trace w' = trace w ++
      map (fun c => VIDIOC_QUERYCTRL (V4L2Ctrl._id c)) (V4L2Ctrls.ctrls self).
Proof.
  unfold V4L2Ctrls.update_ctrls. destruct self as [cs]. cbn [V4L2Ctrls.ctrls].
  assert (H : exists w' cs',
             V4L2Ctrls.update_all drv cs w = (w', Ok cs') /\
             map without_inactive cs' = map without_inactive cs /\
             trace w' = trace w ++ map (fun c => VIDIOC_QUERYCTRL (V4L2Ctrl._id c)) cs).
  { revert w. induction cs as [|c cs IH]; intro w.
    - exists w, []. simpl. unfold ret. now rewrite app_nil_r.
    - destruct (update_ctrl_run drv c w) as [w1 [c' [H1 [H2 H3]]]].
      destruct (IH w1) as [w2 [cs' [H4 [H5 H6]]]].
      exists w2, (c' :: cs'). split.
      + cbn [V4L2Ctrls.update_all]. rewrite (bind_ok _ _ H1).
        rewrite (bind_ok _ _ H4). reflexivity.
      + split; [simpl; now rewrite H2, H5|].
        rewrite H6, H3. simpl. now rewrite <- app_assoc. }
  destruct H as [w' [cs' [H1 [H2 H3]]]].
  exists w', (V4L2Ctrls.mk cs'). split; [now rewrite (bind_ok _ _ H1)|].
  split; assumption.
Qed.

(** ** Native source: what the enumeration fixes *)

Lemma menu_step_fields {D} (drv : driver D) qctrl b i w w' b' :
  V4L2Ctrls.menu_step drv qctrl b i w = (w', Ok b') ->
  BaseCtrl.text_id b' = BaseCtrl.text_id b /\
  BaseCtrl.name b' = BaseCtrl.name b /\
  BaseCtrl.type b' = BaseCtrl.type b /\
  BaseCtrl.updater b' = BaseCtrl.updater b /\
  (BaseCtrl.menu b <> None -> BaseCtrl.menu b' <> None).
Proof.
  unfold V4L2Ctrls.menu_step. intro H.
  apply bind_inv in H. destruct H as [w1 [r [_ H]]].
  destruct r as [qmenu|]; apply ret_inv in H; destruct H as [<- _].
  - destruct (pyval_eqb (BaseCtrl.value _) _);
      destruct (pyval_eqb (BaseCtrl.default _) _); cbn;
      repeat split; try reflexivity; intros _; discriminate.
  - repeat split; auto.
Qed.

Lemma build_ctrl_wellformed {D} (drv : driver D) qctrl w w' c :
  existsb (Z.eqb (v4l2_queryctrl.type qctrl)) V4L2Ctrls.enumerated_types = true ->
  V4L2Ctrls.build_ctrl drv qctrl w = (w', Ok c) ->
  native_wellformed c.
Proof.
  intros Hty Hrun. unfold V4L2Ctrls.build_ctrl in Hrun.
  apply bind_inv in Hrun. destruct Hrun as [w1 [r [_ Hrun]]].
  apply bind_inv in Hrun. destruct Hrun as [w2 [value [_ Hrun]]].
  apply bind_inv in Hrun. destruct Hrun as [w3 [b [Hloop Hrun]]].
  apply ret_inv in Hrun. destruct Hrun as [<- _].
  set (ty := v4l2_queryctrl.type qctrl) in *.
  set (b0 := BaseCtrl.set_inactive _ _) in Hloop.
  assert (Hcases : ty = V4L2_CTRL_TYPE_INTEGER \/ ty = V4L2_CTRL_TYPE_BOOLEAN \/
                   ty = V4L2_CTRL_TYPE_MENU \/ ty = V4L2_CTRL_TYPE_INTEGER_MENU).
  { unfold V4L2Ctrls.enumerated_types in Hty. simpl in Hty.
    repeat (apply orb_true_iff in Hty; destruct Hty as [Hty | Hty]);
      try discriminate; apply Z.eqb_eq in Hty; auto. }
  assert (Hb : BaseCtrl.text_id b = BaseCtrl.text_id b0 /\
               BaseCtrl.name b = BaseCtrl.name b0 /\
               BaseCtrl.type b = BaseCtrl.type b0 /\
               BaseCtrl.updater b = BaseCtrl.updater b0 /\
               (BaseCtrl.menu b <> None <->
                existsb (Z.eqb ty) V4L2Ctrls.menu_types = true)).
  { destruct (existsb (Z.eqb ty) V4L2Ctrls.menu_types) eqn:E.
    - cut (BaseCtrl.text_id b = BaseCtrl.text_id b0 /\
           BaseCtrl.name b = BaseCtrl.name b0 /\
           BaseCtrl.type b = BaseCtrl.type b0 /\
           BaseCtrl.updater b = BaseCtrl.updater b0 /\
           BaseCtrl.menu b <> None).
      { intros [H1 [H2 [H3 [H4 H5]]]]. repeat split; auto. }
      eapply for_each_invariant
        with (P := fun b => BaseCtrl.text_id b = BaseCtrl.text_id b0 /\
                            BaseCtrl.name b = BaseCtrl.name b0 /\
                            BaseCtrl.type b = BaseCtrl.type b0 /\
                            BaseCtrl.updater b = BaseCtrl.updater b0 /\
                            BaseCtrl.menu b <> None);
        [ | | exact Hloop].
      + intros s a v0 v1 s' [H1 [H2 [H3 [H4 H5]]]] Hstep.
        apply menu_step_fields in Hstep.
        destruct Hstep as [G1 [G2 [G3 [G4 G5]]]].
        repeat split; try congruence. now apply G5.
      + repeat split; try reflexivity. discriminate.
    - apply ret_inv in Hloop. destruct Hloop as [<- _].
      repeat split; try reflexivity; try discriminate.
      intro H. now contradiction H. }
  destruct Hb as [H1 [H2 [H3 [H4 H5]]]].
  unfold native_wellformed. cbn [V4L2Ctrl.base V4L2Ctrl._id].
  rewrite H1, H2, H3, H4. unfold b0. cbn.
  split; [reflexivity|]. split; [|split; [reflexivity|]].
  - destruct Hcases as [-> | [-> | [-> | ->]]]; vm_compute; tauto.
  - rewrite H5. fold ty.
    destruct Hcases as [E | [E | [E | E]]]; rewrite E; vm_compute;
      split; intro; (reflexivity || discriminate).
Qed.

Lemma enumerate_wellformed {D} (drv : driver D) fuel : forall qid ctrls w w' out,
  V4L2Ctrls.enumerate drv fuel qid ctrls w = (w', Ok out) ->
  Forall native_wellformed ctrls -> Forall native_wellformed out.
Proof.
  induction fuel as [|fuel IH]; intros qid ctrls w w' out Hrun Hacc;
    [discriminate|].
  cbn [V4L2Ctrls.enumerate] in Hrun.
  apply bind_inv in Hrun. destruct Hrun as [w1 [r [_ Hrun]]].
  destruct r as [qctrl|].
  2:{ apply ret_inv in Hrun. destruct Hrun as [<- _]. exact Hacc. }
  apply bind_inv in Hrun. destruct Hrun as [w2 [ctrls' [Hstep Hrun]]].
  apply (IH _ _ _ _ _ Hrun).
  destruct (existsb (Z.eqb (v4l2_queryctrl.type qctrl)) V4L2Ctrls.enumerated_types) eqn:E.
  - apply bind_inv in Hstep. destruct Hstep as [w3 [c0 [Hbuild Hret]]].
    apply ret_inv in Hret. destruct Hret as [<- _].
    apply Forall_app. split; [exact Hacc|]. constructor; [|constructor].
    eapply build_ctrl_wellformed; eassumption.
  - apply ret_inv in Hstep. destruct Hstep as [<- _]. exact Hacc.
Qed.

(** Every control the native source discovers has the id derived from its
    name, one of the three kinds, the updater flag set exactly for the four
    listed control ids (whatever the driver's flags say), and a menu exactly
    when its kind is [menu]. *)
Theorem native_controls_wellformed {D} (drv : driver D) fuel w w' self :
  V4L2Ctrls.get_device_controls drv fuel w = (w', Ok self) ->
  Forall native_wellformed (V4L2Ctrls.ctrls self).
Proof.
  intro Hrun. unfold V4L2Ctrls.get_device_controls in Hrun.
  apply bind_inv in Hrun. destruct Hrun as [w1 [ctrls [Henum Hrun]]].
  apply ret_inv in Hrun. destruct Hrun as [<- _]. cbn [V4L2Ctrls.ctrls].
  apply Forall_forall. intros c Hc.
  apply (Permutation_in _ (reorder_perm ctrls)) in Hc.
  assert (H : Forall native_wellformed ctrls)
    by (eapply enumerate_wellformed; [exact Henum | constructor]).
  rewrite Forall_forall in H. now apply H.
Qed.

Lemma native_controls_wellformed_witness :
  exists w,
    V4L2Ctrls.get_device_controls plf_driver 2 plf_start
      = (w, Ok (V4L2Ctrls.mk [plf_ctrl])) /\
    Forall native_wellformed (V4L2Ctrls.ctrls (V4L2Ctrls.mk [plf_ctrl])).
Proof.
  eexists.
  assert (Hrun : V4L2Ctrls.get_device_controls plf_driver 2 plf_start
                 = (_, Ok (V4L2Ctrls.mk [plf_ctrl]))) by (vm_compute; reflexivity).
  split; [exact Hrun|].
  exact (native_controls_wellformed plf_driver 2 plf_start Hrun).
Defined.

(** ** Logitech source: discovery *)

Lemma getitem_in_range buf off :
  0 <= off < Z.of_nat (List.length buf) ->
  exists x, bytes_getitem buf off = Some x.
Proof.
  intro H. rewrite bytes_getitem_nth by exact H.
  destruct (nth_error buf (Z.to_nat off)) as [x|] eqn:E; [now exists x|].
  apply nth_error_None in E. lia.
Qed.

Lemma discover_ctrl_run {D} (drv : driver D) uid c w :
  0 <= LogitechCtrl._offset c < LogitechCtrl._len c + 1 ->
  exists w' c',
    LogitechCtrls.discover_ctrl drv uid c w = (w', Ok c') /\
    text_id_of c' = text_id_of c /\
    logitech_same c' c /\
    xu_payloads (trace w') = xu_payloads (trace w) ++ discovery_reads c.
Proof.
  intro Hoff.
  set (blank := to_buf (zero_bytes (LogitechCtrl._len c))).
  assert (Hblank : Z.of_nat (List.length blank) = LogitechCtrl._len c + 1)
    by (apply to_buf_zero_length; lia).
  destruct (query_xu_control_payload drv uid (LogitechCtrl._selector c) blank w
              (q := UVC_GET_DEF)) as [w1 [b1 [H1 [L1 P1]]]]; [discriminate|].
  destruct (query_xu_control_payload drv uid (LogitechCtrl._selector c) blank w1
              (q := UVC_GET_MIN)) as [w2 [b2 [H2 [L2 P2]]]]; [discriminate|].
  destruct (query_xu_control_payload drv uid (LogitechCtrl._selector c) blank w2
              (q := UVC_GET_MAX)) as [w3 [b3 [H3 [L3 P3]]]]; [discriminate|].
  destruct (query_xu_control_payload drv uid (LogitechCtrl._selector c) blank w3
              (q := UVC_GET_CUR)) as [w4 [b4 [H4 [L4 P4]]]]; [discriminate|].
  destruct (@getitem_in_range b1 (LogitechCtrl._offset c)) as [x1 G1]; [lia|].
  destruct (@getitem_in_range b2 (LogitechCtrl._offset c)) as [x2 G2]; [lia|].
  destruct (@getitem_in_range b3 (LogitechCtrl._offset c)) as [x3 G3]; [lia|].
  destruct (@getitem_in_range b4 (LogitechCtrl._offset c)) as [x4 G4]; [lia|].
  unfold LogitechCtrls.discover_ctrl. fold blank.
  rewrite (bind_ok _ _ H1), (bind_ok _ _ H2), (bind_ok _ _ H3), (bind_ok _ _ H4).
  rewrite G1, G2, G3, G4. unfold lift, bind, ret.
  do 2 eexists. split; [reflexivity|].
  split; [|split].
  - unfold text_id_of, LogitechCtrl_text_id. cbn.
    destruct (String.eqb (BaseCtrl.type (LogitechCtrl.base c)) "menu"); reflexivity.
  - unfold logitech_same. cbn.
    destruct (String.eqb (BaseCtrl.type (LogitechCtrl.base c)) "menu");
      repeat split; reflexivity.
  - rewrite P4, P3, P2, P1. unfold discovery_reads. fold blank.
    now rewrite <- !app_assoc.
Qed.

Lemma logitech_same_refl c : logitech_same c c.
Proof. unfold logitech_same. repeat split; reflexivity. Qed.

Lemma discover_all_run {D} (drv : driver D) uid cs : forall w,
  Forall (fun c => 0 <= LogitechCtrl._offset c < LogitechCtrl._len c + 1) cs ->
  exists w' cs',
    LogitechCtrls.discover_all drv uid cs w = (w', Ok cs') /\
    Forall2 (fun c d => text_id_of c = text_id_of d /\ logitech_same c d) cs' cs /\
    xu_payloads (trace w') = xu_payloads (trace w) ++ flat_map discovery_reads cs.
Proof.
  induction cs as [|c cs IH]; intros w Hall.
  - exists w, []. split; [reflexivity|]. split; [constructor|].
    simpl. now rewrite app_nil_r.
  - inversion Hall as [|? ? Hc Hrest]; subst.
    destruct (@discover_ctrl_run _ drv uid c w Hc) as [w1 [c' [H1 [I1 [S1 P1]]]]].
    destruct (IH w1 Hrest) as [w2 [cs' [H2 [F2 P2]]]].
    exists w2, (c' :: cs'). split.
    + cbn [LogitechCtrls.discover_all].
      rewrite (bind_ok _ _ H1). rewrite (bind_ok _ _ H2). reflexivity.
    + split; [constructor; [now split | exact F2]|].
      rewrite P2, P1. cbn [flat_map]. now rewrite <- app_assoc.
Qed.

(** On a device with the Logitech unit the discovery returns whatever the
    driver does, with the two declared controls in their order (ids, kinds,
    menus, selector, length and offset as declared); it reads the register
    four times for each of them: default, minimum, maximum, current. *)
Theorem logitech_discovery {D} (drv : driver D) uid w :
  uid <> 0 ->
  exists w' cs,
    LogitechCtrls.get_device_controls drv (LogitechCtrls.mk uid []) w
      = (w', Ok (LogitechCtrls.mk uid cs)) /\
    logitech_shape cs /\
    xu_payloads (trace w') =
      xu_payloads (trace w) ++
      flat_map discovery_reads LogitechCtrls.declared_controls.
Proof.
  intro Huid. unfold LogitechCtrls.get_device_controls, LogitechCtrls.supported.
  cbn [LogitechCtrls.unit_id].
  destruct (uid =? 0) eqn:E; [apply Z.eqb_eq in E; contradiction|]. cbn [negb].
  destruct (@discover_all_run _ drv uid LogitechCtrls.declared_controls w)
    as [w' [cs [Hrun [Hshape Hp]]]].
  { unfold LogitechCtrls.declared_controls.
    repeat constructor; vm_compute; discriminate. }
  exists w', cs. split; [now rewrite (bind_ok _ _ Hrun)|].
  split; [exact Hshape | exact Hp].
Qed.

Lemma logitech_discovery_witness :
  3 <> 0 /\
  exists w' cs,
    LogitechCtrls.get_device_controls (led_driver accept_write)
      (LogitechCtrls.mk 3 []) led_start = (w', Ok (LogitechCtrls.mk 3 cs)) /\
    logitech_shape cs /\
    xu_payloads (trace w') =
      xu_payloads (trace led_start) ++
      flat_map discovery_reads LogitechCtrls.declared_controls.
Proof.
  assert (H : 3 <> 0) by discriminate.
  split; [exact H|].
  exact (logitech_discovery (led_driver accept_write) led_start H).
Defined.

(** ** Logitech source: the table survives every set *)

Lemma logitech_setup_item_shape {D} (drv : driver D) self kv w w' self' :
  logitech_shape (LogitechCtrls.ctrls self) ->
  LogitechCtrls.setup_item drv self kv w = (w', Ok self') ->
  logitech_shape (LogitechCtrls.ctrls self') /\
  LogitechCtrls.unit_id self' = LogitechCtrls.unit_id self.
Proof.
  intro Hs. destruct kv as [k v].
  unfold LogitechCtrls.setup_item, LogitechCtrls.write_and_verify.
  intro H. run_inv H; try (split; [exact Hs | reflexivity]); try discriminate.
  all: split; [|reflexivity]; cbn [LogitechCtrls.ctrls];
    apply (update_by_text_id_shape logitech_same); [|exact Hs];
    intros c0 d0 [Hi Hsame]; split; [exact Hi | exact Hsame].
Qed.

(** Whatever is set and whatever the driver answers, a Logitech source that
    returns from [setup_ctrls] still holds the declared controls, in order,
    with the unit it had: only stored values change. *)
Theorem logitech_setup_keeps_table {D} (drv : driver D) self params w w' self' :
  logitech_shape (LogitechCtrls.ctrls self) ->
  LogitechCtrls.setup_ctrls drv self params w = (w', Ok self') ->
  logitech_shape (LogitechCtrls.ctrls self') /\
  LogitechCtrls.unit_id self' = LogitechCtrls.unit_id self.
Proof.
  intros Hs. unfold LogitechCtrls.setup_ctrls.
  destruct (negb (LogitechCtrls.supported self)).
  - intro H. apply ret_inv in H. destruct H as [<- _]. now split.
  - intro H.
    eapply for_each_invariant
      with (P := fun s => logitech_shape (LogitechCtrls.ctrls s) /\
                          LogitechCtrls.unit_id s = LogitechCtrls.unit_id self);
      [ | | exact H].
    + intros s a v0 v1 s' [Hs0 Hu0] Hstep.
      destruct (logitech_setup_item_shape _ _ _ _ Hs0 Hstep) as [G1 G2].
      split; [exact G1 | congruence].
    + now split.
Qed.

Lemma logitech_setup_keeps_table_witness :
  logitech_shape (LogitechCtrls.ctrls logitech_discovered) /\
  exists w',
    LogitechCtrls.setup_ctrls (led_driver accept_write) logitech_discovered
      [("logitech_led1_mode", "blink")] led_start
      = (w', Ok (logitech_store logitech_discovered "logitech_led1_mode" (VStr "blink"))) /\
    logitech_shape
      (LogitechCtrls.ctrls
         (logitech_store logitech_discovered "logitech_led1_mode" (VStr "blink"))).
Proof.
  assert (Hs : logitech_shape (LogitechCtrls.ctrls logitech_discovered)).
  { unfold logitech_shape, logitech_same. simpl. repeat constructor. }
  split; [exact Hs|]. eexists.
  assert (Hrun : LogitechCtrls.setup_ctrls (led_driver accept_write) logitech_discovered
                   [("logitech_led1_mode", "blink")] led_start
                 = (_, Ok (logitech_store logitech_discovered "logitech_led1_mode"
                             (VStr "blink")))) by (vm_compute; reflexivity).
  split; [exact Hrun|].
  exact (proj1 (logitech_setup_keeps_table _ _ _ _ Hs Hrun)).
Defined.

(** ** Textual identifiers: the characters of an id *)

Lemma lower_not_upper s : all_chars (fun c => negb (is_upper c)) (lower s) = true.
Proof.
  induction s as [|c s IH]; simpl; [reflexivity|]. rewrite IH, andb_true_r.
  destruct c as [[] [] [] [] [] [] [] []]; reflexivity.
Qed.

Lemma translate_id_chars s :
  all_chars (fun c => negb (is_upper c)) s = true ->
  all_chars id_char (translate s) = true.
Proof.
  induction s as [|c s IH]; simpl; [reflexivity|].
  intro H. apply andb_true_iff in H. destruct H as [Hc Hs].
  destruct (deleted_char c) eqn:E; [now apply IH|].
  simpl. rewrite (IH Hs), andb_true_r.
  revert Hc E. destruct c as [[] [] [] [] [] [] [] []];
    vm_compute; intros; (reflexivity || discriminate).
Qed.

Lemma replace_uu_chars (p : ascii -> bool) :
  p underscore = true ->
  forall s,
    (all_chars p s = true -> all_chars p (replace_uu s) = true) /\
    (forall c, p c = true -> all_chars p s = true ->
               all_chars p (replace_uu (String c s)) = true).
Proof.
  intro Hu. induction s as [|a r [IH1 IH2]].
  - split; [reflexivity|]. intros c Hc _. simpl. now rewrite Hc.
  - assert (G1 : all_chars p (String a r) = true ->
                 all_chars p (replace_uu (String a r)) = true).
    { intro H. simpl in H. apply andb_true_iff in H. destruct H as [Ha Hr].
      now apply IH2. }
    split; [exact G1|].
    intros c Hc H. cbn [replace_uu].
    destruct (Ascii.eqb c underscore && Ascii.eqb a underscore).
    + simpl in H. apply andb_true_iff in H. destruct H as [Ha Hr].
      cbn [all_chars]. rewrite Hu. now apply IH1.
    + cbn [all_chars]. rewrite Hc. now apply G1.
Qed.

Lemma replace_uu_length s :
  (String.length (replace_uu s) <= String.length s)%nat /\
  forall c, (String.length (replace_uu (String c s)) <= S (String.length s))%nat.
Proof.
  induction s as [|a r [IH1 IH2]].
  - split; [simpl; lia|]. intro c. simpl. lia.
  - split; [apply IH2|]. intro c. cbn [replace_uu].
    destruct (Ascii.eqb c underscore && Ascii.eqb a underscore); simpl.
    + lia.
    + specialize (IH2 a). simpl in IH2 |- *. lia.
Qed.

Lemma translate_length s : (String.length (translate s) <= String.length s)%nat.
Proof.
  induction s as [|c s IH]; simpl; [lia|].
  destruct (deleted_char c); simpl; lia.
Qed.

Lemma lower_length s : String.length (lower s) = String.length s.
Proof. induction s as [|c s IH]; simpl; congruence. Qed.

(** The id derived from any name holds no upper-case letter, no space, no
    dash and none of the characters [,&(.)/]; it is never longer than the
    name. *)
Theorem to_text_id_chars name :
  all_chars id_char (to_text_id name) = true /\
  (String.length (to_text_id name) <= String.length name)%nat.
Proof.
  unfold to_text_id. split.
  - apply (replace_uu_chars id_char eq_refl).
    apply translate_id_chars, lower_not_upper.
  - pose proof (proj1 (replace_uu_length (translate (lower name)))).
    pose proof (translate_length (lower name)).
    pose proof (lower_length name). lia.
Qed.

(** Only one pass is made over doubled underscores: a name with three
    separators in a row keeps two of them in its id. *)
Example to_text_id_one_pass :
  to_text_id "Gain - Auto" = "gain__auto" /\
  to_text_id "White Balance Temperature, Auto" = "white_balance_temperature_auto".
Proof. split; reflexivity. Qed.

(** ** No descriptors, no vendor controls *)

Lemma warn_each {D} (ws : list warning) (w : world D) :
  for_each (fun (_ : unit) x => warn x) ws tt w
  = (mkWorld (dev w) (trace w) (log w ++ ws), Ok tt).
Proof.
  revert w. induction ws as [|x ws IH]; intro w.
  - simpl. unfold ret. rewrite app_nil_r. now destruct w.
  - cbn [for_each]. unfold bind, warn at 1. rewrite IH. simpl.
    now rewrite <- app_assoc.
Qed.

Lemma no_descriptors_no_unit fs device guid :
  descriptors_of fs device = None ->
  fst (find_unit_id_in_sysfs fs device guid) = 0.
Proof. intro H. now rewrite find_unit_id_unfold, H. Qed.

(** Without a readable descriptors file neither vendor source is there:
    the Kiyo source is unsupported and holds no control, its [setup_ctrls]
    sends nothing (no save frame either), and the construction of the
    Logitech source sends no request and yields no control. *)
Theorem vendor_sources_need_descriptors {D} (drv : driver D) fs device w :
  descriptors_of fs device = None ->
  let kiyo := fst (KiyoProCtrls.init fs device) in
  KiyoProCtrls.supported kiyo = false /\
  KiyoProCtrls.get_ctrls kiyo = [] /\
  (forall params, KiyoProCtrls.setup_ctrls drv kiyo params w = (w, Ok kiyo)) /\
  exists ws,
    LogitechCtrls.init drv fs device w
      = (mkWorld (dev w) (trace w) (log w ++ ws), Ok (LogitechCtrls.mk 0 [])).
Proof.
  intros Hd kiyo.
  assert (Hk : KiyoProCtrls.supported kiyo = false /\ KiyoProCtrls.get_ctrls kiyo = []).
  { unfold kiyo, KiyoProCtrls.init.
    pose proof (no_descriptors_no_unit fs device UVC_EU1_GUID Hd) as H0.
    destruct (find_unit_id_in_sysfs fs device UVC_EU1_GUID) as [uid w1].
    destruct (find_usb_ids_in_sysfs fs device) as [ids w2].
    simpl in H0. subst uid. split; reflexivity. }
  destruct Hk as [Hsup Hctrls]. split; [exact Hsup|]. split; [exact Hctrls|].
  split.
  - intro params. unfold KiyoProCtrls.setup_ctrls. now rewrite Hsup.
  - unfold LogitechCtrls.init.
    pose proof (no_descriptors_no_unit fs device LOGITECH_PERIPHERAL_GUID Hd) as H0.
    destruct (find_unit_id_in_sysfs fs device LOGITECH_PERIPHERAL_GUID) as [uid ws].
    simpl in H0. subst uid. exists ws.
    unfold bind. rewrite warn_each. reflexivity.
Qed.

Lemma vendor_sources_need_descriptors_witness :
  descriptors_of fs_plain "/dev/video0" = None /\
  KiyoProCtrls.supported (fst (KiyoProCtrls.init fs_plain "/dev/video0")) = false /\
  KiyoProCtrls.get_ctrls (fst (KiyoProCtrls.init fs_plain "/dev/video0")) = [].
Proof.
  split; [reflexivity|].
  pose proof (vendor_sources_need_descriptors wb_driver fs_plain "/dev/video0"
                wb_start eq_refl) as H.
  cbv zeta in H. destruct H as [H1 [H2 _]]. split; [exact H1 | exact H2].
Defined.

(** ** Request codes *)

Lemma testbit_small x i : 0 <= x < 2 ^ i -> 0 <= i -> Z.testbit x i = false.
Proof.
  intros Hx Hi. rewrite Z.testbit_eqb by exact Hi.
  rewrite Z.div_small by exact Hx. reflexivity.
Qed.

(** A multiple of [2^n] and a number below [2^n] have no bit in common:
    their bitwise or is their sum. *)
Lemma lor_high_low a n x :
  0 <= n -> 0 <= x < 2 ^ n -> Z.lor (a * 2 ^ n) x = a * 2 ^ n + x.
Proof.
  intros Hn Hx.
  assert (Hland : Z.land (a * 2 ^ n) x = 0).
  { apply Z.bits_inj'. intros i Hi. rewrite Z.land_spec, Z.bits_0.
    destruct (Z_lt_ge_dec i n) as [Hlt | Hge].
    - rewrite Z.mul_pow2_bits_low by lia. reflexivity.
    - rewrite (@testbit_small x i); [apply andb_false_r | | lia].
      pose proof (Z.pow_le_mono_r 2 n i). lia. }
  rewrite <- Z.lxor_lor by exact Hland.
  symmetry. now apply Z.add_nocarry_lxor.
Qed.

Lemma wrap_int32_small n : - 2 ^ 31 <= n < 2 ^ 31 -> wrap_int32 n = n.
Proof. intro H. unfold wrap_int32. rewrite Z.mod_small by lia. lia. Qed.

(** The four fields of a request code lie in separate bits: for a
    direction below 4, a type and a number below 256 and a size below
    [2^14], the low 32 bits of the code are the sum of the shifted fields,
    each of which can be read back from it; and the code, a Python integer
    built from [c_int32] values, is negative exactly for the directions that
    include reading. *)
Theorem ioc_fields dir_ type_ nr size :
  0 <= dir_ < 4 -> 0 <= type_ < 256 -> 0 <= nr < 256 -> 0 <= size < 2 ^ 14 ->
  let code := _IOC dir_ type_ nr size mod 2 ^ 32 in
  code = dir_ * 2 ^ 30 + size * 2 ^ 16 + type_ * 2 ^ 8 + nr /\
  code / 2 ^ 30 = dir_ /\
  (code / 2 ^ 16) mod 2 ^ 14 = size /\
  (code / 2 ^ 8) mod 2 ^ 8 = type_ /\
  code mod 2 ^ 8 = nr /\
  (_IOC dir_ type_ nr size < 0 <-> 2 <= dir_).
Proof.
  intros Hd Ht Hn Hs.
  assert (Hlow : Z.lor (Z.lor (type_ * 2 ^ 8) nr) (size * 2 ^ 16)
                 = size * 2 ^ 16 + type_ * 2 ^ 8 + nr).
  { rewrite (@lor_high_low type_ 8 nr) by lia.
    rewrite Z.lor_comm. rewrite (@lor_high_low size 16) by lia. lia. }
  assert (Hcode : _IOC dir_ type_ nr size
                  = wrap_int32 (dir_ * 2 ^ 30) + (size * 2 ^ 16 + type_ * 2 ^ 8 + nr)).
  { unfold _IOC, _IOC_DIRSHIFT, _IOC_SIZESHIFT, _IOC_TYPESHIFT, _IOC_NRSHIFT,
      _IOC_NRBITS, _IOC_TYPEBITS, _IOC_SIZEBITS.
    cbn [Z.add Pos.add Pos.succ].
    rewrite !Z.shiftl_mul_pow2 by lia.
    rewrite (@wrap_int32_small (type_ * 2 ^ 8)) by lia.
    rewrite (@wrap_int32_small (nr * 2 ^ 0)) by lia.
    rewrite (@wrap_int32_small (size * 2 ^ 16)) by lia.
    rewrite Z.pow_0_r, Z.mul_1_r.
    rewrite <- !Z.lor_assoc. rewrite (Z.lor_assoc (type_ * 2 ^ 8)), Hlow.
    assert (Hw : exists a, wrap_int32 (dir_ * 2 ^ 30) = a * 2 ^ 30).
    { assert (dir_ = 0 \/ dir_ = 1 \/ dir_ = 2 \/ dir_ = 3) as [-> | [-> | [-> | ->]]]
        by lia; [exists 0 | exists 1 | exists (-2) | exists (-1)]; reflexivity. }
    destruct Hw as [a Ha]. rewrite Ha. apply lor_high_low; lia. }
  assert (Hwrap : wrap_int32 (dir_ * 2 ^ 30)
                  = dir_ * 2 ^ 30 - (if 2 <=? dir_ then 2 ^ 32 else 0)).
  { assert (dir_ = 0 \/ dir_ = 1 \/ dir_ = 2 \/ dir_ = 3) as [-> | [-> | [-> | ->]]]
      by lia; reflexivity. }
  cbv zeta.
  assert (Hmod : _IOC dir_ type_ nr size mod 2 ^ 32
                 = dir_ * 2 ^ 30 + size * 2 ^ 16 + type_ * 2 ^ 8 + nr).
  { rewrite Hcode, Hwrap. destruct (2 <=? dir_) eqn:E.
    - apply Z.leb_le in E. replace (dir_ * 2 ^ 30 - 2 ^ 32 + (size * 2 ^ 16 + type_ * 2 ^ 8 + nr))
        with (dir_ * 2 ^ 30 + size * 2 ^ 16 + type_ * 2 ^ 8 + nr + (-1) * 2 ^ 32) by lia.
      rewrite Z.mod_add by lia. apply Z.mod_small. lia.
    - rewrite Z.sub_0_r. rewrite Z.add_assoc, Z.add_assoc. apply Z.mod_small.
      apply Z.leb_gt in E. lia. }
  rewrite Hmod. split; [reflexivity|].
  split; [| split; [| split; [| split]]].
  - replace (dir_ * 2 ^ 30 + size * 2 ^ 16 + type_ * 2 ^ 8 + nr)
      with (size * 2 ^ 16 + type_ * 2 ^ 8 + nr + dir_ * 2 ^ 30) by lia.
    rewrite Z.div_add by lia. rewrite Z.div_small by lia. lia.
  - replace (dir_ * 2 ^ 30 + size * 2 ^ 16 + type_ * 2 ^ 8 + nr)
      with (type_ * 2 ^ 8 + nr + (dir_ * 2 ^ 14 + size) * 2 ^ 16) by lia.
    rewrite Z.div_add by lia. rewrite Z.div_small by lia.
    rewrite Z.add_0_l, Z.add_comm, Z.mod_add by lia. apply Z.mod_small. lia.
  - replace (dir_ * 2 ^ 30 + size * 2 ^ 16 + type_ * 2 ^ 8 + nr)
      with (nr + (dir_ * 2 ^ 22 + size * 2 ^ 8 + type_) * 2 ^ 8) by lia.
    rewrite Z.div_add by lia. rewrite Z.div_small by lia.
    rewrite Z.add_0_l.
    replace (dir_ * 2 ^ 22 + size * 2 ^ 8 + type_)
      with (type_ + (dir_ * 2 ^ 14 + size) * 2 ^ 8) by lia.
    rewrite Z.mod_add by lia. apply Z.mod_small. lia.
  - replace (dir_ * 2 ^ 30 + size * 2 ^ 16 + type_ * 2 ^ 8 + nr)
      with (nr + (dir_ * 2 ^ 22 + size * 2 ^ 8 + type_) * 2 ^ 8) by lia.
    rewrite Z.mod_add by lia. apply Z.mod_small. lia.
  - rewrite Hcode, Hwrap. destruct (2 <=? dir_) eqn:E.
    + apply Z.leb_le in E. split; intro; lia.
    + apply Z.leb_gt in E. split; intro; lia.
Qed.

Lemma ioc_fields_witness :
  0 <= Z.lor _IOC_READ _IOC_WRITE < 4 /\ 0 <= 86 < 256 /\ 0 <= 27 < 256 /\
  0 <= 8 < 2 ^ 14 /\
  _IOWR 86 27 8 mod 2 ^ 32 = 0xC008561B /\
  (_IOWR 86 27 8 < 0 <-> 2 <= Z.lor _IOC_READ _IOC_WRITE).
Proof.
  assert (H1 : 0 <= Z.lor _IOC_READ _IOC_WRITE < 4)
    by (vm_compute; split; [discriminate | reflexivity]).
  assert (H2 : 0 <= 86 < 256) by lia.
  assert (H3 : 0 <= 27 < 256) by lia.
  assert (H4 : 0 <= 8 < 2 ^ 14) by lia.
  pose proof (@ioc_fields (Z.lor _IOC_READ _IOC_WRITE) 86 27 8 H1 H2 H3 H4) as H.
  cbv zeta in H. destruct H as [Hc [_ [_ [_ [_ Hs]]]]].
  split; [exact H1|]. split; [exact H2|]. split; [exact H3|]. split; [exact H4|].
  split; [|exact Hs].
  unfold _IOWR. rewrite Hc. reflexivity.
Defined.

(** ** The [-c] argument *)

Lemma split_on_cons sep s : exists h t, split_on sep s = h :: t.
Proof.
  destruct s as [|c r]; simpl; [now exists EmptyString, []|].
  destruct (Ascii.eqb c sep); [now eexists; eexists|].
  destruct (split_on sep r); now eexists; eexists.
Qed.

Lemma split_on_app sep a r :
  free_of sep a = true ->
  split_on sep (a ++ String sep r) = a :: split_on sep r.
Proof.
  induction a as [|c a IH]; simpl.
  - intros _. now rewrite Ascii.eqb_refl.
  - intro H. apply andb_true_iff in H. destruct H as [Hc Ha].
    apply negb_true_iff in Hc. rewrite Hc, (IH Ha). reflexivity.
Qed.

Lemma split_on_free sep a : free_of sep a = true -> split_on sep a = [a].
Proof.
  induction a as [|c a IH]; simpl; [reflexivity|].
  intro H. apply andb_true_iff in H. destruct H as [Hc Ha].
  apply negb_true_iff in Hc. rewrite Hc, (IH Ha). reflexivity.
Qed.

Lemma split_on_join pieces :
  pieces <> [] ->
  Forall (fun p => free_of comma p = true) pieces ->
  split_on comma (join "," pieces) = pieces.
Proof.
  induction pieces as [|p pieces IH]; [congruence|].
  intros _ Hall. inversion Hall as [|? ? Hp Hrest]; subst.
  destruct pieces as [|q pieces].
  - simpl. now apply split_on_free.
  - change (join "," (p :: q :: pieces))
      with (p ++ String comma (join "," (q :: pieces)))%string.
    rewrite split_on_app by exact Hp. f_equal. apply IH; [discriminate | exact Hrest].
Qed.

Lemma split_first_app sep k v :
  free_of sep k = true ->
  split_first sep (k ++ String sep v) = Some (k, v).
Proof.
  induction k as [|c k IH]; simpl.
  - intros _. now rewrite Ascii.eqb_refl.
  - intro H. apply andb_true_iff in H. destruct H as [Hc Hk].
    apply negb_true_iff in Hc. rewrite Hc, (IH Hk). reflexivity.
Qed.

Lemma free_of_app c a b :
  free_of c (a ++ b) = free_of c a && free_of c b.
Proof.
  induction a as [|x a IH]; simpl; [reflexivity|].
  unfold free_of in IH |- *. simpl. now rewrite IH, andb_assoc.
Qed.

Lemma dict_set_fresh d k v :
  ~ In k (map fst d) -> dict_set d k v = d ++ [(k, v)].
Proof.
  induction d as [|[k' v'] d IH]; simpl; [reflexivity|].
  intro Hn. destruct (String.eqb k' k) eqn:E.
  - apply String.eqb_eq in E. exfalso. apply Hn. now left.
  - rewrite IH; [reflexivity|]. intro Hin. apply Hn. now right.
Qed.

Lemma dict_set_keys d k v :
  map fst (dict_set d k v) =
  if CameraCtrls.mem k (map fst d) then map fst d else map fst d ++ [k].
Proof.
  induction d as [|[k' v'] d IH]; simpl; [reflexivity|].
  rewrite (String.eqb_sym k k').
  destruct (String.eqb k' k) eqn:E; simpl; [reflexivity|].
  rewrite IH. unfold CameraCtrls.mem.
  destruct (existsb (String.eqb k) (map fst d)); reflexivity.
Qed.

Lemma parse_piece_assignment acc inv k v :
  free_of equals k = true ->
  parse_piece (acc, inv) (assignment (k, v)) = (dict_set acc k v, inv).
Proof.
  intro Hk. unfold parse_piece, assignment. cbn [fst snd].
  change (k ++ "=" ++ v)%string with (k ++ String equals v)%string.
  now rewrite split_first_app by exact Hk.
Qed.

Lemma parse_pieces pairs : forall acc inv,
  NoDup (map fst acc ++ map fst pairs) ->
  Forall plain_pair pairs ->
  fold_left parse_piece (map assignment pairs) (acc, inv) = (acc ++ pairs, inv).
Proof.
  induction pairs as [|[k v] pairs IH]; intros acc inv Hnd Hall.
  - simpl. now rewrite app_nil_r.
  - inversion Hall as [|? ? [Hk1 [Hk2 Hv]] Hrest]; subst. cbn [fst snd] in *.
    cbn [map fold_left]. rewrite parse_piece_assignment by exact Hk2.
    rewrite dict_set_fresh.
    + rewrite IH; [now rewrite <- app_assoc| |exact Hrest].
      rewrite map_app. simpl. now rewrite <- app_assoc.
    + simpl in Hnd. apply NoDup_remove_2 in Hnd.
      intro Hin. apply Hnd. apply in_or_app. now left.
Qed.

Lemma assignment_plain kv :
  plain_pair kv -> free_of comma (assignment kv) = true.
Proof.
  intros [Hk [_ Hv]]. unfold assignment.
  change (fst kv ++ "=" ++ snd kv)%string
    with (fst kv ++ String equals (snd kv))%string.
  rewrite free_of_app, Hk. simpl. exact Hv.
Qed.

Lemma assignment_not_empty kv rest :
  String.eqb (join "," (assignment kv :: rest)) "" = false.
Proof.
  apply String.eqb_neq.
  assert (H : forall a b, (a ++ String equals b)%string <> ""%string)
    by (intros [|c a] b; discriminate).
  destruct rest as [|r rest].
  - apply H.
  - simpl. unfold assignment.
    change (fst kv ++ "=" ++ snd kv)%string
      with (fst kv ++ String equals (snd kv))%string.
    destruct (fst kv); discriminate.
Qed.

(** The argument written from a map by joining its [id=value] texts with
    commas is read back as that map, in order and with nothing reported
    invalid, provided its ids are distinct and hold no comma or equals sign
    and its values hold no comma (a value may hold equals signs). *)
Theorem parse_controls_round_trip pairs :
  NoDup (map fst pairs) ->
  Forall plain_pair pairs ->
  parse_controls (join "," (map assignment pairs)) = (pairs, []).
Proof.
  intros Hnd Hall. unfold parse_controls.
  destruct pairs as [|kv pairs]; [reflexivity|].
  cbn [map]. rewrite assignment_not_empty.
  change (assignment kv :: map assignment pairs) with (map assignment (kv :: pairs)).
  rewrite split_on_join.
  - now rewrite parse_pieces.
  - discriminate.
  - apply Forall_forall. intros p Hp. apply in_map_iff in Hp.
    destruct Hp as [x [<- Hx]]. apply assignment_plain.
    rewrite Forall_forall in Hall. now apply Hall.
Qed.

Lemma parse_controls_round_trip_witness :
  NoDup (map fst [("brightness", "128"); ("kiyo_pro_hdr", "on")]) /\
  Forall plain_pair [("brightness", "128"); ("kiyo_pro_hdr", "on")] /\
  parse_controls "brightness=128,kiyo_pro_hdr=on"
    = ([("brightness", "128"); ("kiyo_pro_hdr", "on")], []).
Proof.
  assert (Hn : NoDup (map fst [("brightness", "128"); ("kiyo_pro_hdr", "on")]))
    by (apply distinct_NoDup; reflexivity).
  assert (Hp : Forall plain_pair [("brightness", "128"); ("kiyo_pro_hdr", "on")])
    by (repeat constructor).
  split; [exact Hn|]. split; [exact Hp|].
  exact (parse_controls_round_trip Hn Hp).
Defined.

Lemma parse_pieces_keys pieces : forall acc,
  NoDup (map fst (fst acc)) ->
  NoDup (map fst (fst (fold_left parse_piece pieces acc))).
Proof.
  induction pieces as [|p pieces IH]; intros acc Hnd; [exact Hnd|].
  cbn [fold_left]. apply IH. unfold parse_piece.
  destruct (split_first equals p) as [[k v]|]; [|exact Hnd].
  cbn [fst]. rewrite dict_set_keys.
  destruct (CameraCtrls.mem k (map fst (fst acc))) eqn:E; [exact Hnd|].
  apply NoDup_app; [exact Hnd | repeat constructor; intros [] |].
  intros a Ha [<- | []]. apply mem_In in Ha. congruence.
Qed.

(** Whatever the argument, the map read from it holds every id once. *)
Theorem parse_controls_keys_unique controls :
  NoDup (map fst (fst (parse_controls controls))).
Proof.
  unfold parse_controls. destruct (String.eqb controls "").
  - constructor.
  - apply parse_pieces_keys. constructor.
Qed.

(** An id assigned twice is kept once, at the place of its first
    assignment and with the value of the second. *)
Theorem parse_controls_last_wins k v1 v2 :
  plain_pair (k, v1) -> plain_pair (k, v2) ->
  parse_controls (join "," [assignment (k, v1); assignment (k, v2)])
    = ([(k, v2)], []).
Proof.
  intros H1 H2. unfold parse_controls. rewrite assignment_not_empty.
  rewrite split_on_join.
  - destruct H1 as [_ [Hk _]]. cbn [fst] in Hk. cbn [fold_left].
    rewrite !parse_piece_assignment by exact Hk.
    simpl. now rewrite String.eqb_refl.
  - discriminate.
  - repeat constructor; now apply assignment_plain.
Qed.

Lemma parse_controls_last_wins_witness :
  plain_pair ("gamma", "100") /\ plain_pair ("gamma", "120") /\
  parse_controls "gamma=100,gamma=120" = ([("gamma", "120")], []).
Proof.
  assert (H1 : plain_pair ("gamma", "100")) by (repeat split).
  assert (H2 : plain_pair ("gamma", "120")) by (repeat split).
  split; [exact H1|]. split; [exact H2|].
  exact (parse_controls_last_wins H1 H2).
Defined.

(** ** Logitech source: an integer that is no byte *)

(** An integer outside 0..255 for the integer control of the Logitech
    source ends [setup_ctrls] with a [TypeError], after the register was
    read once and before anything is written. *)
Theorem logitech_set_out_of_range {D} (drv : driver D) self k v ctrl n rest w :
  LogitechCtrls.supported self = true ->
  logitech_shape (LogitechCtrls.ctrls self) ->
  find_by_text_id (LogitechCtrls.ctrls self) k = Some ctrl ->
  BaseCtrl.type (LogitechCtrl.base ctrl) = "integer" ->
  py_int v = Some n ->
  n < 0 \/ 256 <= n ->
  exists w1,
    LogitechCtrls.setup_ctrls drv self ((k, v) :: rest) w = (w1, Raise TypeError) /\
    xu_payloads (trace w1) =
      xu_payloads (trace w) ++
      [(UVC_GET_CUR, to_buf (zero_bytes (LogitechCtrl._len ctrl)))].
Proof.
  intros Hsup Hshape Hfind Hty Hv Hn.
  destruct (logitech_found k Hshape Hfind) as [d [Hd [_ [_ [_ [Hlen Hoff]]]]]].
  assert (Hrange : 0 <= LogitechCtrl._offset ctrl < LogitechCtrl._len ctrl + 1).
  { rewrite Hlen, Hoff. unfold LogitechCtrls.declared_controls in Hd.
    destruct Hd as [<- | [<- | []]]; vm_compute; split; (discriminate || reflexivity). }
  set (blank := to_buf (zero_bytes (LogitechCtrl._len ctrl))).
  assert (Hblank : Z.of_nat (List.length blank) = LogitechCtrl._len ctrl + 1)
    by (apply to_buf_zero_length; lia).
  destruct (query_xu_control_payload drv (LogitechCtrls.unit_id self)
              (LogitechCtrl._selector ctrl) blank w (q := UVC_GET_CUR))
    as [w1 [frame [Hq1 [Hl1 Hp1]]]]; [discriminate|].
  destruct (@buf_set_spec frame (LogitechCtrl._offset ctrl) n)
    as [written [Hset _]]; [lia|].
  exists w1. split; [|exact Hp1].
  unfold LogitechCtrls.setup_ctrls. rewrite Hsup. cbn [negb for_each].
  unfold LogitechCtrls.setup_item. rewrite Hfind, Hty, Hv.
  change (String.eqb "integer" "menu") with false.
  change (String.eqb "integer" "integer") with true. cbv iota.
  unfold lift. unfold bind at 1. unfold bind at 1. unfold ret at 1.
  unfold LogitechCtrls.write_and_verify. fold blank.
  rewrite (bind_ok _ _ Hq1).
  unfold bind, LogitechCtrls.store_byte. rewrite Hset.
  destruct (0 <=? n) eqn:E1; destruct (n <? 256) eqn:E2; try reflexivity. lia.
Qed.

Lemma logitech_set_out_of_range_witness :
  LogitechCtrls.supported logitech_discovered = true /\
  logitech_shape (LogitechCtrls.ctrls logitech_discovered) /\
  find_by_text_id (LogitechCtrls.ctrls logitech_discovered)
    "logitech_led1_frequency" = Some led_frequency_ctrl /\
  BaseCtrl.type (LogitechCtrl.base led_frequency_ctrl) = "integer" /\
  py_int "300" = Some 300 /\
  (300 < 0 \/ 256 <= 300) /\
  exists w1,
    LogitechCtrls.setup_ctrls (led_driver accept_write) logitech_discovered
      [("logitech_led1_frequency", "300")] led_start = (w1, Raise TypeError) /\
    xu_payloads (trace w1) =
      xu_payloads (trace led_start) ++
      [(UVC_GET_CUR, to_buf (zero_bytes (LogitechCtrl._len led_frequency_ctrl)))].
Proof.
  assert (Hs : logitech_shape (LogitechCtrls.ctrls logitech_discovered)).
  { unfold logitech_shape, logitech_same. simpl. repeat constructor. }
  assert (Hn : 300 < 0 \/ 256 <= 300) by (right; lia).
  split; [reflexivity|]. split; [exact Hs|]. split; [reflexivity|].
  split; [reflexivity|]. split; [reflexivity|]. split; [exact Hn|].
  exact (@logitech_set_out_of_range _ (led_driver accept_write) logitech_discovered
           "logitech_led1_frequency" "300" led_frequency_ctrl 300 [] led_start
           eq_refl Hs eq_refl eq_refl eq_refl Hn).
Defined.

(** ** Native source: setting a menu *)

(** A request [k=v] for a native menu control.  With [v] the id of an
    entry, the entry's index is what is written; when the driver answers
    with that index the control is then found holding the text [v], every
    other control as before, and nothing is logged; with any other answer
    the source is as it was and one warning is logged.  With a [v] that is
    no entry's id nothing is written and nothing changes but the log. *)
Theorem v4l2_set_menu_entry {D} (drv : driver D) self k v ctrl w :
  find_by_text_id (V4L2Ctrls.ctrls self) k = Some ctrl ->
  BaseCtrl.type (V4L2Ctrl.base ctrl) = "menu" ->
  match find_by_text_id (BaseCtrl.entries (V4L2Ctrl.base ctrl)) v with
  | Some menu =>
      let sent := wrap_int32 (BaseCtrlMenu.value menu) in
      let answer := snd (ioctl_s_ctrl drv (dev w) (V4L2Ctrl._id ctrl) sent) in
      exists w' self',
        V4L2Ctrls.setup_item drv self (k, v) w = (w', Ok self') /\
        trace w' = trace w ++ [VIDIOC_S_CTRL (V4L2Ctrl._id ctrl) sent] /\
        (answer = Some (BaseCtrlMenu.value menu) ->
         find_by_text_id (V4L2Ctrls.ctrls self') k =
           Some (V4L2Ctrl.with_base ctrl
                   (BaseCtrl.set_value (V4L2Ctrl.base ctrl) (VStr v))) /\
         (forall k', k' <> k ->
            find_by_text_id (V4L2Ctrls.ctrls self') k' =
            find_by_text_id (V4L2Ctrls.ctrls self) k') /\
         map text_id_of (V4L2Ctrls.ctrls self') =
           map text_id_of (V4L2Ctrls.ctrls self) /\
         log w' = log w) /\
        (answer <> Some (BaseCtrlMenu.value menu) ->
         self' = self /\ exists x, log w' = log w ++ [x])
  | None =>
      V4L2Ctrls.setup_item drv self (k, v) w
        = (logged w (W_v4l2_no_menu v
                       (map text_id_of (BaseCtrl.entries (V4L2Ctrl.base ctrl)))),
           Ok self)
  end.
Proof.
  intros Hc Hty. unfold V4L2Ctrls.setup_item. rewrite Hc, Hty.
  change (String.eqb "menu" "integer") with false.
  change (String.eqb "menu" "boolean") with false.
  change (String.eqb "menu" "menu") with true. cbv iota.
  destruct (find_by_text_id (BaseCtrl.entries (V4L2Ctrl.base ctrl)) v) as [menu|].
  - cbv zeta.
    destruct (write_ctrl_run drv self k v ctrl (BaseCtrlMenu.value menu) w)
      as [w' [self' [Hrun [Htr [_ Hcase]]]]].
    exists w', self'. split; [exact Hrun|]. split; [exact Htr|].
    split.
    + intro Hecho. destruct Hcase as [[_ [Hs Hl]] | [Hne _]]; [|contradiction].
      rewrite Hs, Hty.
      change (String.eqb "menu" "menu") with true. cbv iota.
      destruct (@v4l2_store_lookup self k (VStr v) ctrl Hc) as [H1 [H2 H3]].
      split; [exact H1|]. split; [exact H2|]. split; [exact H3 | exact Hl].
    + intro Hne. destruct Hcase as [[Ha _] | [_ Hrest]]; [contradiction | exact Hrest].
  - reflexivity.
Qed.

Lemma v4l2_set_menu_entry_witness :
  find_by_text_id [plf_ctrl] "power_line_frequency" = Some plf_ctrl /\
  BaseCtrl.type (V4L2Ctrl.base plf_ctrl) = "menu" /\
  exists w' self',
    V4L2Ctrls.setup_item plf_driver (V4L2Ctrls.mk [plf_ctrl])
      ("power_line_frequency", "60_hz") plf_start = (w', Ok self') /\
    trace w' = trace plf_start ++ [VIDIOC_S_CTRL V4L2_CID_POWER_LINE_FREQUENCY 2] /\
    option_map (fun c => BaseCtrl.value (V4L2Ctrl.base c))
      (find_by_text_id (V4L2Ctrls.ctrls self') "power_line_frequency")
      = Some (VStr "60_hz") /\
    log w' = log plf_start.
Proof.
  split; [reflexivity|]. split; [reflexivity|].
  pose proof (@v4l2_set_menu_entry _ plf_driver (V4L2Ctrls.mk [plf_ctrl])
                "power_line_frequency" "60_hz" plf_ctrl plf_start
                eq_refl eq_refl) as H.
  change (find_by_text_id (BaseCtrl.entries (V4L2Ctrl.base plf_ctrl)) "60_hz")
    with (Some (BaseCtrlMenu.mk "60_hz" "60 Hz" 2)) in H.
  cbv zeta in H. destruct H as [w' [self' [H1 [H2 [H3 _]]]]].
  exists w', self'. split; [exact H1|]. split; [exact H2|].
  destruct (H3 eq_refl) as [Hf [_ [_ Hl]]].
  split; [now rewrite Hf | exact Hl].
Defined.
